(** * Mortality multiple-cause-of-death 2022: the record decoding engine

    A shallow embedding of [src/utils.py], the code tables of
    [src/schema.py] and the decoders, the row assembler and the batch
    pipeline of [src/main.py], followed by the properties of the
    specification that are stated about them.

    Conventions of the embedding.
    - Python [str] is [string]; a character is a code point below 256.
    - Python [int] is [Z]; list lengths and slice bounds are [nat].
    - A function decorated with [@propagate_result] returns [Ok] or [Err];
      [.up()] is the bind of the [outcome] monad.  An exception that the
      decorator does not turn into [Err] ([KeyError], [IndexError],
      [ValueError], [AttributeError], and polars' [TypeError] and
      [SchemaError]) is the third constructor [Raise].
    - A Python [dict] whose insertion order is kept is an association
      list; [dict_set] replaces in place or appends, as [d[k] = v] does.
    - A polars [DataFrame] is its list of rows together with the schema
      inferred from them when the frame is built; [pl.concat] joins the
      rows of frames that have the same schema and refuses the others;
      the final cast is a row-wise function taken as a section
      variable. *)

From Stdlib Require Import String Ascii ZArith List Bool Arith Lia.
From Stdlib Require Import DecimalString Permutation.
Import ListNotations.

Open Scope string_scope.
Open Scope Z_scope.

(** ** Results and exceptions *)

Inductive exn : Type :=
| KeyError
| IndexError
| ValueError
| AttributeError
| TypeError
| SchemaError.

Inductive outcome (A : Type) : Type :=
| Ok (a : A)
| Err (msg : string)
| Raise (e : exn).

Arguments Ok {A} a.
Arguments Err {A} msg.
Arguments Raise {A} e.

Definition bind {A B : Type} (c : outcome A) (k : A -> outcome B) : outcome B :=
  match c with
  | Ok a => k a
  | Err msg => Err msg
  | Raise e => Raise e
  end.

Notation "x <- c ;; k" := (bind c (fun x => k))
  (at level 61, c at next level, right associativity).
Notation "' pat <- c ;; k" := (bind c (fun x => match x with pat => k end))
  (at level 61, pat pattern, c at next level, right associativity).

Definition is_ok {A : Type} (c : outcome A) : bool :=
  match c with Ok _ => true | _ => false end.

(** ** Python strings *)

(** [str.isspace] on code points below 256: tab, line feed, vertical tab,
    form feed, carriage return, the four separators 28..31, space, NEL
    and the no-break space. *)
Definition is_space (c : ascii) : bool :=
  let n := nat_of_ascii c in
  ((9 <=? n) && (n <=? 13) || (28 <=? n) && (n <=? 32)
   || (n =? 133) || (n =? 160))%nat.

Fixpoint lstrip (space : ascii -> bool) (s : string) : string :=
  match s with
  | EmptyString => EmptyString
  | String c s' => if space c then lstrip space s' else s
  end.

Fixpoint rstrip (space : ascii -> bool) (s : string) : string :=
  match s with
  | EmptyString => EmptyString
  | String c s' =>
      match rstrip space s' with
      | EmptyString => if space c then EmptyString else String c EmptyString
      | r => String c r
      end
  end.

(** [s.strip()] *)
Definition strip (s : string) : string := rstrip is_space (lstrip is_space s).

(** [s[i:j]] for [0 <= i], [0 <= j]: clipped to the string, never failing. *)
Definition slice (i j : nat) (s : string) : string := substring i (j - i) s.

(** [s[i:]] and [s[:j]] *)
Definition slice_from (i : nat) (s : string) : string :=
  substring i (String.length s - i) s.
Definition slice_to (j : nat) (s : string) : string := substring 0 j s.

(** [s[i]]: raises [IndexError] past the end. *)
Definition char_at (i : nat) (s : string) : outcome string :=
  match get i s with
  | Some c => Ok (String c EmptyString)
  | None => Raise IndexError
  end.

(** [s.split(sep)] for a one-character separator. *)
Fixpoint split (sep : ascii) (s : string) : list string :=
  match s with
  | EmptyString => [EmptyString]
  | String c s' =>
      if Ascii.eqb c sep then EmptyString :: split sep s'
      else match split sep s' with
           | [] => [String c EmptyString]
           | w :: ws => String c w :: ws
           end
  end.

(** [s.startswith(p)] *)
Definition startswith (p s : string) : bool := prefix p s.

(** [str(v)] for an [int]. *)
Definition str_of_int (v : Z) : string := NilZero.string_of_int (Z.to_int v).

(** The whitespace [int] drops around a number: the separators 28..31,
    which [str.strip] removes, are not part of it. *)
Definition is_int_space (c : ascii) : bool :=
  let n := nat_of_ascii c in
  ((9 <=? n) && (n <=? 13) || (n =? 32) || (n =? 133) || (n =? 160))%nat.

(** [int(s)] in base ten: surrounding whitespace is dropped, one sign is
    allowed, then digits, single underscores allowed between two digits.
    [None] stands for [ValueError].  (The interpreter's cap on the number
    of digits, 4300 by default, is far above the seven characters of the
    widest field and is not modelled.) *)
Definition digit_of (c : ascii) : option Z :=
  let n := nat_of_ascii c in
  if ((48 <=? n) && (n <=? 57))%nat then Some (Z.of_nat (n - 48)) else None.

Fixpoint digits_tail (acc : Z) (s : string) : option Z :=
  match s with
  | EmptyString => Some acc
  | String c s' =>
      match digit_of c with
      | Some d => digits_tail (10 * acc + d) s'
      | None =>
          if Ascii.eqb c "_" then
            match s' with
            | EmptyString => None
            | String c2 s'' =>
                match digit_of c2 with
                | Some d => digits_tail (10 * acc + d) s''
                | None => None
                end
            end
          else None
      end
  end.

Definition digits (s : string) : option Z :=
  match s with
  | EmptyString => None
  | String c s' =>
      match digit_of c with
      | Some d => digits_tail d s'
      | None => None
      end
  end.

Definition int_of_str (s : string) : option Z :=
  match rstrip is_int_space (lstrip is_int_space s) with
  | String "-" body => option_map Z.opp (digits body)
  | String "+" body => digits body
  | body => digits body
  end.

(** ** Python values *)

(** The values the decoders put in a row. *)
#[warnings="-register-all"]
Inductive pyval : Type :=
| PNone
| PBool (b : bool)
| PInt (z : Z)
| PStr (s : string)
| PTuple (lo hi : Z)
| PCond (certificate_part : string) (certificate_line : Z) (condition : string)
| PList (l : list pyval).

(** Truth value of an object, as [if x], [x or y] and [x and y] test it.
    A 2-tuple and a three-key dict are never empty. *)
Definition truthy (v : pyval) : bool :=
  match v with
  | PNone => false
  | PBool b => b
  | PInt z => negb (z =? 0)
  | PStr s => negb (s =? "")%string
  | PTuple _ _ => true
  | PCond _ _ _ => true
  | PList l => match l with [] => false | _ => true end
  end.

(** [x or y] *)
Definition py_or (x y : pyval) : pyval := if truthy x then x else y.

(** ** Dictionaries *)

Section Dict.
Context {K : Type} (keq : K -> K -> bool).

(** [d.get(k)]: the value, [None] for a missing key. *)
Fixpoint dict_get (d : list (K * pyval)) (k : K) : pyval :=
  match d with
  | [] => PNone
  | (k', v) :: d' => if keq k k' then v else dict_get d' k
  end.

(** [k in d.keys()] *)
Fixpoint dict_has (d : list (K * pyval)) (k : K) : bool :=
  match d with
  | [] => false
  | (k', _) :: d' => keq k k' || dict_has d' k
  end.

(** [d[k] = v]: a present key keeps its place, a new key goes last. *)
Fixpoint dict_set (d : list (K * pyval)) (k : K) (v : pyval) : list (K * pyval) :=
  match d with
  | [] => [(k, v)]
  | (k', v') :: d' =>
      if keq k k' then (k', v) :: d' else (k', v') :: dict_set d' k v
  end.

End Dict.

(** [d[k]] on a dict with [int] keys: raises [KeyError] for a missing key. *)
Fixpoint dict_item {V : Type} (d : list (Z * V)) (k : Z) : outcome V :=
  match d with
  | [] => Raise KeyError
  | (k', v) :: d' => if k =? k' then Ok v else dict_item d' k
  end.

Definition dict : Type := list (string * pyval).

(** ** src/utils.py *)

(** [maybe_del(d, key)]: removes the key when it is there. *)
Fixpoint maybe_del (d : dict) (key : string) : dict :=
  match d with
  | [] => []
  | (k, v) :: d' => if (k =? key)%string then d' else (k, v) :: maybe_del d' key
  end.

Definition try_parse_int (s : string) : outcome Z :=
  match int_of_str s with
  | Some i => Ok i
  | None => Err ("Could not parse '" ++ s ++ "' as an integer.")
  end.

Definition RangeKeyedDict : Type := list ((Z * Z) * pyval).

Fixpoint get_in_range (d : RangeKeyedDict) (v : Z) : pyval :=
  match d with
  | [] => PNone
  | ((start, end_), value) :: d' =>
      if (start <=? v) && (v <=? end_) then value else get_in_range d' v
  end.

Definition range_keyed_dict_has_key (d : RangeKeyedDict) (v : Z) : bool :=
  existsb (fun '((start, end_), _) => (start <=? v) && (v <=? end_)) d.

(** ** src/schema.py: the code tables *)

Definition int_table : Type := list (Z * pyval).
Definition str_table : Type := list (string * pyval).

Definition record_type_mapping : int_table :=
  [(1, PStr "RESIDENTS"); (2, PStr "NONRESIDENTS")].

Definition resident_status_mapping : int_table :=
  [(1, PStr "RESIDENT");
   (2, PStr "INTRASTATE_NONRESIDENT");
   (3, PStr "INTERSTATE_NONRESIDENT");
   (4, PStr "FOREIGN_RESIDENT")].

Definition education_mapping : int_table :=
  [(1, PStr "8TH_GRADE_OR_LESS");
   (2, PStr "9_12TH_GRADE_NO_DIPLOMA");
   (3, PStr "HIGH_SCHOOL_GRADUATE_OR_GED_COMPLETED");
   (4, PStr "SOME_COLLEGE_CREDIT_NO_DEGREE");
   (5, PStr "ASSOCIATE_DEGREE");
   (6, PStr "BACHELOR_DEGREE");
   (7, PStr "MASTER_DEGREE");
   (8, PStr "DOCTORATE_DEGREE_OR_PROFESSIONAL_DEGREE");
   (9, PNone)].

Definition education_reporting_flag_mapping : int_table :=
  [(1, PStr "2003_REVISION");
   (2, PStr "NO_EDUCATION_ITEM_ON_CERTIFICATE")].

Definition sex_mapping : str_table := [("M", PStr "M"); ("F", PStr "F")].

Definition place_of_death_mapping : int_table :=
  [(1, PStr "HOSPITAL_CLINIC_OR_MEDICAL_CENTER_INPATIENT");
   (2, PStr "HOSPITAL_CLINIC_OR_MEDICAL_CENTER_OUTPATIENT_OR_ER");
   (3, PStr "HOSPITAL_CLINIC_OR_MEDICAL_CENTER_DEAD_ON_ARRIVAL");
   (4, PStr "DECEDENT_S_HOME");
   (5, PStr "HOSPICE_FACILITY");
   (6, PStr "NURSING_HOME_LONG_TERM_CARE");
   (7, PStr "OTHER");
   (9, PNone)].

Definition marital_status_mapping : str_table :=
  [("S", PStr "NEVER_MARRIED_SINGLE");
   ("M", PStr "MARRIED");
   ("W", PStr "WIDOWED");
   ("D", PStr "DIVORCED");
   ("U", PNone)].

Definition day_of_week_of_death_mapping : int_table :=
  [(1, PStr "SUNDAY");
   (2, PStr "MONDAY");
   (3, PStr "TUESDAY");
   (4, PStr "WEDNESDAY");
   (5, PStr "THURSDAY");
   (6, PStr "FRIDAY");
   (7, PStr "SATURDAY");
   (9, PNone)].

Definition injury_at_work_mapping : str_table :=
  [("Y", PBool true); ("N", PBool false); ("U", PNone)].

Definition manner_of_death_mapping : int_table :=
  [(1, PStr "ACCIDENT");
   (2, PStr "SUICIDE");
   (3, PStr "HOMICIDE");
   (4, PStr "PENDING_INVESTIGATION");
   (5, PStr "COULD_NOT_DETERMINE");
   (6, PStr "SELF_INFLICTED");
   (7, PStr "NATURAL")].

Definition method_of_disposition_mapping : str_table :=
  [("B", PStr "BURIAL");
   ("C", PStr "CREMATION");
   ("D", PStr "DONATION");
   ("E", PStr "ENTOMBMENT");
   ("O", PStr "OTHER");
   ("R", PStr "REMOVAL_FROM_JURISDICTION");
   ("U", PNone)].

Definition autopsy_mapping : str_table :=
  [("Y", PBool true); ("N", PBool false); ("U", PNone)].

Definition activity_code_mapping : int_table :=
  [(0, PStr "ENGAGED_IN_SPORTS");
   (1, PStr "ENGAGED_IN_LEISURE_ACTIVITY");
   (2, PStr "WORKING_FOR_INCOME");
   (3, PStr "ENGAGED_IN_OTHER_TYPES_OF_WORK");
   (4, PStr "VITAL_ACTIVITIES");
   (8, PNone);
   (9, PNone)].

Definition place_of_injury_mapping : int_table :=
  [(0, PStr "HOME");
   (1, PStr "RESIDENTIAL_INSTITUTION");
   (2, PStr "INSTITUTION_OR_PUBLIC_ADMINISTRATIVE_AREA");
   (3, PStr "SPORTS_AND_ATTHLETICS_AREA");
   (4, PStr "STREET_AND_HIGHWAY");
   (5, PStr "TRADE_AND_SERVICE_AREA");
   (6, PStr "INDUSTRIAL_AND_CONSTRUCTION_AREA");
   (7, PStr "FARM");
   (8, PNone);
   (9, PNone)].

Definition race_recode_6_mapping : int_table :=
  [(1, PStr "WHITE");
   (2, PStr "BLACK");
   (3, PStr "AMERICAN_INDIAN_AND_ALASKA_NATIVE");
   (4, PStr "ASIAN");
   (5, PStr "NATIVE_HAWAIIAN_AND_OTHER_PACIFIC_ISLANDER");
   (6, PStr "MORE_THAN_ONE_R")].

Definition hispanic_origin_mapping : RangeKeyedDict :=
  [((100, 199), PStr "NON_HISPANIC");
   ((200, 209), PStr "SPANIARD");
   ((210, 219), PStr "MEXICAN");
   ((220, 230), PStr "CENTRAL_AMERICAN");
   ((231, 249), PStr "SOUTH_AMERICAN");
   ((250, 259), PStr "LATIN_AMERICAN");
   ((260, 269), PStr "PUERTO_RICAN");
   ((270, 274), PStr "CUBAN");
   ((275, 279), PStr "DOMINICAN");
   ((280, 299), PStr "OTHER_HISPANIC");
   ((996, 999), PNone)].

Definition hispanic_origin_race_recode_mapping : int_table :=
  [(1, PStr "MEXICAN");
   (2, PStr "PUERTO_RICAN");
   (3, PStr "CUBAN");
   (4, PStr "DOMINICAN");
   (5, PStr "CENTRAL_AMERICAN");
   (6, PStr "SOUTH_AMERICAN");
   (7, PStr "OTHER_HISPANIC");
   (8, PStr "NON_HISPANIC_WHITE");
   (9, PStr "NON_HISPANIC_BLACK");
   (10, PStr "NON_HISPANIC_AMERICAN_INDIAN_AND_ALASKA_NATIVE");
   (11, PStr "NON_HISPANIC_ASIAN");
   (12, PStr "NON_HISPANIC_NATIVE_HAWAIIAN_AND_OTHER_PACIFIC_ISLANDER");
   (13, PStr "NON_HISPANIC_MORE_THAN_ONE_R");
   (14, PNone)].

Definition race_recode_40_mapping : int_table :=
  [(1, PStr "WHITE");
   (2, PStr "BLACK");
   (3, PStr "AIAN");
   (4, PStr "ASIAN_INDIAN");
   (5, PStr "CHINESE");
   (6, PStr "FILIPINO");
   (7, PStr "JAPANESE");
   (8, PStr "KOREAN");
   (9, PStr "VIETNAMESE");
   (10, PStr "OTHER_ASIAN");
   (11, PStr "HAWAIIAN");
   (12, PStr "GUAMANIAN");
   (13, PStr "SAMOAN");
   (14, PStr "OTHER_PACIFIC_ISLANDER");
   (15, PStr "BLACK_WHITE");
   (16, PStr "BLACK_AIAN");
   (17, PStr "BLACK_ASIAN");
   (18, PStr "BLACK_NHOPI");
   (19, PStr "AIAN_WHITE");
   (20, PStr "AIAN_ASIAN");
   (21, PStr "AIAN_NHOPI");
   (22, PStr "ASIAN_WHITE");
   (23, PStr "ASIAN_NHOPI");
   (24, PStr "NHOPI_WHITE");
   (25, PStr "BLACK_AIAN_WHITE");
   (26, PStr "BLACK_AIAN_ASIAN");
   (27, PStr "BLACK_AIAN_NHOPI");
   (28, PStr "BLACK_ASIAN_WHITE");
   (29, PStr "BLACK_ASIAN_NHOPI");
   (30, PStr "BLACK_NHOPI_WHITE");
   (31, PStr "AIAN_ASIAN_WHITE");
   (32, PStr "AIAN_NHOPI_WHITE");
   (33, PStr "AIAN_ASIAN_NHOPI");
   (34, PStr "ASIAN_NHOPI_WHITE");
   (35, PStr "BLACK_AIAN_ASIAN_WHITE");
   (36, PStr "BLACK_AIAN_ASIAN_NHOPI");
   (37, PStr "BLACK_AIAN_NHOPI_WHITE");
   (38, PStr "BLACK_ASIAN_NHOPI_WHITE");
   (39, PStr "AIAN_ASIAN_NHOPI_WHITE");
   (40, PStr "BLACK_AIAN_ASIAN_NHOPI_WHITE")].

Definition decedent_occupation_recode_mapping : int_table :=
  [(1, PStr "MANAGEMENT");
   (2, PStr "BUSINESS_AND_FINANCIAL_OPERATIONS");
   (3, PStr "COMPUTATIONAL_AND_MATHEMATICAL");
   (4, PStr "ARCHITECTURE_AND_ENGINEERING");
   (5, PStr "LIFE_PHYSICAL_AND_SOCIAL_SCIENCE");
   (6, PStr "COMMUNITY_AND_SOCIAL_SERVICES");
   (7, PStr "LEGAL");
   (8, PStr "EDUCATION_TRAINING_AND_LIBRARY");
   (9, PStr "ARTS_DESIGN_ENTERTAINMENT_SPORTS_AND_MEDIA");
   (10, PStr "HEALTHCARE_PRACTITIONERS_AND_TECHNICAL");
   (11, PStr "HEALTHCARE_SUPPORT");
   (12, PStr "PROTECTIVE_SERVICE");
   (13, PStr "FOOD_PREPARATION_AND_SERVING");
   (14, PStr "BUILDING_AND_GROUNDS_CLEANING_AND_MAINTENANCE");
   (15, PStr "PERSONAL_CARE_AND_SERVICE");
   (16, PStr "SALES_AND_RELATED");
   (17, PStr "OFFICE_AND_ADMINISTRATIVE_SUPPORT");
   (18, PStr "FARMING_FISHING_AND_FORESTRY");
   (19, PStr "CONSTRUCTION_AND_EXTRACTION");
   (20, PStr "INSTALLATION_MAINTENANCE_AND_REPAIR");
   (21, PStr "PRODUCTION");
   (22, PStr "TRANSPORTATION_AND_MATERIAL_MOVING");
   (24, PStr "MILITARY");
   (25, PNone);
   (26, PStr "HOUSEWIFE")].

Definition decedent_industry_recode_mapping : int_table :=
  [(1, PStr "AGRICULTURE_FORESTRY_FISHING_AND_HUNTING");
   (2, PStr "MINING");
   (3, PStr "UTILITIES");
   (4, PStr "CONSTRUCTION");
   (5, PStr "MANUFACTURING");
   (6, PStr "WHOLESALE_TRADE");
   (7, PStr "RETAIL_TRADE");
   (8, PStr "TRANSPORTATION_AND_WAREHOUSING");
   (9, PStr "INFORMATION");
   (10, PStr "FINANCE_AND_INSURANCE");
   (11, PStr "REAL_ESTATE_RENTAL_AND_LEASING");
   (12, PStr "PROFESSIONAL_SCIENTIFIC_AND_TECHNICAL_SERVICES");
   (13, PStr "MANAGEMENT_OF_COMPANIES_AND_ENTERPRISES");
   (14, PStr "ADMINISTRATIVE_AND_SUPPORT_AND_WASTE_MANAGEMENT_AND_REMEDIATION_SERVICES");
   (15, PStr "EDUCATIONAL_SERVICES");
   (16, PStr "HEALTH_CARE_AND_SOCIAL_ASSISTANCE");
   (17, PStr "ARTS_ENTERTAINMENT_AND_RECREATION");
   (18, PStr "ACCOMMODATION_AND_FOOD_SERVICES");
   (19, PStr "OTHER_SERVICES_EXCEPT_PUBLIC_ADMINISTRATION");
   (20, PStr "PUBLIC_ADMINISTRATION");
   (22, PStr "MILITARY");
   (23, PNone)].

(** [table.get(v)] and [v in table.keys()] for the two key types. *)
Definition iget (t : int_table) (v : Z) : pyval := dict_get Z.eqb t v.
Definition ihas (t : int_table) (v : Z) : bool := dict_has Z.eqb t v.
Definition sget (t : str_table) (v : string) : pyval := dict_get String.eqb t v.
Definition shas (t : str_table) (v : string) : bool := dict_has String.eqb t v.

(** ** src/main.py: the record layout *)

(** [mapping]: byte ranges, 1-indexed and inclusive, with the field name,
    in declaration order. *)
Definition mapping : list ((nat * nat) * string) :=
  ([((1, 18), "reserved_positions");
   ((19, 19), "record_type");
   ((20, 20), "resident_status");
   ((21, 62), "reserved_positions");
   ((63, 63), "education");
   ((64, 64), "education_reporting_flag");
   ((65, 66), "month_of_death");
   ((67, 68), "reserved_positions");
   ((69, 69), "sex");
   ((70, 73), "detail_age");
   ((74, 74), "age_substitution_flag");
   ((75, 76), "age_recode_52");
   ((77, 78), "age_recode_27");
   ((79, 80), "age_recode_12");
   ((81, 82), "infant_age_recode_22");
   ((83, 83), "place_of_death_and_decedents_status");
   ((84, 84), "marital_status");
   ((85, 85), "day_of_week_of_death");
   ((86, 101), "reserved_positions");
   ((102, 105), "current_data_year");
   ((106, 106), "injury_at_work");
   ((107, 107), "manner_of_death");
   ((108, 108), "method_of_disposition");
   ((109, 109), "autopsy");
   ((110, 143), "reserved_positions");
   ((144, 144), "activity_code");
   ((145, 145), "place_of_injury");
   ((146, 149), "icd_code");
   ((150, 152), "cause_recode_358");
   ((153, 153), "reserved_positions");
   ((154, 156), "cause_recode_113");
   ((157, 159), "infant_cause_recode_130");
   ((160, 161), "cause_recode_39");
   ((162, 162), "reserved_positions");
   ((163, 164), "number_of_entity_axis_conditions");
   ((165, 171), "entity_axis_condition_1");
   ((172, 178), "entity_axis_condition_2");
   ((179, 185), "entity_axis_condition_3");
   ((186, 192), "entity_axis_condition_4");
   ((193, 199), "entity_axis_condition_5");
   ((200, 206), "entity_axis_condition_6");
   ((207, 213), "entity_axis_condition_7");
   ((214, 220), "entity_axis_condition_8");
   ((221, 227), "entity_axis_condition_9");
   ((228, 234), "entity_axis_condition_10");
   ((235, 241), "entity_axis_condition_11");
   ((242, 248), "entity_axis_condition_12");
   ((249, 255), "entity_axis_condition_13");
   ((256, 262), "entity_axis_condition_14");
   ((263, 269), "entity_axis_condition_15");
   ((270, 276), "entity_axis_condition_16");
   ((277, 283), "entity_axis_condition_17");
   ((284, 290), "entity_axis_condition_18");
   ((291, 297), "entity_axis_condition_19");
   ((298, 304), "entity_axis_condition_20");
   ((305, 340), "reserved_positions");
   ((341, 342), "number_of_record_axis_conditions");
   ((343, 343), "reserved_positions");
   ((344, 348), "record_axis_condition_1");
   ((349, 353), "record_axis_condition_2");
   ((354, 358), "record_axis_condition_3");
   ((359, 363), "record_axis_condition_4");
   ((364, 368), "record_axis_condition_5");
   ((369, 373), "record_axis_condition_6");
   ((374, 378), "record_axis_condition_7");
   ((379, 383), "record_axis_condition_8");
   ((384, 388), "record_axis_condition_9");
   ((389, 393), "record_axis_condition_10");
   ((394, 398), "record_axis_condition_11");
   ((399, 403), "record_axis_condition_12");
   ((404, 408), "record_axis_condition_13");
   ((409, 413), "record_axis_condition_14");
   ((414, 418), "record_axis_condition_15");
   ((419, 423), "record_axis_condition_16");
   ((424, 428), "record_axis_condition_17");
   ((429, 433), "record_axis_condition_18");
   ((434, 438), "record_axis_condition_19");
   ((439, 443), "record_axis_condition_20");
   ((444, 447), "reserved_positions");
   ((448, 448), "race_imputation_flag");
   ((449, 449), "reserved_positions");
   ((450, 450), "race_recode_6");
   ((451, 483), "reserved_positions");
   ((484, 486), "hispanic_origin");
   ((487, 488), "hispanic_origin_race_recode");
   ((489, 490), "race_recode_40");
   ((491, 805), "reserved_positions");
   ((806, 809), "decedents_usual_occindu_occupation_4_digit_code");
   ((810, 811), "decedents_usual_occindu_occupation_recode");
   ((812, 815), "decedents_usual_occindu_industry_4_digit_code");
   ((816, 817), "decedents_usual_occindu_industry_recode")])%nat.

(** ** src/main.py: the field decoders *)

Definition process_record_type (value : string) : outcome (string * pyval) :=
  if (value =? "")%string then Ok ("record_type", PNone) else
  v <- try_parse_int value ;;
  let mapped := iget record_type_mapping v in
  if truthy mapped then Ok ("record_type", mapped)
  else Err ("Invalid value for record_type: " ++ str_of_int v).

Definition process_resident_status (value : string) : outcome (string * pyval) :=
  if (value =? "")%string then Ok ("resident_status", PNone) else
  v <- try_parse_int value ;;
  let mapped := iget resident_status_mapping v in
  if truthy mapped then Ok ("resident_status", mapped)
  else Err ("Invalid value for resident_status: " ++ str_of_int v).

Definition process_education (value : string) : outcome (string * pyval) :=
  if (value =? "")%string then Ok ("education", PNone) else
  v <- try_parse_int value ;;
  let mapped := iget education_mapping v in
  if truthy mapped || ihas education_mapping v then Ok ("education", mapped)
  else Err ("Invalid value for education: " ++ str_of_int v).

Definition process_education_reporting_flag (value : string) : outcome (string * pyval) :=
  if (value =? "")%string then Ok ("education_reporting_flag", PNone) else
  v <- try_parse_int value ;;
  let mapped := iget education_reporting_flag_mapping v in
  if truthy mapped then Ok ("education_reporting_flag", mapped)
  else Err ("Invalid value for education_reporting_flag: " ++ str_of_int v).

Definition process_month_of_death (value : string) : outcome (string * pyval) :=
  if (value =? "")%string then Ok ("month_of_death", PNone) else
  v <- try_parse_int value ;;
  if (1 <=? v) && (v <=? 12) then Ok ("month_of_death", PInt v)
  else Err ("Invalid value for month_of_death: " ++ str_of_int v).

Definition process_sex (value : string) : outcome (string * pyval) :=
  if (value =? "")%string then Ok ("sex", PNone) else
  let mapped := sget sex_mapping value in
  if truthy mapped then Ok ("sex", mapped)
  else Err ("Invalid value for sex: " ++ value).

Definition MINUTES_AS_MS : Z := 60000.
Definition HOURS_AS_MS : Z := 60 * MINUTES_AS_MS.
Definition DAYS_AS_MS : Z := 24 * HOURS_AS_MS.
Definition MONTHS_AS_MS : Z := 30 * DAYS_AS_MS.
Definition YEARS_AS_MS : Z := 365 * DAYS_AS_MS.

(** The unit table indexed by [based_on] has no entry for 3, although the
    guard lets 3 through: the subscript then raises [KeyError]. *)
Definition process_detail_age (value : string) : outcome (string * pyval) :=
  if (value =? "")%string then Ok ("detail_age", PNone) else
  based_on <- try_parse_int (slice_to 1 value) ;;
  count <- try_parse_int (slice_from 1 value) ;;
  if (1 <=? based_on) && (based_on <=? 6) then
    mult <- dict_item
              [(1, YEARS_AS_MS);
               (2, MONTHS_AS_MS);
               (4, DAYS_AS_MS);
               (5, HOURS_AS_MS);
               (6, MINUTES_AS_MS)] based_on ;;
    Ok ("detail_age", PInt (count * mult))
  else Ok ("detail_age", PNone).

Definition process_age_substitution_flag (value : string) : outcome (string * pyval) :=
  if (value =? "")%string then Ok ("age_substitution_flag", PBool false) else
  v <- try_parse_int value ;;
  if v =? 1 then Ok ("age_substitution_flag", PBool true)
  else Err ("Invalid value for age_substitution_flag: " ++ value).

Definition process_age_recode_52 (value : string) : outcome (string * pyval) :=
  if (value =? "")%string then Ok ("age_recode_52", PNone) else
  v <- try_parse_int value ;;
  if (1 <=? v) && (v <=? 51) then
    '(low, upper) <-
      (if v =? 1 then Ok (0, HOURS_AS_MS)
       else if v =? 2 then Ok (HOURS_AS_MS, 23 * HOURS_AS_MS)
       else if (3 <=? v) && (v <=? 9) then
         let i := v - 2 in Ok (i * DAYS_AS_MS, i * DAYS_AS_MS)
       else if (10 <=? v) && (v <=? 11) then
         let i := v - 10 in
         Ok ((14 + 7 * i) * DAYS_AS_MS, (13 + 7 * (i + 1)) * DAYS_AS_MS)
       else if (12 <=? v) && (v <=? 22) then
         let i := v - 11 in Ok (i * MONTHS_AS_MS, i * MONTHS_AS_MS)
       else if (23 <=? v) && (v <=? 26) then
         let i := v - 22 in Ok (i * YEARS_AS_MS, i * YEARS_AS_MS)
       else if (27 <=? v) && (v <=? 50) then
         let i := v - 27 in
         Ok ((5 + 5 * i) * YEARS_AS_MS, (4 + 5 * (i + 1)) * YEARS_AS_MS)
       else if v =? 51 then Ok (125 * YEARS_AS_MS, 999 * YEARS_AS_MS)
       else Err ("Invalid value for age_recode_52: " ++ str_of_int v)) ;;
    Ok ("age_recode_52", PTuple low upper)
  else if v =? 52 then Ok ("age_recode_52", PNone)
  else Err ("Invalid value for age_recode_52: " ++ str_of_int v).

Definition process_age_recode_27 (value : string) : outcome (string * pyval) :=
  if (value =? "")%string then Ok ("age_recode_27", PNone) else
  v <- try_parse_int value ;;
  if (1 <=? v) && (v <=? 26) then
    '(low, upper) <-
      (if v =? 1 then Ok (0, 1 * MONTHS_AS_MS)
       else if v =? 2 then Ok (1 * MONTHS_AS_MS, 11 * MONTHS_AS_MS)
       else if (3 <=? v) && (v <=? 6) then
         let i := v - 2 in Ok (i * YEARS_AS_MS, i * YEARS_AS_MS)
       else if (7 <=? v) && (v <=? 25) then
         let i := v - 7 in
         Ok ((5 + 5 * i) * YEARS_AS_MS, (4 + 5 * (i + 1)) * YEARS_AS_MS)
       else if v =? 26 then Ok (100 * YEARS_AS_MS, 999 * YEARS_AS_MS)
       else Err ("Invalid value for age_recode_27: " ++ str_of_int v)) ;;
    Ok ("age_recode_27", PTuple low upper)
  else if v =? 27 then Ok ("age_recode_27", PNone)
  else Err ("Invalid value for age_recode_27: " ++ str_of_int v).

Definition process_age_recode_12 (value : string) : outcome (string * pyval) :=
  if (value =? "")%string then Ok ("age_recode_12", PNone) else
  v <- try_parse_int value ;;
  if (1 <=? v) && (v <=? 11) then
    '(low, upper) <-
      (if v =? 1 then Ok (0, 11 * MONTHS_AS_MS)
       else if v =? 2 then Ok (1 * YEARS_AS_MS, 4 * YEARS_AS_MS)
       else if (3 <=? v) && (v <=? 10) then
         let i := v - 3 in
         Ok ((5 + 10 * i) * YEARS_AS_MS, (4 + 10 * (i + 1)) * YEARS_AS_MS)
       else if v =? 11 then Ok (85 * YEARS_AS_MS, 999 * YEARS_AS_MS)
       else Err ("Invalid value for age_recode_12: " ++ str_of_int v)) ;;
    Ok ("age_recode_12", PTuple low upper)
  else if v =? 12 then Ok ("age_recode_12", PNone)
  else Err ("Invalid value for age_recode_12: " ++ str_of_int v).

Definition process_infant_age_recode_22 (value : string) : outcome (string * pyval) :=
  if (value =? "")%string then Ok ("infant_age_recode_22", PNone) else
  v <- try_parse_int value ;;
  if (1 <=? v) && (v <=? 22) then
    '(low, upper) <-
      (if v =? 1 then Ok (0, 59 * MINUTES_AS_MS)
       else if v =? 2 then Ok (1 * HOURS_AS_MS, 23 * HOURS_AS_MS)
       else if (3 <=? v) && (v <=? 8) then
         let i := v - 2 in Ok (i * DAYS_AS_MS, i * DAYS_AS_MS)
       else if (9 <=? v) && (v <=? 11) then
         let i := v - 9 in
         Ok ((7 + 7 * i) * DAYS_AS_MS, (6 + 7 * (i + 1)) * DAYS_AS_MS)
       else if (12 <=? v) && (v <=? 22) then
         let i := v - 11 in Ok (i * MONTHS_AS_MS, i * MONTHS_AS_MS)
       else Err ("Invalid value for infant_age_recode_22: " ++ str_of_int v)) ;;
    Ok ("infant_age_recode_22", PTuple low upper)
  else Err ("Invalid value for infant_age_recode_22: " ++ str_of_int v).

Definition process_place_of_death (value : string) : outcome (string * pyval) :=
  if (value =? "")%string then Ok ("place_of_death", PNone) else
  v <- try_parse_int value ;;
  let mapped := iget place_of_death_mapping v in
  if truthy mapped || ihas place_of_death_mapping v then Ok ("place_of_death", mapped)
  else Err ("Invalid value for place_of_death_and_decedents_status: " ++ value).

Definition process_marital_status (value : string) : outcome (string * pyval) :=
  if (value =? "")%string then Ok ("marital_status", PNone) else
  let mapped := sget marital_status_mapping value in
  if truthy mapped || shas marital_status_mapping value then Ok ("marital_status", mapped)
  else Err ("Invalid value for marital_status: " ++ value).

Definition process_day_of_week_of_death (value : string) : outcome (string * pyval) :=
  if (value =? "")%string then Ok ("day_of_week_of_death", PNone) else
  v <- try_parse_int value ;;
  let mapped := iget day_of_week_of_death_mapping v in
  if truthy mapped || ihas day_of_week_of_death_mapping v then Ok ("day_of_week_of_death", mapped)
  else Err ("Invalid value for day_of_week_of_death: " ++ value).

Definition process_injury_at_work (value : string) : outcome (string * pyval) :=
  if (value =? "")%string then Ok ("injury_at_work", PNone) else
  let mapped := sget injury_at_work_mapping value in
  if truthy mapped || shas injury_at_work_mapping value then Ok ("injury_at_work", mapped)
  else Err ("Invalid value for injury_at_work: " ++ value).

Definition process_manner_of_death (value : string) : outcome (string * pyval) :=
  if (value =? "")%string then Ok ("manner_of_death", PNone) else
  v <- try_parse_int value ;;
  let mapped := iget manner_of_death_mapping v in
  if truthy mapped then Ok ("manner_of_death", mapped)
  else Err ("Invalid value for manner_of_death: " ++ value).

Definition process_method_of_disposition (value : string) : outcome (string * pyval) :=
  if (value =? "")%string then Ok ("method_of_disposition", PNone) else
  let mapped := sget method_of_disposition_mapping value in
  if truthy mapped || shas method_of_disposition_mapping value then Ok ("method_of_disposition", mapped)
  else Err ("Invalid value for method_of_disposition: " ++ value).

Definition process_autopsy (value : string) : outcome (string * pyval) :=
  if (value =? "")%string then Ok ("autopsy", PNone) else
  let mapped := sget autopsy_mapping value in
  if truthy mapped || shas autopsy_mapping value then Ok ("autopsy", mapped)
  else Err ("Invalid value for autopsy: " ++ value).

Definition process_activity_code (value : string) : outcome (string * pyval) :=
  if (value =? "")%string then Ok ("activity_code", PNone) else
  v <- try_parse_int value ;;
  let mapped := iget activity_code_mapping v in
  if truthy mapped || ihas activity_code_mapping v then Ok ("activity_code", mapped)
  else Err ("Invalid value for activity_code: " ++ value).

Definition process_place_of_injury (value : string) : outcome (string * pyval) :=
  if (value =? "")%string then Ok ("place_of_injury", PNone) else
  v <- try_parse_int value ;;
  let mapped := iget place_of_injury_mapping v in
  if truthy mapped || ihas place_of_injury_mapping v then Ok ("place_of_injury", mapped)
  else Err ("Invalid value for place_of_injury: " ++ value).

Definition process_icd_code (value : string) : outcome (string * pyval) :=
  if (value =? "")%string then Ok ("icd_code", PNone) else
  Ok ("icd_code", PStr value).

Definition process_cause_recode_358 (value : string) : outcome (string * pyval) :=
  if (value =? "")%string then Ok ("cause_recode_358", PNone) else
  Ok ("cause_recode_358", PStr value).

Definition process_cause_recode_113 (value : string) : outcome (string * pyval) :=
  if (value =? "")%string then Ok ("cause_recode_113", PNone) else
  Ok ("cause_recode_113", PStr value).

Definition process_infant_cause_recode_130 (value : string) : outcome (string * pyval) :=
  if (value =? "")%string then Ok ("infant_cause_recode_130", PNone) else
  Ok ("infant_cause_recode_130", PStr value).

Definition process_cause_recode_39 (value : string) : outcome (string * pyval) :=
  if (value =? "")%string then Ok ("cause_recode_39", PNone) else
  v <- try_parse_int value ;;
  if (1 <=? v) && (v <=? 42) then Ok ("cause_recode_39", PInt v)
  else Ok ("cause_recode_39", PNone).

Definition process_number_of_entity_axis_conditions (value : string) : outcome (string * pyval) :=
  if (value =? "")%string then Ok ("number_of_entity_axis_conditions", PNone) else
  v <- try_parse_int value ;;
  if (0 <=? v) && (v <=? 20) then Ok ("number_of_entity_axis_conditions", PInt v)
  else Err ("Invalid value for number_of_entity_axis_conditions: " ++ str_of_int v).

Definition process_entity_axis_condition (n : Z) (value : string)
  : outcome (string * pyval) :=
  if (value =? "")%string then Ok ("entity_axis_condition_" ++ str_of_int n, PNone) else
  part_line <- (c <- char_at 0 value ;; try_parse_int c) ;;
  let part := if part_line <=? 5 then "PART_I" else "PART_II" in
  certificate_line <- (c <- char_at 1 value ;; try_parse_int c) ;;
  let condition_code := slice_from 2 value in
  Ok ("entity_axis_condition_" ++ str_of_int n,
      PCond part certificate_line condition_code).

Definition process_number_of_record_axis_conditions (value : string) : outcome (string * pyval) :=
  if (value =? "")%string then Ok ("number_of_record_axis_conditions", PNone) else
  v <- try_parse_int value ;;
  if (0 <=? v) && (v <=? 20) then Ok ("number_of_record_axis_conditions", PInt v)
  else Err ("Invalid value for number_of_record_axis_conditions: " ++ str_of_int v).

Definition process_record_axis_condition (n : Z) (value : string)
  : outcome (string * pyval) :=
  if (value =? "")%string then Ok ("record_axis_condition_" ++ str_of_int n, PNone) else
  Ok ("record_axis_condition_" ++ str_of_int n, PStr value).

Definition process_race_imputation_flag (value : string) : outcome (string * pyval) :=
  if (value =? "")%string then Ok ("race_imputation_flag", PBool false) else
  v <- try_parse_int value ;;
  if (v =? 1) || (v =? 2) then Ok ("race_imputation_flag", PBool true)
  else Err ("Invalid value for race_imputation_flag: " ++ str_of_int v).

Definition process_race_recode_6 (value : string) : outcome (string * pyval) :=
  if (value =? "")%string then Ok ("race_recode_6", PNone) else
  v <- try_parse_int value ;;
  let mapped := iget race_recode_6_mapping v in
  if truthy mapped then Ok ("race_recode_6", mapped)
  else Err ("Invalid value for race_recode_6: " ++ str_of_int v).

Definition process_hispanic_origin (value : string) : outcome (string * pyval) :=
  if (value =? "")%string then Ok ("hispanic_origin", PNone) else
  v <- try_parse_int value ;;
  let mapped := get_in_range hispanic_origin_mapping v in
  if truthy mapped || range_keyed_dict_has_key hispanic_origin_mapping v
  then Ok ("hispanic_origin", mapped)
  else Err ("Invalid value for hispanic_origin: " ++ str_of_int v).

Definition process_hispanic_origin_race_recode (value : string) : outcome (string * pyval) :=
  if (value =? "")%string then Ok ("hispanic_origin_race_recode", PNone) else
  v <- try_parse_int value ;;
  let mapped := iget hispanic_origin_race_recode_mapping v in
  if truthy mapped || ihas hispanic_origin_race_recode_mapping v then Ok ("hispanic_origin_race_recode", mapped)
  else Err ("Invalid value for hispanic_origin_race_recode: " ++ str_of_int v).

(** The loop [for part in parts: ... part = "OTHER_ASIAN" ...] assigns the
    loop variable only; [parts] is not written to.  [rename_loop] is the
    value the variable [part] holds when the loop ends. *)
Definition rename_loop (parts : list string) : string :=
  fold_left
    (fun _ part =>
       if (part =? "ASIAN")%string then "OTHER_ASIAN"
       else if (part =? "NHOPI")%string then "OTHER_PACIFIC_ISLANDER"
       else part)
    parts "".

Definition process_race_recode_40 (value : string) : outcome (string * pyval) :=
  if (value =? "")%string then Ok ("race_recode_40", PNone) else
  v <- try_parse_int value ;;
  let mapped := iget race_recode_40_mapping v in
  if truthy mapped then
    if v <=? 14 then Ok ("race_recode_40", PList [mapped])
    else
      match mapped with
      | PStr label =>
          let parts := split "_" label in
          let _part := rename_loop parts in
          Ok ("race_recode_40", PList (map PStr parts))
      | _ => Raise AttributeError
      end
  else Err ("Invalid value for race_recode_40: " ++ str_of_int v).

Definition process_decedent_occupation_code (value : string) : outcome (string * pyval) :=
  if (value =? "")%string then Ok ("decedent_occupation_code", PNone) else
  Ok ("decedent_occupation_code", PStr value).

Definition process_decedent_occupation_recode (value : string) : outcome (string * pyval) :=
  if (value =? "")%string then Ok ("decedent_occupation_recode", PNone) else
  v <- try_parse_int value ;;
  let mapped := iget decedent_occupation_recode_mapping v in
  if truthy mapped || ihas decedent_occupation_recode_mapping v then Ok ("decedent_occupation_recode", mapped)
  else Err ("Invalid value for decedent_occupation_recode: " ++ str_of_int v).

Definition process_decedent_industry_code (value : string) : outcome (string * pyval) :=
  if (value =? "")%string then Ok ("decedent_industry_code", PNone) else
  Ok ("decedent_industry_code", PStr value).

Definition process_decedent_industry_recode (value : string) : outcome (string * pyval) :=
  if (value =? "")%string then Ok ("decedent_industry_recode", PNone) else
  v <- try_parse_int value ;;
  let mapped := iget decedent_industry_recode_mapping v in
  if truthy mapped || ihas decedent_industry_recode_mapping v then Ok ("decedent_industry_recode", mapped)
  else Err ("Invalid value for decedent_industry_recode: " ++ str_of_int v).

(** ** src/main.py: [process_line] *)

(** [int(s)] called outside [try_parse_int]: [ValueError] is raised. *)
Definition py_int (s : string) : outcome Z :=
  match int_of_str s with
  | Some i => Ok i
  | None => Raise ValueError
  end.

(** [d[k] = v] with the key and value a decoder returned. *)
Definition store (d : dict) (kv : string * pyval) : dict :=
  dict_set String.eqb d (fst kv) (snd kv).

(** One turn of the loop of [process_line]: the [if]/[elif] chain on the
    field name, applied to the trimmed text of the field.  The branch of
    [education_reporting_flag] decodes and stores nothing; a name with no
    branch ([current_data_year]) falls through the chain. *)
Definition process_field (field value : string) (d : dict) : outcome dict :=
  if (field =? "reserved_positions")%string then Ok d
  else if (field =? "record_type")%string then
    kv <- process_record_type value ;; Ok (store d kv)
  else if (field =? "resident_status")%string then
    kv <- process_resident_status value ;; Ok (store d kv)
  else if (field =? "education")%string then
    kv <- process_education value ;; Ok (store d kv)
  else if (field =? "education_reporting_flag")%string then
    _kv <- process_education_reporting_flag value ;; Ok d
  else if (field =? "month_of_death")%string then
    kv <- process_month_of_death value ;; Ok (store d kv)
  else if (field =? "sex")%string then
    kv <- process_sex value ;; Ok (store d kv)
  else if (field =? "detail_age")%string then
    kv <- process_detail_age value ;; Ok (store d kv)
  else if (field =? "age_substitution_flag")%string then
    kv <- process_age_substitution_flag value ;; Ok (store d kv)
  else if (field =? "age_recode_52")%string then
    kv <- process_age_recode_52 value ;; Ok (store d kv)
  else if (field =? "age_recode_27")%string then
    kv <- process_age_recode_27 value ;; Ok (store d kv)
  else if (field =? "age_recode_12")%string then
    kv <- process_age_recode_12 value ;; Ok (store d kv)
  else if (field =? "infant_age_recode_22")%string then
    kv <- process_infant_age_recode_22 value ;; Ok (store d kv)
  else if (field =? "place_of_death_and_decedents_status")%string then
    kv <- process_place_of_death value ;; Ok (store d kv)
  else if (field =? "marital_status")%string then
    kv <- process_marital_status value ;; Ok (store d kv)
  else if (field =? "day_of_week_of_death")%string then
    kv <- process_day_of_week_of_death value ;; Ok (store d kv)
  else if (field =? "injury_at_work")%string then
    kv <- process_injury_at_work value ;; Ok (store d kv)
  else if (field =? "manner_of_death")%string then
    kv <- process_manner_of_death value ;; Ok (store d kv)
  else if (field =? "method_of_disposition")%string then
    kv <- process_method_of_disposition value ;; Ok (store d kv)
  else if (field =? "autopsy")%string then
    kv <- process_autopsy value ;; Ok (store d kv)
  else if (field =? "activity_code")%string then
    kv <- process_activity_code value ;; Ok (store d kv)
  else if (field =? "place_of_injury")%string then
    kv <- process_place_of_injury value ;; Ok (store d kv)
  else if (field =? "icd_code")%string then
    kv <- process_icd_code value ;; Ok (store d kv)
  else if (field =? "cause_recode_358")%string then
    kv <- process_cause_recode_358 value ;; Ok (store d kv)
  else if (field =? "cause_recode_113")%string then
    kv <- process_cause_recode_113 value ;; Ok (store d kv)
  else if (field =? "infant_cause_recode_130")%string then
    kv <- process_infant_cause_recode_130 value ;; Ok (store d kv)
  else if (field =? "cause_recode_39")%string then
    kv <- process_cause_recode_39 value ;; Ok (store d kv)
  else if (field =? "number_of_entity_axis_conditions")%string then
    kv <- process_number_of_entity_axis_conditions value ;; Ok (store d kv)
  else if startswith "entity_axis_condition_" field then
    n <- py_int (last (split "_" field) "") ;;
    kv <- process_entity_axis_condition n value ;; Ok (store d kv)
  else if (field =? "number_of_record_axis_conditions")%string then
    kv <- process_number_of_record_axis_conditions value ;; Ok (store d kv)
  else if startswith "record_axis_condition_" field then
    n <- py_int (last (split "_" field) "") ;;
    kv <- process_record_axis_condition n value ;; Ok (store d kv)
  else if (field =? "race_imputation_flag")%string then
    kv <- process_race_imputation_flag value ;; Ok (store d kv)
  else if (field =? "race_recode_6")%string then
    kv <- process_race_recode_6 value ;; Ok (store d kv)
  else if (field =? "hispanic_origin")%string then
    kv <- process_hispanic_origin value ;; Ok (store d kv)
  else if (field =? "hispanic_origin_race_recode")%string then
    kv <- process_hispanic_origin_race_recode value ;; Ok (store d kv)
  else if (field =? "race_recode_40")%string then
    kv <- process_race_recode_40 value ;; Ok (store d kv)
  else if (field =? "decedents_usual_occindu_occupation_4_digit_code")%string then
    kv <- process_decedent_occupation_code value ;; Ok (store d kv)
  else if (field =? "decedents_usual_occindu_occupation_recode")%string then
    kv <- process_decedent_occupation_recode value ;; Ok (store d kv)
  else if (field =? "decedents_usual_occindu_industry_4_digit_code")%string then
    kv <- process_decedent_industry_code value ;; Ok (store d kv)
  else if (field =? "decedents_usual_occindu_industry_recode")%string then
    kv <- process_decedent_industry_recode value ;; Ok (store d kv)
  else Ok d.

(** The text of a field: [line[start - 1 : end].strip()].  Every range
    of the layout starts at byte 1 or later, so [start - 1] is never
    negative. *)
Definition field_text (line : string) (start end_ : nat) : string :=
  strip (slice (start - 1) end_ line).

Fixpoint process_fields (line : string) (entries : list ((nat * nat) * string))
    (d : dict) : outcome dict :=
  match entries with
  | [] => Ok d
  | ((start, end_), field) :: rest =>
      let value := field_text line start end_ in
      d' <- process_field field value d ;;
      process_fields line rest d'
  end.

Definition process_line (line : string) : outcome dict :=
  process_fields line mapping [].

(** ** src/main.py: the row assembler (body of the loop of
    [process_lines_batch]) *)

Definition get (d : dict) (k : string) : pyval := dict_get String.eqb d k.

(** [detail_age or infant_age_recode_22 or age_recode_52 or age_recode_27
    or age_recode_12 or None] *)
Definition final_age (processed_line : dict) : pyval :=
  py_or (py_or (py_or (py_or (py_or
    (get processed_line "detail_age")
    (get processed_line "infant_age_recode_22"))
    (get processed_line "age_recode_52"))
    (get processed_line "age_recode_27"))
    (get processed_line "age_recode_12"))
    PNone.

(** [(age_lower_bound, age_upper_bound)]: a tuple of two [int] is
    unpacked, a truthy [int] (a [bool] is one) is used for both bounds,
    anything else leaves both [None]. *)
Definition age_bounds (final_age : pyval) : pyval * pyval :=
  match final_age with
  | PTuple lo hi => (PInt lo, PInt hi)
  | PInt z => if truthy final_age then (final_age, final_age) else (PNone, PNone)
  | PBool b => if truthy final_age then (final_age, final_age) else (PNone, PNone)
  | _ => (PNone, PNone)
  end.

(** [range(1, 21)] *)
Definition slots : list Z := map Z.of_nat (seq 1 20).

(** The values of [prefix_1 .. prefix_20] that are truthy, in slot order. *)
Definition collect_conditions (name : string) (processed_line : dict) : list pyval :=
  filter truthy
    (map (fun i => get processed_line (name ++ str_of_int i)) slots).

(** The loop over [list(processed_line.keys())] that drops the slots. *)
Definition drop_slots (processed_line : dict) : dict :=
  fold_left
    (fun d k =>
       if startswith "entity_axis_condition_" k
          || startswith "record_axis_condition_" k
       then maybe_del d k else d)
    (map fst processed_line) processed_line.

Definition removed_fields : list string :=
  ["detail_age";
   "infant_age_recode_22";
   "age_recode_52";
   "age_recode_27";
   "age_recode_12";
   "education_reporting_flag";
   "age_substitution_flag";
   "number_of_entity_axis_conditions";
   "number_of_record_axis_conditions";
   "race_imputation_flag"].

Definition assemble_row (processed_line : dict) : dict :=
  let '(age_lower_bound, age_upper_bound) := age_bounds (final_age processed_line) in
  let entity_axis_conditions :=
    collect_conditions "entity_axis_condition_" processed_line in
  let record_axis_conditions :=
    collect_conditions "record_axis_condition_" processed_line in
  let processed_line := drop_slots processed_line in
  let processed_line := fold_left maybe_del removed_fields processed_line in
  fold_left store
    [("age_lower_bound", age_lower_bound);
     ("age_upper_bound", age_upper_bound);
     ("entity_axis_conditions", PList entity_axis_conditions);
     ("record_axis_conditions", PList record_axis_conditions)]
    processed_line.

(** The row of one line: [process_line(line).up()], then the assembly. *)
Definition row_of_line (line : string) : outcome dict :=
  processed_line <- process_line line ;;
  Ok (assemble_row processed_line).

(** ** polars: frames and their inferred schema *)

(** The column types polars infers from Python values: a [None] is
    [Null], a [bool] is [Boolean], an [int] is [Int64], a [str] is
    [String], a sequence is a [List] of the type of its elements and a
    [dict] is a [Struct] of its keys. *)
#[warnings="-register-all"]
Inductive inferred : Type :=
| INull
| IBoolean
| IInt64
| IString
| IList (inner : inferred)
| IStruct (fields : list (string * inferred)).

Fixpoint inferred_eqb (a b : inferred) {struct a} : bool :=
  match a, b with
  | INull, INull => true
  | IBoolean, IBoolean => true
  | IInt64, IInt64 => true
  | IString, IString => true
  | IList a', IList b' => inferred_eqb a' b'
  | IStruct fa, IStruct fb =>
      (fix fields_eqb (fa fb : list (string * inferred)) {struct fa} : bool :=
         match fa, fb with
         | [], [] => true
         | (n, t) :: ra, (m, u) :: rb =>
             (n =? m)%string && inferred_eqb t u && fields_eqb ra rb
         | _, _ => false
         end) fa fb
  | _, _ => false
  end.

(** The type that holds the values of both: [Null] gives way to any
    type, the elements of two lists are joined, and otherwise the two
    types must be the same.  Types with no common type are refused
    ([None]); the rows of this program never meet that case. *)
Fixpoint supertype (a b : inferred) {struct a} : option inferred :=
  match a, b with
  | INull, _ => Some b
  | _, INull => Some a
  | IList a', IList b' => option_map IList (supertype a' b')
  | _, _ => if inferred_eqb a b then Some a else None
  end.

Definition join (acc t : option inferred) : option inferred :=
  match acc, t with
  | Some a, Some b => supertype a b
  | _, _ => None
  end.

(** The type of one value.  The elements of a list are joined, an empty
    list being a list of [Null]; the entity-axis condition is the one
    dict a row holds.  No row holds a tuple, the age ranges being
    unpacked into the two bounds; a tuple is read as the list of its two
    integers. *)
Fixpoint dtype_of (v : pyval) : option inferred :=
  match v with
  | PNone => Some INull
  | PBool _ => Some IBoolean
  | PInt _ => Some IInt64
  | PStr _ => Some IString
  | PTuple _ _ => Some (IList IInt64)
  | PCond _ _ _ =>
      Some (IStruct [("certificate_part", IString);
                     ("certificate_line", IInt64);
                     ("condition", IString)])
  | PList l =>
      option_map IList
        (fold_left (fun acc x => join acc (dtype_of x)) l (Some INull))
  end.

(** The columns of a list of dict rows: their keys, in the order in
    which they are first seen. *)
Definition columns (rows : list dict) : list string :=
  fold_left
    (fun cols row =>
       fold_left
         (fun cols k => if existsb (String.eqb k) cols then cols else (cols ++ [k])%list)
         (map fst row) cols)
    rows [].

(** [infer_schema_length=None]: every row is read; the type of a column
    is the join of the types of its values, a missing key counting as
    [None]. *)
Definition column_dtype (rows : list dict) (c : string) : option inferred :=
  fold_left (fun acc row => join acc (dtype_of (get row c))) rows (Some INull).

Fixpoint column_dtypes (rows : list dict) (cols : list string)
    : option (list (string * inferred)) :=
  match cols with
  | [] => Some []
  | c :: rest =>
      match column_dtype rows c, column_dtypes rows rest with
      | Some t, Some ts => Some ((c, t) :: ts)
      | _, _ => None
      end
  end.

Definition infer_schema (rows : list dict) : option (list (string * inferred)) :=
  column_dtypes rows (columns rows).

(** A data frame: its rows, with the schema inferred when it was
    built. *)
Record DataFrame : Type := {
  schema : list (string * inferred);
  data : list dict
}.

(** [pl.DataFrame(data=temp, infer_schema_length=None)] *)
Definition pl_DataFrame (temp : list dict) : outcome DataFrame :=
  match infer_schema temp with
  | Some s => Ok {| schema := s; data := temp |}
  | None => Raise TypeError
  end.

(** [process_lines_batch]: rows are appended to [temp] line by line; the
    first line that does not decode ends the batch with its error, and
    the frame is built from the rows of the batch alone.  The writes to
    the shared progress dict are not read back here and are left out. *)
Fixpoint process_lines_loop (lines : list string) (temp : list dict)
    : outcome (list dict) :=
  match lines with
  | [] => Ok temp
  | line :: rest =>
      row <- row_of_line line ;;
      process_lines_loop rest (temp ++ [row])%list
  end.

Definition process_lines_batch (lines : list string) : outcome DataFrame :=
  temp <- process_lines_loop lines [] ;;
  pl_DataFrame temp.

(** ** src/main.py: the batch pipeline *)

(** [MAX_PARALLEL_PROCESSING = max((os.cpu_count() or 0) - 2, 1)], with
    [os.cpu_count()] an [int] or [None]. *)
Definition MAX_PARALLEL_PROCESSING (cpu_count : option Z) : Z :=
  Z.max ((match cpu_count with
          | Some n => if n =? 0 then 0 else n
          | None => 0
          end) - 2) 1.

(** [max(1, len(lines) // MAX_PARALLEL_PROCESSING)] *)
Definition lines_per_process (W : Z) (lines : list string) : nat :=
  Z.to_nat (Z.max 1 (Z.of_nat (length lines) / W)).

(** [range(0, stop, step)] for [step > 0]: the multiples of [step] below
    [stop]. *)
Definition py_range (stop step : nat) : list nat :=
  map (fun j => (j * step)%nat) (seq 0 ((stop + step - 1) / step)).

(** [xs[i : i + n]] *)
Definition list_slice {A : Type} (i n : nat) (xs : list A) : list A :=
  firstn n (skipn i xs).

(** The batches: [lines[i : i + lines_per_process]] for each [i] of the
    range. *)
Definition split_batches (W : Z) (lines : list string) : list (list string) :=
  let lpp := lines_per_process W lines in
  map (fun i => list_slice i lpp lines) (py_range (length lines) lpp).

(** The pool.  Batch [i] is submitted as future [i]; a worker runs
    [process_lines_batch] on it in a process of its own.  [completion]
    lists the futures in the order in which they finish; a future is a
    cell that holds the outcome of its batch once it is done. *)
Definition futures_t : Type := nat -> option (outcome DataFrame).

Definition complete (batches : list (list string)) (cells : futures_t) (i : nat)
    : futures_t :=
  match nth_error batches i with
  | Some batch =>
      fun j => if (j =? i)%nat then Some (process_lines_batch batch) else cells j
  | None => cells
  end.

Definition run_pool (batches : list (list string)) (completion : list nat)
    : futures_t :=
  fold_left (complete batches) completion (fun _ => None).

(** The monitoring loop ends when every future is done; the outcomes are
    then read in submission order.  [None]: some future never finishes. *)
Fixpoint all_done (cells : list (option (outcome DataFrame)))
    : option (list (outcome DataFrame)) :=
  match cells with
  | [] => Some []
  | None :: _ => None
  | Some r :: rest => option_map (cons r) (all_done rest)
  end.

(** [[future.result() for future, _ in futures]]: an exception raised in
    a worker is raised again here; [Ok] and [Err] are values. *)
Fixpoint future_results (done : list (outcome DataFrame))
    : outcome (list (outcome DataFrame)) :=
  match done with
  | [] => Ok []
  | Raise e :: _ => Raise e
  | r :: rest => rs <- future_results rest ;; Ok (r :: rs)
  end.

(** [[r.up() for r in results]] *)
Fixpoint up_all (results : list (outcome DataFrame)) : outcome (list DataFrame) :=
  match results with
  | [] => Ok []
  | r :: rest => df <- r ;; dfs <- up_all rest ;; Ok (df :: dfs)
  end.

Fixpoint schema_eqb (s s' : list (string * inferred)) : bool :=
  match s, s' with
  | [], [] => true
  | (c, t) :: rest, (c', t') :: rest' =>
      (c =? c')%string && inferred_eqb t t' && schema_eqb rest rest'
  | _, _ => false
  end.

(** The frames all have the schema of the first. *)
Definition same_schemas (dfs : list DataFrame) : bool :=
  match dfs with
  | [] => true
  | df :: rest => forallb (fun df' => schema_eqb (schema df) (schema df')) rest
  end.

(** [pl.concat], vertical: refuses an empty list of frames, and frames
    whose schemas are not the same; a [Null] column does not give way to
    a typed one here. *)
Definition pl_concat (dfs : list DataFrame) : outcome DataFrame :=
  match dfs with
  | [] => Raise ValueError
  | df :: _ =>
      if same_schemas dfs
      then Ok {| schema := schema df; data := concat (map data dfs) |}
      else Raise SchemaError
  end.

Fixpoint map_outcome {A B : Type} (f : A -> outcome B) (xs : list A)
    : outcome (list B) :=
  match xs with
  | [] => Ok []
  | x :: rest => y <- f x ;; ys <- map_outcome f rest ;; Ok (y :: ys)
  end.

Section Pipeline.
(** [df.cast(dataset_schema)] belongs to polars; it is taken row by row
    as [cast_row], which may fail.  The table it returns has the types
    of [dataset_schema] and is given by its rows. *)
Variable cast_row : dict -> outcome dict.

Definition cast (df : DataFrame) : outcome (list dict) :=
  map_outcome cast_row (data df).

(** [parallel_process_lines], on the lines [load_file] returned.
    [None]: the call does not return. *)
Definition parallel_process_lines (cpu_count : option Z) (completion : list nat)
    (lines : list string) : option (outcome (list dict)) :=
  let batches := split_batches (MAX_PARALLEL_PROCESSING cpu_count) lines in
  let futures := run_pool batches completion in
  match all_done (map futures (seq 0 (length batches))) with
  | None => None
  | Some done =>
      Some (results <- future_results done ;;
            results <- up_all results ;;
            df <- pl_concat results ;;
            df <- cast df ;;
            Ok df)
  end.
End Pipeline.

(** ** Derived notions used in the statements *)

(** The decoders whose answer to a blank field is [None], with the key
    each one returns.  The two slot decoders take the slot number first
    and are listed apart, as are the two flag decoders. *)
Definition absent_on_blank : list (string * (string -> outcome (string * pyval))) :=
  [("record_type", process_record_type);
   ("resident_status", process_resident_status);
   ("education", process_education);
   ("education_reporting_flag", process_education_reporting_flag);
   ("month_of_death", process_month_of_death);
   ("sex", process_sex);
   ("detail_age", process_detail_age);
   ("age_recode_52", process_age_recode_52);
   ("age_recode_27", process_age_recode_27);
   ("age_recode_12", process_age_recode_12);
   ("infant_age_recode_22", process_infant_age_recode_22);
   ("place_of_death", process_place_of_death);
   ("marital_status", process_marital_status);
   ("day_of_week_of_death", process_day_of_week_of_death);
   ("injury_at_work", process_injury_at_work);
   ("manner_of_death", process_manner_of_death);
   ("method_of_disposition", process_method_of_disposition);
   ("autopsy", process_autopsy);
   ("activity_code", process_activity_code);
   ("place_of_injury", process_place_of_injury);
   ("icd_code", process_icd_code);
   ("cause_recode_358", process_cause_recode_358);
   ("cause_recode_113", process_cause_recode_113);
   ("infant_cause_recode_130", process_infant_cause_recode_130);
   ("cause_recode_39", process_cause_recode_39);
   ("number_of_entity_axis_conditions", process_number_of_entity_axis_conditions);
   ("number_of_record_axis_conditions", process_number_of_record_axis_conditions);
   ("race_recode_6", process_race_recode_6);
   ("hispanic_origin", process_hispanic_origin);
   ("hispanic_origin_race_recode", process_hispanic_origin_race_recode);
   ("race_recode_40", process_race_recode_40);
   ("decedent_occupation_code", process_decedent_occupation_code);
   ("decedent_occupation_recode", process_decedent_occupation_recode);
   ("decedent_industry_code", process_decedent_industry_code);
   ("decedent_industry_recode", process_decedent_industry_recode)].

(** The unit constants of [process_detail_age], by selector. *)
Definition detail_age_units : list (Z * Z) :=
  [(1, YEARS_AS_MS); (2, MONTHS_AS_MS); (4, DAYS_AS_MS);
   (5, HOURS_AS_MS); (6, MINUTES_AS_MS)].

(** The renaming the specification asks of a decomposed part. *)
Definition renamed (part : string) : string :=
  if (part =? "ASIAN")%string then "OTHER_ASIAN"
  else if (part =? "NHOPI")%string then "OTHER_PACIFIC_ISLANDER"
  else part.

(** A line of [n] spaces followed by [s]: [s] starts at byte [n + 1]. *)
Definition at_byte (n : nat) (s : string) : string :=
  string_of_list_ascii (repeat " "%char n) ++ s.

(** The key/value pairs the decoders return for the fields of a layout,
    in layout order: what each turn of the loop stores, starting from an
    empty dict. *)
Fixpoint bindings (line : string) (entries : list ((nat * nat) * string))
    : outcome (list (string * pyval)) :=
  match entries with
  | [] => Ok []
  | ((start, end_), field) :: rest =>
      b <- process_field field (field_text line start end_) [] ;;
      bs <- bindings line rest ;;
      Ok (b ++ bs)%list
  end.

(** The keys a field stores: those it stores for a blank text. *)
Definition field_keys (field : string) : list string :=
  match process_field field "" [] with
  | Ok d0 => map fst d0
  | _ => []
  end.

Definition layout_keys (entries : list ((nat * nat) * string)) : list string :=
  flat_map (fun e => field_keys (snd e)) entries.

Fixpoint nodupb (l : list string) : bool :=
  match l with
  | [] => true
  | x :: l' => negb (existsb (String.eqb x) l') && nodupb l'
  end.

(** Entity-axis slot [i] (1..20) occupies the seven bytes
    [158 + 7 i .. 164 + 7 i] of the layout; its name and its text. *)
Definition entity_slot_name (i : nat) : string :=
  "entity_axis_condition_" ++ str_of_int (Z.of_nat i).

Definition entity_slot_text (line : string) (i : nat) : string :=
  field_text line (158 + 7 * i) (164 + 7 * i).

(** A line whose only non-blank bytes are [216000] in entity-axis
    slot 3. *)
Definition line_slot_3 : string := at_byte 178 "216000".

(** Membership of an entry in a layout, as a test. *)
Definition mem_entry (x : (nat * nat) * string) (entries : list ((nat * nat) * string))
    : bool :=
  existsb
    (fun e =>
       (fst (fst e) =? fst (fst x))%nat && (snd (fst e) =? snd (fst x))%nat
       && (snd e =? snd x)%string)
    entries.

(** A record of a newborn who lived zero minutes: detail age [6000]
    (unit 6, minutes; count 000) at bytes 70-73 and code 01 in the four
    recodes at bytes 75-82. *)
Definition line_zero_minutes : string := at_byte 69 "6000 01010101".

(** The same detail age with the 27-way recode as the only recode. *)
Definition line_zero_minutes_recode_27 : string := at_byte 69 "6000   01".

(** The dict of the empty line. *)
Definition blank_dict : dict :=
  match process_line "" with
  | Ok d => d
  | _ => []
  end.

(** A cut at [n] bytes falls on a field boundary of a layout when no
    byte range of the layout has bytes on both sides of it. *)
Definition on_boundary (n : nat) (entries : list ((nat * nat) * string)) : Prop :=
  Forall (fun e => (snd (fst e) <= n \/ n < fst (fst e))%nat) entries.

(** A record with detail age [1045] (45 years) at bytes 70-73, the same
    record cut after byte 70, and a record cut after the first byte of
    entity-axis slot 1. *)
Definition line_45_years : string := at_byte 69 "1045".
Definition line_45_years_cut : string := slice_to 70 line_45_years.
Definition line_slot_1 : string := at_byte 164 "11I251".
Definition line_slot_1_cut : string := slice_to 165 line_slot_1.

(** [ceil(n / w)] *)
Definition ceil_div (n w : Z) : Z := (n + w - 1) / w.

(** Ten blank lines. *)
Definition ten_lines : list string := repeat "" 10.

(** Every submitted future finishes: each index of a batch occurs in the
    completion order. *)
Definition all_finish (completion : list nat) (batches : list (list string)) : Prop :=
  forall i, (i < length batches)%nat -> In i completion.

(** A record whose month of death is not a number, and one whose
    education is not a number, everything else blank. *)
Definition line_bad_month : string := at_byte 64 "x".
Definition line_bad_education : string := at_byte 62 "x".

(** Three records that decode, and their rows. *)
Definition three_lines : list string := [line_slot_3; ""; line_45_years].

Definition three_rows : list dict :=
  match map_outcome row_of_line three_lines with
  | Ok rows => rows
  | _ => []
  end.

(** The cast that changes nothing. *)
Definition cast_nothing (row : dict) : outcome dict := Ok row.

(** The byte ranges of a layout follow one another from byte [from + 1]
    on, none empty. *)
Fixpoint contiguous (from : nat) (entries : list ((nat * nat) * string)) : bool :=
  match entries with
  | [] => true
  | ((start, end_), _) :: rest =>
      (start =? from + 1)%nat && (start <=? end_)%nat && contiguous end_ rest
  end.

(** The last byte of a layout that starts after byte [from]. *)
Fixpoint layout_end (from : nat) (entries : list ((nat * nat) * string)) : nat :=
  match entries with
  | [] => from
  | ((_, end_), _) :: rest => layout_end end_ rest
  end.

(** The bytes of each range of a layout, untrimmed, in layout order. *)
Definition raw_fields (line : string) (entries : list ((nat * nat) * string))
    : list string :=
  map (fun e => slice (fst (fst e) - 1) (snd (fst e)) line) entries.

(** The names of the layout that [process_line] never decodes. *)
Definition undecoded (field : string) : bool :=
  (field =? "reserved_positions")%string || (field =? "current_data_year")%string.

(** A record that is blank but for the data year at bytes 102-105. *)
Definition line_data_year : string := at_byte 101 "2022".

(** ** src/schema.py: the column types *)

#[warnings="-register-all"]
Inductive dtype : Type :=
| Enum (categories : list string)
| Int8
| Boolean
| Categorical
| Duration
| ListOf (inner : dtype)
| Struct (fields : list (string * dtype)).

(** [[v for v in mapping.values() if v is not None]]: the labels of a
    code table, in table order.  The tables whose comprehension has no
    filter hold no [None]. *)
Definition labels {K : Type} (mapping : list (K * pyval)) : list string :=
  flat_map (fun kv => match snd kv with PStr s => [s] | _ => [] end) mapping.

Definition record_type : dtype := Enum (labels record_type_mapping).
Definition resident_status : dtype := Enum (labels resident_status_mapping).
Definition education : dtype := Enum (labels education_mapping).
Definition education_reporting_flag : dtype :=
  Enum (labels education_reporting_flag_mapping).
Definition month_of_death : dtype := Int8.
Definition sex : dtype := Enum (labels sex_mapping).
Definition age_lower_bound : dtype := Duration.
Definition age_upper_bound : dtype := Duration.
Definition place_of_death : dtype := Enum (labels place_of_death_mapping).
Definition marital_status : dtype := Enum (labels marital_status_mapping).
Definition day_of_week_of_death : dtype := Enum (labels day_of_week_of_death_mapping).
Definition injury_at_work : dtype := Boolean.
Definition manner_of_death : dtype := Enum (labels manner_of_death_mapping).
Definition method_of_disposition : dtype := Enum (labels method_of_disposition_mapping).
Definition autopsy : dtype := Boolean.
Definition activity_code : dtype := Enum (labels activity_code_mapping).
Definition place_of_injury : dtype := Enum (labels place_of_injury_mapping).
Definition icd_code : dtype := Categorical.
Definition cause_recode_358 : dtype := Categorical.
Definition cause_recode_113 : dtype := Categorical.
Definition infant_cause_recode_130 : dtype := Categorical.
Definition cause_recode_39 : dtype := Int8.
Definition entity_axis_condition : dtype :=
  Struct [("certificate_part", Categorical);
          ("certificate_line", Int8);
          ("condition", Categorical)].
Definition entity_axis_conditions : dtype := ListOf entity_axis_condition.
Definition record_axis_conditions : dtype := ListOf Categorical.
Definition race_recode_6 : dtype := Enum (labels race_recode_6_mapping).
Definition hispanic_origin : dtype := Enum (labels hispanic_origin_mapping).
Definition hispanic_origin_race_recode : dtype :=
  Enum (labels hispanic_origin_race_recode_mapping).
(** [list(race_recode_40_mapping.values())[:15]]: the first fifteen
    labels, the fifteenth being the composite [BLACK_WHITE]. *)
Definition race_recode_40 : dtype :=
  ListOf (Enum (firstn 15 (labels race_recode_40_mapping))).
Definition decedent_occupation_code : dtype := Categorical.
Definition decedent_occupation_recode : dtype :=
  Enum (labels decedent_occupation_recode_mapping).
Definition decedent_industry_code : dtype := Categorical.
Definition decedent_industry_recode : dtype :=
  Enum (labels decedent_industry_recode_mapping).

Definition dataset_schema : list (string * dtype) :=
  [("record_type", record_type);
   ("resident_status", resident_status);
   ("education", education);
   ("month_of_death", month_of_death);
   ("sex", sex);
   ("age_lower_bound", age_lower_bound);
   ("age_upper_bound", age_upper_bound);
   ("place_of_death", place_of_death);
   ("marital_status", marital_status);
   ("day_of_week_of_death", day_of_week_of_death);
   ("injury_at_work", injury_at_work);
   ("manner_of_death", manner_of_death);
   ("method_of_disposition", method_of_disposition);
   ("autopsy", autopsy);
   ("activity_code", activity_code);
   ("place_of_injury", place_of_injury);
   ("icd_code", icd_code);
   ("cause_recode_358", cause_recode_358);
   ("cause_recode_113", cause_recode_113);
   ("infant_cause_recode_130", infant_cause_recode_130);
   ("cause_recode_39", cause_recode_39);
   ("entity_axis_conditions", entity_axis_conditions);
   ("record_axis_conditions", record_axis_conditions);
   ("race_recode_6", race_recode_6);
   ("hispanic_origin", hispanic_origin);
   ("hispanic_origin_race_recode", hispanic_origin_race_recode);
   ("race_recode_40", race_recode_40);
   ("decedent_occupation_code", decedent_occupation_code);
   ("decedent_occupation_recode", decedent_occupation_recode);
   ("decedent_industry_code", decedent_industry_code);
   ("decedent_industry_recode", decedent_industry_recode)].

(** ** More derived notions *)

(** The keys of a dict after [d[k] = v] and after [maybe_del(d, k)]. *)
Definition key_add (keys : list string) (k : string) : list string :=
  if existsb (String.eqb k) keys then keys else (keys ++ [k])%list.

Fixpoint key_del (keys : list string) (k : string) : list string :=
  match keys with
  | [] => []
  | k0 :: keys' => if (k0 =? k)%string then keys' else k0 :: key_del keys' k
  end.

(** The keys of the row assembled from a dict with the given keys. *)
Definition row_keys (keys : list string) : list string :=
  let kept :=
    fold_left
      (fun ks k =>
         if startswith "entity_axis_condition_" k
            || startswith "record_axis_condition_" k
         then key_del ks k else ks)
      keys keys in
  let kept := fold_left key_del removed_fields kept in
  fold_left key_add
    ["age_lower_bound"; "age_upper_bound";
     "entity_axis_conditions"; "record_axis_conditions"]
    kept.

(** The row of the empty line. *)
Definition blank_row : dict := assemble_row blank_dict.

(** Record-axis slot [i] (1..20) occupies the five bytes
    [339 + 5 i .. 343 + 5 i] of the layout; its name and its text. *)
Definition record_slot_name (i : nat) : string :=
  "record_axis_condition_" ++ str_of_int (Z.of_nat i).

Definition record_slot_text (line : string) (i : nat) : string :=
  field_text line (339 + 5 * i) (343 + 5 * i).

(** A record with two record-axis conditions, in slots 1 and 3. *)
Definition line_two_conditions : string := at_byte 343 "I251      E119".

(** A record whose detail age has the unit selector 3. *)
Definition line_selector_3 : string := at_byte 69 "3005".

(** The values a column of a given type holds.  [None] is a null and
    fits every column; otherwise an Enum holds one of its categories, an
    Int8 an integer of eight bits, a Boolean a [bool], a Categorical any
    string, a Duration an integer of 64 bits, a list the values of its
    inner type, and the struct of three fields a condition whose part,
    line and code fit the three fields in order. *)
Fixpoint fits (t : dtype) (v : pyval) {struct t} : bool :=
  match v with
  | PNone => true
  | _ =>
      match t with
      | Enum categories =>
          match v with
          | PStr s => existsb (String.eqb s) categories
          | _ => false
          end
      | Int8 =>
          match v with
          | PInt z => (-128 <=? z) && (z <=? 127)
          | _ => false
          end
      | Boolean => match v with PBool _ => true | _ => false end
      | Categorical => match v with PStr _ => true | _ => false end
      | Duration =>
          match v with
          | PInt z => (- 2 ^ 63 <=? z) && (z <=? 2 ^ 63 - 1)
          | _ => false
          end
      | ListOf inner =>
          match v with
          | PList l => forallb (fits inner) l
          | _ => false
          end
      | Struct fields =>
          match fields, v with
          | [(_, a); (_, b); (_, c)], PCond part line condition =>
              fits a (PStr part) && fits b (PInt line) && fits c (PStr condition)
          | _, _ => false
          end
      end
  end.

(** A code table whose values are labels or [None]. *)
Definition labels_only {K : Type} (mapping : list (K * pyval)) : bool :=
  forallb
    (fun kv => match snd kv with PNone => true | PStr _ => true | _ => false end)
    mapping.

(** The decoders of the columns a row keeps, apart from the race
    recode 40, with the type [dataset_schema] gives the column. *)
Definition kept_decoders : list ((string -> outcome (string * pyval)) * dtype) :=
  [(process_record_type, record_type);
   (process_resident_status, resident_status);
   (process_education, education);
   (process_month_of_death, month_of_death);
   (process_sex, sex);
   (process_place_of_death, place_of_death);
   (process_marital_status, marital_status);
   (process_day_of_week_of_death, day_of_week_of_death);
   (process_injury_at_work, injury_at_work);
   (process_manner_of_death, manner_of_death);
   (process_method_of_disposition, method_of_disposition);
   (process_autopsy, autopsy);
   (process_activity_code, activity_code);
   (process_place_of_injury, place_of_injury);
   (process_icd_code, icd_code);
   (process_cause_recode_358, cause_recode_358);
   (process_cause_recode_113, cause_recode_113);
   (process_infant_cause_recode_130, infant_cause_recode_130);
   (process_cause_recode_39, cause_recode_39);
   (process_race_recode_6, race_recode_6);
   (process_hispanic_origin, hispanic_origin);
   (process_hispanic_origin_race_recode, hispanic_origin_race_recode);
   (process_decedent_occupation_code, decedent_occupation_code);
   (process_decedent_occupation_recode, decedent_occupation_recode);
   (process_decedent_industry_code, decedent_industry_code);
   (process_decedent_industry_recode, decedent_industry_recode)].

(** An age recode gives [None] or a range between 0 and 999 years. *)
Definition recode_value (x : pyval) : Prop :=
  x = PNone
  \/ exists lo hi, x = PTuple lo hi /\ 0 <= lo <= hi /\ hi <= 999 * YEARS_AS_MS.

(** The type polars infers for a column of [dataset_schema] when the
    column holds a value: a label or a string is a [String], an integer
    an [Int64], and so on. *)
Fixpoint expected (t : dtype) : inferred :=
  match t with
  | Enum _ => IString
  | Int8 => IInt64
  | Boolean => IBoolean
  | Categorical => IString
  | Duration => IInt64
  | ListOf inner => IList (expected inner)
  | Struct fields => IStruct (map (fun nt => (fst nt, expected (snd nt))) fields)
  end.

(** [a] is [t] with [Null] in the place of some of its parts. *)
Fixpoint sub (a t : inferred) {struct a} : bool :=
  match a, t with
  | INull, _ => true
  | IList a', IList t' => sub a' t'
  | _, _ => inferred_eqb a t
  end.

(** The type of the value is [t], some parts [Null]. *)
Definition conforms (t : inferred) (v : pyval) : bool :=
  match dtype_of v with
  | Some u => sub u t
  | None => false
  end.

(** [None] or a list of strings. *)
Definition str_list (x : pyval) : Prop :=
  x = PNone \/ exists parts, x = PList (map PStr parts).

(** Three records that differ in the month of death only: January,
    February and March. *)
Definition three_months : list string :=
  [at_byte 64 "01"; at_byte 64 "02"; at_byte 64 "03"].

Definition three_month_rows : list dict :=
  match map_outcome row_of_line three_months with
  | Ok rows => rows
  | _ => []
  end.

(** What the error of a field says.  Either an integer did not parse:
    the message quotes the text that was parsed, which is the text of
    the field, or, for the detail age, its first character or the rest,
    or, for an entity-axis slot, its first or its second character; the
    field is not named.  Or a value was rejected: the message names the
    field, by its name in the layout or by the key of its column, and
    shows the text of the field or the integer parsed from it. *)
Definition field_error (field value msg : string) : Prop :=
  (exists text,
     msg = "Could not parse '" ++ text ++ "' as an integer."
     /\ (text = value
         \/ (field = "detail_age"
             /\ (text = slice_to 1 value \/ text = slice_from 1 value))
         \/ (startswith "entity_axis_condition_" field = true
             /\ exists c,
                  text = String c ""
                  /\ (String.get 0 value = Some c \/ String.get 1 value = Some c))))
  \/ (exists name shown,
        msg = "Invalid value for " ++ name ++ ": " ++ shown
        /\ (name = field \/ field_keys field = [name])
        /\ (shown = value
            \/ exists v, try_parse_int value = Ok v /\ shown = str_of_int v)).

(** * Properties *)

(** ** The outcome monad *)

Lemma bind_ok_inv {A B : Type} (c : outcome A) (k : A -> outcome B) (b : B) :
  bind c k = Ok b -> exists a, c = Ok a /\ k a = Ok b.
Proof.
  destruct c as [a | msg | e]; simpl; intros H; try discriminate.
  exists a; split; [reflexivity | exact H].
Qed.

Lemma bind_ret_r {A : Type} (c : outcome A) : bind c Ok = c.
Proof. destruct c; reflexivity. Qed.

(** ** Blank input *)

(** C7.  On the empty (trimmed) text every field decoder answers [Ok]
    with [None] as the value, never an error; the only two exceptions
    are [process_age_substitution_flag] and [process_race_imputation_flag],
    which answer [Ok] with [False]. *)
Theorem blank_input_is_absent :
  Forall (fun kd => snd kd "" = Ok (fst kd, PNone)) absent_on_blank
  /\ (forall n, process_entity_axis_condition n ""
                = Ok ("entity_axis_condition_" ++ str_of_int n, PNone))
  /\ (forall n, process_record_axis_condition n ""
                = Ok ("record_axis_condition_" ++ str_of_int n, PNone))
  /\ process_age_substitution_flag "" = Ok ("age_substitution_flag", PBool false)
  /\ process_race_imputation_flag "" = Ok ("race_imputation_flag", PBool false).
Proof.
  split; [| repeat split].
  unfold absent_on_blank.
  repeat (apply Forall_cons; [reflexivity |]).
  apply Forall_nil.
Qed.

(** ** Bounded integers *)

(** C8.  For a non-blank text that parses as the integer [v]:
    [process_month_of_death] is an error outside 1..12, the two
    condition-count decoders are errors outside 0..20, and
    [process_cause_recode_39] outside 1..42 is [Ok] with [None]. *)
Theorem bounded_integer_asymmetry (value : string) (v : Z) :
  value <> "" ->
  try_parse_int value = Ok v ->
  ((v < 1 \/ 12 < v) ->
     process_month_of_death value
     = Err ("Invalid value for month_of_death: " ++ str_of_int v))
  /\ ((v < 0 \/ 20 < v) ->
        process_number_of_entity_axis_conditions value
        = Err ("Invalid value for number_of_entity_axis_conditions: " ++ str_of_int v)
        /\ process_number_of_record_axis_conditions value
           = Err ("Invalid value for number_of_record_axis_conditions: " ++ str_of_int v))
  /\ ((v < 1 \/ 42 < v) ->
        process_cause_recode_39 value = Ok ("cause_recode_39", PNone)).
Proof.
  intros Hne Hv.
  apply String.eqb_neq in Hne.
  unfold process_month_of_death, process_number_of_entity_axis_conditions,
    process_number_of_record_axis_conditions, process_cause_recode_39.
  rewrite Hne, Hv; simpl.
  split; [| split]; intros Hout; [| split |].
  - replace ((1 <=? v) && (v <=? 12)) with false; [reflexivity |].
    symmetry; apply andb_false_iff; destruct Hout; [left | right]; lia.
  - replace ((0 <=? v) && (v <=? 20)) with false; [reflexivity |].
    symmetry; apply andb_false_iff; destruct Hout; [left | right]; lia.
  - replace ((0 <=? v) && (v <=? 20)) with false; [reflexivity |].
    symmetry; apply andb_false_iff; destruct Hout; [left | right]; lia.
  - replace ((1 <=? v) && (v <=? 42)) with false; [reflexivity |].
    symmetry; apply andb_false_iff; destruct Hout; [left | right]; lia.
Qed.

Lemma bounded_integer_asymmetry_witness :
  process_month_of_death "99" = Err "Invalid value for month_of_death: 99"
  /\ process_number_of_entity_axis_conditions "99"
     = Err "Invalid value for number_of_entity_axis_conditions: 99"
  /\ process_cause_recode_39 "99" = Ok ("cause_recode_39", PNone).
Proof.
  destruct (bounded_integer_asymmetry "99" 99 ltac:(discriminate) eq_refl)
    as [Hm [Hc H39]].
  split; [apply Hm; right; reflexivity |].
  split; [apply Hc; right; reflexivity | apply H39; right; reflexivity].
Defined.

(** ** Detail age *)

Lemma detail_age_parsed (value : string) (based_on count : Z) :
  value <> "" ->
  try_parse_int (slice_to 1 value) = Ok based_on ->
  try_parse_int (slice_from 1 value) = Ok count ->
  process_detail_age value
  = if (1 <=? based_on) && (based_on <=? 6)
    then mult <- dict_item detail_age_units based_on ;;
         Ok ("detail_age", PInt (count * mult))
    else Ok ("detail_age", PNone).
Proof.
  intros Hne Hb Hc.
  apply String.eqb_neq in Hne.
  unfold process_detail_age.
  rewrite Hne, Hb, Hc; reflexivity.
Qed.

(** A supported selector multiplies the count by its unit. *)
Lemma detail_age_supported (value : string) (based_on count mult : Z) :
  value <> "" ->
  try_parse_int (slice_to 1 value) = Ok based_on ->
  try_parse_int (slice_from 1 value) = Ok count ->
  In (based_on, mult) detail_age_units ->
  process_detail_age value = Ok ("detail_age", PInt (count * mult)).
Proof.
  intros Hne Hb Hc Hin.
  rewrite (detail_age_parsed value based_on count Hne Hb Hc).
  simpl in Hin.
  repeat (destruct Hin as [Hin | Hin]; [inversion Hin; subst; reflexivity |]).
  contradiction.
Qed.

(** A selector outside 1..6 gives [None]. *)
Lemma detail_age_outside_guard (value : string) (based_on count : Z) :
  value <> "" ->
  try_parse_int (slice_to 1 value) = Ok based_on ->
  try_parse_int (slice_from 1 value) = Ok count ->
  based_on < 1 \/ 6 < based_on ->
  process_detail_age value = Ok ("detail_age", PNone).
Proof.
  intros Hne Hb Hc Hout.
  rewrite (detail_age_parsed value based_on count Hne Hb Hc).
  replace ((1 <=? based_on) && (based_on <=? 6)) with false; [reflexivity |].
  symmetry; apply andb_false_iff; destruct Hout; [left | right]; lia.
Qed.

(** C6.  The selector 3 is unsupported, yet it passes the guard
    [1 <= based_on <= 6] and has no entry in the unit table: whatever the
    count, [process_detail_age] raises [KeyError] instead of answering
    [Ok] with [None]. *)
Theorem detail_age_selector_3_raises (value : string) (count : Z) :
  value <> "" ->
  try_parse_int (slice_to 1 value) = Ok 3 ->
  try_parse_int (slice_from 1 value) = Ok count ->
  process_detail_age value = Raise KeyError.
Proof.
  intros Hne Hb Hc.
  rewrite (detail_age_parsed value 3 count Hne Hb Hc).
  reflexivity.
Qed.

Lemma detail_age_selector_3_raises_witness :
  process_detail_age "3005" = Raise KeyError.
Proof.
  apply (detail_age_selector_3_raises "3005" 5);
    [discriminate | reflexivity | reflexivity].
Defined.

(** ** Race recode 40 *)

(** Every integer of an interval is its lower end plus a natural number
    below the width. *)
Lemma in_interval (lo hi v : Z) :
  lo <= v <= hi -> exists k : nat, (k <= Z.to_nat (hi - lo))%nat /\ v = lo + Z.of_nat k.
Proof.
  intros H; exists (Z.to_nat (v - lo)); split; lia.
Qed.

Tactic Notation "enumerate" ident(k) integer(n) "by" tactic(t) :=
  do n (destruct k as [| k]; [solve [t] |]).

(** C1.  What [process_race_recode_40] returns for the codes of the
    table: a direct code 1..14 gives the one-element list of its label;
    a composite code 15..40 gives the parts of its label split at the
    underscores, with no part renamed, so [ASIAN] and [NHOPI] stay as
    they are (the text 22 gives [ASIAN], [WHITE]). *)
Theorem race_recode_40_parts_not_renamed (value : string) (v : Z) :
  value <> "" ->
  try_parse_int value = Ok v ->
  1 <= v <= 40 ->
  exists label,
    iget race_recode_40_mapping v = PStr label
    /\ process_race_recode_40 value
       = Ok ("race_recode_40",
             if v <=? 14 then PList [PStr label]
             else PList (map PStr (split "_" label))).
Proof.
  intros Hne Hv Hr.
  apply String.eqb_neq in Hne.
  unfold process_race_recode_40.
  rewrite Hne, Hv; simpl bind.
  destruct (in_interval 1 40 v Hr) as [k [Hk ->]].
  change (Z.to_nat (40 - 1)) with 39%nat in Hk.
  enumerate k 40 by (eexists; split; reflexivity).
  exfalso; lia.
Qed.

Lemma race_recode_40_parts_not_renamed_witness :
  process_race_recode_40 "22"
  = Ok ("race_recode_40", PList [PStr "ASIAN"; PStr "WHITE"])
  /\ map renamed ["ASIAN"; "WHITE"] = ["OTHER_ASIAN"; "WHITE"]
  /\ process_race_recode_40 "04" = Ok ("race_recode_40", PList [PStr "ASIAN_INDIAN"]).
Proof.
  destruct (race_recode_40_parts_not_renamed "22" 22 ltac:(discriminate) eq_refl
              ltac:(lia)) as [label22 [Hl22 H22]].
  destruct (race_recode_40_parts_not_renamed "04" 4 ltac:(discriminate) eq_refl
              ltac:(lia)) as [label4 [Hl4 H4]].
  inversion Hl22; subst label22.
  inversion Hl4; subst label4.
  split; [exact H22 |].
  split; [reflexivity | exact H4].
Defined.

(** ** Dictionaries *)

Lemma get_store (d : dict) (k k' : string) (v : pyval) :
  get (store d (k, v)) k' = if (k' =? k)%string then v else get d k'.
Proof.
  unfold get, store; simpl.
  induction d as [| [k0 v0] d IH]; simpl.
  - reflexivity.
  - destruct (String.eqb_spec k k0) as [-> | Hk]; simpl.
    + destruct (k' =? k0)%string; reflexivity.
    + rewrite IH.
      destruct (String.eqb_spec k' k0) as [-> | Hk']; [| reflexivity].
      destruct (String.eqb_spec k0 k); [congruence | reflexivity].
Qed.

Lemma get_fold_store_other (bs : list (string * pyval)) (d : dict) (k : string) :
  ~ In k (map fst bs) -> get (fold_left store bs d) k = get d k.
Proof.
  revert d; induction bs as [| [k0 v0] bs IH]; intros d Hk; simpl.
  - reflexivity.
  - rewrite IH by (intros H; apply Hk; right; exact H).
    rewrite get_store.
    destruct (String.eqb_spec k k0) as [-> | _]; [| reflexivity].
    exfalso; apply Hk; left; reflexivity.
Qed.

Lemma get_fold_store (bs : list (string * pyval)) (d : dict) (k : string) (v : pyval) :
  NoDup (map fst bs) -> In (k, v) bs -> get (fold_left store bs d) k = v.
Proof.
  revert d; induction bs as [| [k0 v0] bs IH]; intros d Hnd Hin; simpl.
  - contradiction.
  - inversion Hnd as [| ? ? Hk0 Hnd']; subst.
    destruct Hin as [Heq | Hin].
    + inversion Heq; subst.
      rewrite get_fold_store_other by exact Hk0.
      rewrite get_store, String.eqb_refl; reflexivity.
    + apply IH; assumption.
Qed.

Lemma nodupb_sound (l : list string) : nodupb l = true -> NoDup l.
Proof.
  induction l as [| x l IH]; simpl; intros H.
  - constructor.
  - apply andb_true_iff in H; destruct H as [Hx Hl].
    constructor; [| apply IH; exact Hl].
    intros Hin.
    apply negb_true_iff in Hx.
    assert (existsb (String.eqb x) l = true) as Hex.
    { apply existsb_exists; exists x; split; [exact Hin | apply String.eqb_refl]. }
    congruence.
Qed.

(** ** One field *)

Ltac crunch :=
  repeat match goal with
         | |- context [match ?x with _ => _ end] => destruct x
         end.

(** What a field does to [d] is to store what it stores in an empty
    dict. *)
Lemma process_field_store (field value : string) (d : dict) :
  process_field field value d
  = (d0 <- process_field field value [] ;; Ok (fold_left store d0 d)).
Proof.
  unfold process_field.
  repeat match goal with
         | |- (if ?c then _ else _) = _ =>
             destruct c; cbv iota;
             [solve [unfold bind; crunch; reflexivity] |]
         end.
  reflexivity.
Qed.

Create HintDb decoders.

#[local] Hint Unfold
  process_record_type process_resident_status process_education
  process_education_reporting_flag process_month_of_death process_sex
  process_detail_age process_age_substitution_flag process_age_recode_52
  process_age_recode_27 process_age_recode_12 process_infant_age_recode_22
  process_place_of_death process_marital_status process_day_of_week_of_death
  process_injury_at_work process_manner_of_death process_method_of_disposition
  process_autopsy process_activity_code process_place_of_injury
  process_icd_code process_cause_recode_358 process_cause_recode_113
  process_infant_cause_recode_130 process_cause_recode_39
  process_number_of_entity_axis_conditions process_entity_axis_condition
  process_number_of_record_axis_conditions process_record_axis_condition
  process_race_imputation_flag process_race_recode_6 process_hispanic_origin
  process_hispanic_origin_race_recode process_race_recode_40
  process_decedent_occupation_code process_decedent_occupation_recode
  process_decedent_industry_code process_decedent_industry_recode : decoders.

Ltac crunch_eqn :=
  repeat match goal with
         | |- context [match ?x with _ => _ end] =>
             lazymatch x with
             | context [match _ with _ => _ end] => fail
             | _ => destruct x eqn:?
             end
         end.

Ltac crunch_hyp H :=
  repeat match type of H with
         | context [match ?x with _ => _ end] =>
             lazymatch x with
             | context [match _ with _ => _ end] => fail
             | _ => destruct x eqn:?
             end
         end.

Ltac replay :=
  repeat match goal with
         | E : ?x = _ |- context [?x] => rewrite E
         end.

(** The keys a field stores do not depend on its text: they are the keys
    it stores for a blank text. *)
Lemma process_field_keys (field value : string) (d0 : dict) :
  process_field field value [] = Ok d0 -> map fst d0 = field_keys field.
Proof.
  unfold field_keys, process_field.
  repeat match goal with
         | |- (if ?c then _ else _) = _ -> _ =>
             destruct c; cbv iota;
             [solve [ match goal with
                      | |- _ -> _ = ?rhs => set (R := rhs)
                      end;
                      try autounfold with decoders; unfold bind; crunch_eqn;
                      intros H; inversion H; subst; subst R; replay; reflexivity ] |]
         end.
  intros H; inversion H; reflexivity.
Qed.

(** ** The loop of [process_line] *)

Lemma process_fields_bindings (line : string) (entries : list ((nat * nat) * string))
    (d : dict) :
  process_fields line entries d
  = (bs <- bindings line entries ;; Ok (fold_left store bs d)).
Proof.
  revert d; induction entries as [| [[start end_] field] rest IH]; intros d; simpl.
  - reflexivity.
  - rewrite process_field_store.
    destruct (process_field field (field_text line start end_) []) as [d0 | msg | e];
      simpl; try reflexivity.
    rewrite IH.
    destruct (bindings line rest) as [bs | msg | e]; simpl; try reflexivity.
    rewrite fold_left_app; reflexivity.
Qed.

Lemma bindings_keys (line : string) (entries : list ((nat * nat) * string))
    (bs : list (string * pyval)) :
  bindings line entries = Ok bs -> map fst bs = layout_keys entries.
Proof.
  revert bs; induction entries as [| [[start end_] field] rest IH]; intros bs; simpl.
  - intros H; inversion H; reflexivity.
  - intros H.
    apply bind_ok_inv in H as [d0 [Hd0 H]].
    apply bind_ok_inv in H as [bs' [Hbs' H]].
    inversion H; subst bs.
    rewrite map_app, (process_field_keys _ _ _ Hd0), (IH _ Hbs').
    reflexivity.
Qed.

Lemma bindings_field (line : string) (entries : list ((nat * nat) * string))
    (bs : list (string * pyval)) (start end_ : nat) (field : string) :
  bindings line entries = Ok bs ->
  In ((start, end_), field) entries ->
  exists d0,
    process_field field (field_text line start end_) [] = Ok d0 /\ incl d0 bs.
Proof.
  revert bs; induction entries as [| [[s0 e0] f0] rest IH]; intros bs; simpl.
  - intros _ [].
  - intros H Hin.
    apply bind_ok_inv in H as [d0 [Hd0 H]].
    apply bind_ok_inv in H as [bs' [Hbs' H]].
    inversion H; subst bs.
    destruct Hin as [Heq | Hin].
    + inversion Heq; subst.
      exists d0; split; [exact Hd0 | apply incl_appl, incl_refl].
    + destruct (IH _ Hbs' Hin) as [d1 [Hd1 Hincl]].
      exists d1; split; [exact Hd1 | apply incl_appr; exact Hincl].
Qed.

Lemma layout_keys_nodup : NoDup (layout_keys mapping).
Proof. apply nodupb_sound; vm_compute; reflexivity. Qed.

(** When a line decodes, the dict holds, under the keys of each field of
    the layout, the values that field's decoder returned for its text. *)
Lemma process_line_get (line : string) (d : dict) (start end_ : nat) (field : string) :
  process_line line = Ok d ->
  In ((start, end_), field) mapping ->
  exists d0,
    process_field field (field_text line start end_) [] = Ok d0
    /\ forall k v, In (k, v) d0 -> get d k = v.
Proof.
  unfold process_line; rewrite process_fields_bindings.
  intros H Hin.
  apply bind_ok_inv in H as [bs [Hbs H]].
  inversion H; subst d.
  destruct (bindings_field _ _ _ _ _ _ Hbs Hin) as [d0 [Hd0 Hincl]].
  exists d0; split; [exact Hd0 |].
  intros k v Hkv.
  apply get_fold_store; [| apply Hincl; exact Hkv].
  rewrite (bindings_keys _ _ _ Hbs).
  exact layout_keys_nodup.
Qed.

(** ** Entity-axis conditions *)

Lemma mem_entry_sound (x : (nat * nat) * string) (entries : list ((nat * nat) * string)) :
  mem_entry x entries = true -> In x entries.
Proof.
  unfold mem_entry; intros H.
  apply existsb_exists in H as [[[s e] f] [Hin Heq]].
  destruct x as [[s' e'] f'].
  apply andb_true_iff in Heq as [Heq Hf].
  apply andb_true_iff in Heq as [Hs He].
  apply Nat.eqb_eq in Hs, He.
  apply String.eqb_eq in Hf.
  simpl in Hs, He, Hf; subst; exact Hin.
Qed.

Lemma entity_slot_in_mapping (i : nat) :
  (1 <= i <= 20)%nat ->
  In (((158 + 7 * i)%nat, (164 + 7 * i)%nat), entity_slot_name i) mapping.
Proof.
  intros Hi.
  apply mem_entry_sound.
  destruct i as [| i]; [lia |].
  enumerate i 20 by (vm_compute; reflexivity).
  lia.
Qed.

(** The chain of [process_field] on a concrete field name. *)
Ltac run_chain :=
  match goal with
  | |- context [process_field ?f _ _] =>
      let n := eval vm_compute in f in
      change f with n
  end;
  unfold process_field;
  cbn [String.eqb Ascii.eqb Bool.eqb startswith prefix].

Lemma process_field_entity_slot (i : nat) (value : string) :
  (1 <= i <= 20)%nat ->
  process_field (entity_slot_name i) value []
  = (kv <- process_entity_axis_condition (Z.of_nat i) value ;; Ok (store [] kv)).
Proof.
  intros Hi.
  destruct i as [| i]; [lia |].
  enumerate i 20 by (run_chain; reflexivity).
  lia.
Qed.

(** When a line decodes, the dict holds under the name of slot [i] the
    value [process_entity_axis_condition] returned for the slot's text. *)
Lemma entity_slot_value (line : string) (d : dict) (i : nat) :
  process_line line = Ok d ->
  (1 <= i <= 20)%nat ->
  exists k x,
    process_entity_axis_condition (Z.of_nat i) (entity_slot_text line i) = Ok (k, x)
    /\ get d (entity_slot_name i) = x.
Proof.
  intros Hd Hi.
  destruct (process_line_get line d _ _ _ Hd (entity_slot_in_mapping i Hi))
    as [d0 [Hd0 Hget]].
  rewrite process_field_entity_slot in Hd0 by exact Hi.
  apply bind_ok_inv in Hd0 as [[k x] [Hdec Hst]].
  exists k, x; split; [exact Hdec |].
  apply Hget.
  inversion Hst; subst d0.
  unfold process_entity_axis_condition, bind in Hdec.
  crunch_hyp Hdec; inversion Hdec; subst; left; reflexivity.
Qed.

(** The two condition lists and the two age bounds of an assembled row. *)
Lemma assemble_row_get (d : dict) :
  get (assemble_row d) "age_lower_bound" = fst (age_bounds (final_age d))
  /\ get (assemble_row d) "age_upper_bound" = snd (age_bounds (final_age d))
  /\ get (assemble_row d) "entity_axis_conditions"
     = PList (collect_conditions "entity_axis_condition_" d)
  /\ get (assemble_row d) "record_axis_conditions"
     = PList (collect_conditions "record_axis_condition_" d).
Proof.
  unfold assemble_row.
  destruct (age_bounds (final_age d)) as [lower upper].
  cbn [fold_left]; rewrite !get_store.
  repeat split; reflexivity.
Qed.





(** ** Age resolution *)

(** The key of the pair a decoder returned: the one it returns for a
    blank text. *)
Ltac decoder_key Hdec :=
  match type of Hdec with
  | ?dec ?v = Ok ?kv =>
      match eval vm_compute in (dec "") with
      | Ok (?k, _) =>
          let Hk := fresh "Hk" in
          assert (Hk : fst kv = k)
            by (revert Hdec; generalize v; intros ?;
                autounfold with decoders; unfold bind; crunch_eqn;
                intros H; inversion H; reflexivity)
      end
  end.

(** From [Hd : process_line line = Ok d] and an entry of the layout: the
    decoder's answer for the entry's bytes, with the value read from [d]. *)
Ltac field_value Hd entry :=
  let d0 := fresh "d0" in
  let Hd0 := fresh "Hd0" in
  let Hget := fresh "Hget" in
  let kv := fresh "kv" in
  let Hdec := fresh "Hdec" in
  let Hst := fresh "Hst" in
  destruct (process_line_get _ _ (fst (fst entry)) (snd (fst entry)) (snd entry) Hd)
    as [d0 [Hd0 Hget]];
  [apply mem_entry_sound; vm_compute; reflexivity |];
  cbn [fst snd] in Hd0;
  revert Hd0; run_chain; intros Hd0;
  apply bind_ok_inv in Hd0 as [kv [Hdec Hst]];
  inversion Hst; subst d0; clear Hst;
  specialize (Hget (fst kv) (snd kv) (or_introl eq_refl));
  decoder_key Hdec;
  destruct kv as [? ?]; cbn [fst snd] in *; subst; exact Hdec.

(** When a line decodes, the dict holds under the five age keys what the
    five age decoders returned for their bytes. *)
Lemma age_fields_get (line : string) (d : dict) :
  process_line line = Ok d ->
  process_detail_age (field_text line 70 73) = Ok ("detail_age", get d "detail_age")
  /\ process_infant_age_recode_22 (field_text line 81 82)
     = Ok ("infant_age_recode_22", get d "infant_age_recode_22")
  /\ process_age_recode_52 (field_text line 75 76)
     = Ok ("age_recode_52", get d "age_recode_52")
  /\ process_age_recode_27 (field_text line 77 78)
     = Ok ("age_recode_27", get d "age_recode_27")
  /\ process_age_recode_12 (field_text line 79 80)
     = Ok ("age_recode_12", get d "age_recode_12").
Proof.
  intros Hd.
  repeat split.
  - field_value Hd ((70, 73)%nat, "detail_age").
  - field_value Hd ((81, 82)%nat, "infant_age_recode_22").
  - field_value Hd ((75, 76)%nat, "age_recode_52").
  - field_value Hd ((77, 78)%nat, "age_recode_27").
  - field_value Hd ((79, 80)%nat, "age_recode_12").
Qed.

(** The bounds of a row are those of the first truthy value among the
    answers of the five age decoders, in the order detail age, infant
    recode, 52-way, 27-way, 12-way. *)
Lemma resolved_age (line : string) (row : dict) :
  row_of_line line = Ok row ->
  exists a i r52 r27 r12,
    process_detail_age (field_text line 70 73) = Ok ("detail_age", a)
    /\ process_infant_age_recode_22 (field_text line 81 82)
       = Ok ("infant_age_recode_22", i)
    /\ process_age_recode_52 (field_text line 75 76) = Ok ("age_recode_52", r52)
    /\ process_age_recode_27 (field_text line 77 78) = Ok ("age_recode_27", r27)
    /\ process_age_recode_12 (field_text line 79 80) = Ok ("age_recode_12", r12)
    /\ (get row "age_lower_bound", get row "age_upper_bound")
       = age_bounds (py_or (py_or (py_or (py_or (py_or a i) r52) r27) r12) PNone).
Proof.
  intros Hrow.
  unfold row_of_line in Hrow.
  apply bind_ok_inv in Hrow as [d [Hd Hrow]].
  inversion Hrow; subst row.
  destruct (age_fields_get line d Hd) as [Ha [Hi [H52 [H27 H12]]]].
  exists (get d "detail_age"), (get d "infant_age_recode_22"),
    (get d "age_recode_52"), (get d "age_recode_27"), (get d "age_recode_12").
  repeat (split; [assumption |]).
  destruct (assemble_row_get d) as [-> [-> _]].
  unfold final_age.
  destruct (age_bounds _); reflexivity.
Qed.

Lemma py_or_truthy (x y : pyval) : truthy x = true -> py_or x y = x.
Proof. unfold py_or; intros ->; reflexivity. Qed.

(** A detail age other than zero gives both bounds, whatever the
    recodes hold. *)
Lemma nonzero_detail_age_wins (line : string) (row : dict) (z : Z) :
  row_of_line line = Ok row ->
  process_detail_age (field_text line 70 73) = Ok ("detail_age", PInt z) ->
  z <> 0 ->
  get row "age_lower_bound" = PInt z /\ get row "age_upper_bound" = PInt z.
Proof.
  intros Hrow Hdet Hz.
  destruct (resolved_age line row Hrow)
    as [a [i [r52 [r27 [r12 [Ha [_ [_ [_ [_ Hb]]]]]]]]]].
  rewrite Hdet in Ha; inversion Ha; subst a.
  assert (truthy (PInt z) = true) as Ht
    by (simpl; apply negb_true_iff, Z.eqb_neq; exact Hz).
  rewrite !(py_or_truthy _ _ Ht) in Hb.
  unfold age_bounds in Hb; rewrite Ht in Hb.
  inversion Hb; split; reflexivity.
Qed.

(** With the five age fields blank both bounds are [None]. *)
Lemma blank_age_fields_no_bounds (line : string) (row : dict) :
  row_of_line line = Ok row ->
  field_text line 70 73 = "" ->
  field_text line 81 82 = "" ->
  field_text line 75 76 = "" ->
  field_text line 77 78 = "" ->
  field_text line 79 80 = "" ->
  get row "age_lower_bound" = PNone /\ get row "age_upper_bound" = PNone.
Proof.
  intros Hrow E1 E2 E3 E4 E5.
  destruct (resolved_age line row Hrow)
    as [a [i [r52 [r27 [r12 [Ha [Hi [H52 [H27 [H12 Hb]]]]]]]]]].
  rewrite E1 in Ha; rewrite E2 in Hi; rewrite E3 in H52;
    rewrite E4 in H27; rewrite E5 in H12.
  inversion Ha; inversion Hi; inversion H52; inversion H27; inversion H12; subst.
  inversion Hb; split; reflexivity.
Qed.

(** C2.  A detail age of zero is populated, but [or] takes the integer 0
    for false and moves on to the recodes.  The record of a newborn who
    lived zero minutes, with code 01 in its four recodes, gets the
    bounds of the infant recode, 0 to 59 minutes; with the 27-way recode
    alone it gets that recode's bounds, 0 to one month.  In both the
    detail age decodes to 0, so the bounds it gives would be 0 and 0. *)
Theorem zero_detail_age_is_skipped :
  process_detail_age (field_text line_zero_minutes 70 73) = Ok ("detail_age", PInt 0)
  /\ process_detail_age (field_text line_zero_minutes_recode_27 70 73)
     = Ok ("detail_age", PInt 0)
  /\ process_age_recode_27 (field_text line_zero_minutes_recode_27 77 78)
     = Ok ("age_recode_27", PTuple 0 (1 * MONTHS_AS_MS))
  /\ (exists row,
        row_of_line line_zero_minutes = Ok row
        /\ get row "age_lower_bound" = PInt 0
        /\ get row "age_upper_bound" = PInt (59 * MINUTES_AS_MS))
  /\ (exists row,
        row_of_line line_zero_minutes_recode_27 = Ok row
        /\ get row "age_lower_bound" = PInt 0
        /\ get row "age_upper_bound" = PInt (1 * MONTHS_AS_MS)).
Proof.
  repeat split; try (vm_compute; reflexivity);
    eexists; (split; [vm_compute; reflexivity |]);
    split; vm_compute; reflexivity.
Qed.

(** ** Short lines *)

Lemma substring_nil (i m : nat) : substring i m "" = "".
Proof. destruct i, m; reflexivity. Qed.

Lemma substring_zero (i : nat) (s : string) : substring i 0 s = "".
Proof.
  revert i; induction s as [| c s IH]; intros i.
  - apply substring_nil.
  - destruct i; simpl; [reflexivity | apply IH].
Qed.

Lemma substring_past (i m : nat) (s : string) :
  (String.length s <= i)%nat -> substring i m s = "".
Proof.
  revert i; induction s as [| c s IH]; intros i Hi.
  - apply substring_nil.
  - simpl in Hi; destruct i; [lia |]; simpl.
    apply IH; lia.
Qed.

Lemma length_substring_0 (n : nat) (s : string) :
  (String.length (substring 0 n s) <= n)%nat.
Proof.
  revert s; induction n as [| n IH]; intros s.
  - destruct s; simpl; lia.
  - destruct s; simpl; [lia |].
    specialize (IH s); lia.
Qed.

Lemma substring_of_prefix (i m n : nat) (s : string) :
  (i + m <= n)%nat -> substring i m (substring 0 n s) = substring i m s.
Proof.
  revert i m n; induction s as [| c s IH]; intros i m n H.
  - rewrite !substring_nil; reflexivity.
  - destruct n as [| n].
    + assert (i = 0 /\ m = 0)%nat as [-> ->] by lia; reflexivity.
    + simpl (substring 0 (S n) (String c s)).
      destruct i as [| i].
      * destruct m as [| m]; [reflexivity |].
        simpl; f_equal; apply (IH 0%nat); lia.
      * simpl; apply IH; lia.
Qed.

(** A byte range that ends at or before the cut reads the same text. *)
Lemma field_text_before_cut (line : string) (n start end_ : nat) :
  (end_ <= n)%nat ->
  field_text (slice_to n line) start end_ = field_text line start end_.
Proof.
  intros H; unfold field_text, slice, slice_to.
  destruct (Nat.le_gt_cases end_ (start - 1)) as [Hle | Hgt].
  - replace (end_ - (start - 1))%nat with 0%nat by lia.
    rewrite !substring_zero; reflexivity.
  - rewrite substring_of_prefix by lia; reflexivity.
Qed.

(** A byte range that starts after the end of the line reads the empty
    text. *)
Lemma field_text_past_end (line : string) (start end_ : nat) :
  (String.length line < start)%nat -> field_text line start end_ = "".
Proof.
  intros H; unfold field_text, slice.
  rewrite substring_past by lia; reflexivity.
Qed.

Lemma field_text_after_cut (line : string) (n start end_ : nat) :
  (n < start)%nat -> field_text (slice_to n line) start end_ = "".
Proof.
  intros H; apply field_text_past_end.
  unfold slice_to; pose proof (length_substring_0 n line); lia.
Qed.

Lemma blank_fields_decode :
  Forall (fun e => is_ok (process_field (snd e) "" []) = true) mapping.
Proof.
  apply Forall_forall; apply forallb_forall; vm_compute; reflexivity.
Qed.

Lemma bindings_of_cut (line : string) (n : nat) (entries : list ((nat * nat) * string))
    (bs : list (string * pyval)) :
  on_boundary n entries ->
  Forall (fun e => is_ok (process_field (snd e) "" []) = true) entries ->
  bindings line entries = Ok bs ->
  exists bs', bindings (slice_to n line) entries = Ok bs'.
Proof.
  unfold on_boundary.
  revert bs; induction entries as [| [[s e] f] rest IH]; intros bs Hcut Hblank H.
  - exists []; reflexivity.
  - inversion Hcut as [| ? ? Hc Hcut']; subst.
    inversion Hblank as [| ? ? Hb Hblank']; subst.
    simpl in H, Hc, Hb |- *.
    apply bind_ok_inv in H as [d0 [Hd0 H]].
    apply bind_ok_inv in H as [bs0 [Hbs0 _]].
    destruct (IH _ Hcut' Hblank' Hbs0) as [bs1 ->].
    destruct Hc as [Hc | Hc].
    + rewrite field_text_before_cut by exact Hc.
      rewrite Hd0; simpl; eexists; reflexivity.
    + rewrite field_text_after_cut by exact Hc.
      destruct (process_field f "" []) as [d1 | |]; try discriminate.
      simpl; eexists; reflexivity.
Qed.

Lemma process_line_blank : process_line "" = Ok blank_dict.
Proof. vm_compute; reflexivity. Qed.

Lemma in_keys_value (d0 : dict) (k : string) :
  In k (map fst d0) -> exists v, In (k, v) d0.
Proof.
  intros H; apply in_map_iff in H as [[k' v] [Hk Hin]].
  simpl in Hk; subst; exists v; exact Hin.
Qed.

(** C10 (as the code has it).  Slicing never fails: a byte range that
    lies wholly past the end of a line reads as the empty text, and the
    empty line decodes with every stored value [None] or [False].  When
    a line that decodes is cut at a field boundary, the cut line decodes
    too: the fields before the cut keep their values and the fields
    after it have the values of the empty line. *)
Theorem short_line_decodes :
  (process_line "" = Ok blank_dict
   /\ Forall (fun kv => snd kv = PNone \/ snd kv = PBool false) blank_dict)
  /\ (forall line start end_,
        (String.length line < start)%nat -> field_text line start end_ = "")
  /\ (forall line n d,
        process_line line = Ok d ->
        on_boundary n mapping ->
        exists d',
          process_line (slice_to n line) = Ok d'
          /\ forall start end_ field k,
               In ((start, end_), field) mapping ->
               In k (field_keys field) ->
               get d' k = if (end_ <=? n)%nat then get d k else get blank_dict k).
Proof.
  split; [split; [exact process_line_blank |] |].
  { assert (forallb (fun kv : string * pyval =>
                       match snd kv with
                       | PNone => true
                       | PBool false => true
                       | _ => false
                       end) blank_dict = true) as Hall
      by (vm_compute; reflexivity).
    rewrite forallb_forall in Hall.
    apply Forall_forall; intros kv Hin; specialize (Hall kv Hin); clear Hin.
    destruct (snd kv) as [| [|] | | | | |];
      [left; reflexivity | discriminate | right; reflexivity
      | discriminate | discriminate | discriminate | discriminate | discriminate]. }
  split; [exact field_text_past_end |].
  intros line n d Hd Hcut.
  assert (exists d', process_line (slice_to n line) = Ok d') as [d' Hd'].
  { unfold process_line in Hd |- *.
    rewrite process_fields_bindings in Hd |- *.
    apply bind_ok_inv in Hd as [bs [Hbs _]].
    destruct (bindings_of_cut line n mapping bs Hcut blank_fields_decode Hbs)
      as [bs' ->].
    simpl; eexists; reflexivity. }
  exists d'; split; [exact Hd' |].
  intros start end_ field k Hin Hk.
  destruct (process_line_get _ _ _ _ _ Hd' Hin) as [c' [Hc' Hget']].
  rewrite <- (process_field_keys _ _ _ Hc') in Hk.
  destruct (in_keys_value _ _ Hk) as [v Hv].
  rewrite (Hget' _ _ Hv).
  unfold on_boundary in Hcut.
  rewrite Forall_forall in Hcut; specialize (Hcut _ Hin); simpl in Hcut.
  destruct (Nat.leb_spec end_ n) as [Hle | Hgt].
  - rewrite field_text_before_cut in Hc' by exact Hle.
    destruct (process_line_get _ _ _ _ _ Hd Hin) as [c [Hc Hget]].
    rewrite Hc in Hc'; inversion Hc'; subst c'.
    symmetry; apply Hget; exact Hv.
  - rewrite field_text_after_cut in Hc' by lia.
    destruct (process_line_get _ _ _ _ _ process_line_blank Hin) as [c [Hc Hget]].
    rewrite field_text_past_end in Hc.
    + rewrite Hc in Hc'; inversion Hc'; subst c'.
      symmetry; apply Hget; exact Hv.
    + simpl; lia.
Qed.

Lemma on_boundary_check (n : nat) (entries : list ((nat * nat) * string)) :
  forallb (fun e => (snd (fst e) <=? n)%nat || (n <? fst (fst e))%nat) entries = true ->
  on_boundary n entries.
Proof.
  intros H; rewrite forallb_forall in H.
  apply Forall_forall; intros e He; specialize (H e He).
  apply orb_true_iff in H as [H | H];
    [left; apply Nat.leb_le | right; apply Nat.ltb_lt]; exact H.
Qed.

Lemma short_line_decodes_witness :
  exists d',
    process_line (slice_to 164 line_slot_1) = Ok d'
    /\ get d' "entity_axis_condition_1" = PNone.
Proof.
  destruct short_line_decodes as [_ [_ Hcut]].
  destruct (process_line line_slot_1) as [d | msg | e] eqn:Hd;
    [| vm_compute in Hd; discriminate | vm_compute in Hd; discriminate].
  destruct (Hcut line_slot_1 164%nat d Hd
              (on_boundary_check 164 mapping ltac:(vm_compute; reflexivity)))
    as [d' [Hd' Hval]].
  exists d'; split; [exact Hd' |].
  rewrite (Hval 165%nat 171%nat "entity_axis_condition_1" "entity_axis_condition_1"
             ltac:(apply mem_entry_sound; vm_compute; reflexivity)
             ltac:(vm_compute; left; reflexivity)).
  vm_compute; reflexivity.
Defined.

(** A cut inside a field can make a line that decodes fail: one byte of
    a detail age leaves no count to parse, one byte of an entity-axis
    slot leaves no second character to read. *)
Lemma cut_inside_field_fails :
  is_ok (process_line line_45_years) = true
  /\ process_line line_45_years_cut = Err "Could not parse '' as an integer."
  /\ is_ok (process_line line_slot_1) = true
  /\ process_line line_slot_1_cut = Raise IndexError.
Proof. repeat split; vm_compute; reflexivity. Qed.

(** ** Batches *)

Lemma list_slice_succ {A : Type} (j k : nat) (l : list A) :
  list_slice (S j * k) k l = list_slice (j * k) k (skipn k l).
Proof.
  unfold list_slice; rewrite skipn_skipn.
  f_equal; f_equal; lia.
Qed.

(** Slices of width [k] taken at the first [m] multiples of [k] put the
    list back together as soon as they reach its end. *)
Lemma slices_concat {A : Type} (k m : nat) (l : list A) :
  (length l <= m * k)%nat ->
  concat (map (fun j => list_slice (j * k) k l) (seq 0 m)) = l.
Proof.
  revert l; induction m as [| m IH]; intros l Hlen.
  - destruct l; [reflexivity | simpl in Hlen; lia].
  - rewrite <- cons_seq, <- seq_shift, map_cons, map_map; simpl concat.
    rewrite (map_ext _ (fun j => list_slice (j * k) k (skipn k l)))
      by (intros j; apply list_slice_succ).
    rewrite IH by (rewrite length_skipn; lia).
    unfold list_slice; simpl skipn.
    apply firstn_skipn.
Qed.

Lemma length_list_slice {A : Type} (i k : nat) (l : list A) :
  length (list_slice i k l) = Nat.min k (length l - i).
Proof. unfold list_slice; rewrite length_firstn, length_skipn; reflexivity. Qed.

(** The number of turns of [range(0, n, k)]. *)
Lemma range_turns (n k : nat) :
  (0 < k)%nat ->
  let m := ((n + k - 1) / k)%nat in
  (n <= m * k /\ (0 < m -> (m - 1) * k < n))%nat.
Proof.
  intros Hk m.
  pose proof (Nat.div_mod_eq (n + k - 1) k) as E.
  pose proof (Nat.mod_upper_bound (n + k - 1) k ltac:(lia)) as Hr.
  fold m in E.
  split; [nia |].
  intros Hm; nia.
Qed.

Lemma split_batches_eq (W : Z) (lines : list string) :
  let lpp := lines_per_process W lines in
  split_batches W lines
  = map (fun j => list_slice (j * lpp) lpp lines)
        (seq 0 ((length lines + lpp - 1) / lpp)).
Proof.
  intros lpp; unfold split_batches, py_range; fold lpp.
  rewrite map_map; reflexivity.
Qed.

Lemma lines_per_process_pos (W : Z) (lines : list string) :
  (0 < lines_per_process W lines)%nat.
Proof. unfold lines_per_process; lia. Qed.

(** The batches, one after the other, are the lines. *)
Lemma split_batches_concat (W : Z) (lines : list string) :
  concat (split_batches W lines) = lines.
Proof.
  rewrite split_batches_eq.
  apply slices_concat.
  apply range_turns, lines_per_process_pos.
Qed.

Lemma split_batches_nil (W : Z) (lines : list string) :
  split_batches W lines = [] -> lines = [].
Proof.
  intros H; rewrite <- (split_batches_concat W lines), H; reflexivity.
Qed.

(** C5 (as the code has it).  The worker count is
    [max(cpu_count - 2, 1)], a missing [cpu_count] counting as 0.  The
    lines are cut, in order, into batches of [max(1, N // W)] lines, the
    quotient rounded down: every batch but the last has that many lines,
    the last has between one and that many, and the number of batches is
    [N] divided by that size, rounded up. *)
Theorem batches_by_floor (cpu_count : option Z) (lines : list string) :
  let W := MAX_PARALLEL_PROCESSING cpu_count in
  let lpp := lines_per_process W lines in
  let batches := split_batches W lines in
  W = Z.max (match cpu_count with Some n => n | None => 0 end - 2) 1
  /\ Z.of_nat lpp = Z.max 1 (Z.of_nat (length lines) / W)
  /\ concat batches = lines
  /\ Forall (fun b => (1 <= length b <= lpp)%nat) batches
  /\ Forall (fun b => length b = lpp) (removelast batches)
  /\ length batches = ((length lines + lpp - 1) / lpp)%nat.
Proof.
  intros W lpp batches.
  assert (0 < lpp)%nat as Hpos by apply lines_per_process_pos.
  pose proof (range_turns (length lines) lpp Hpos) as [Hreach Hlast].
  split.
  { unfold W, MAX_PARALLEL_PROCESSING.
    destruct cpu_count as [n |]; [| reflexivity].
    destruct (Z.eqb_spec n 0) as [-> | _]; reflexivity. }
  split.
  { unfold lpp, lines_per_process; lia. }
  split; [apply split_batches_concat |].
  unfold batches; rewrite split_batches_eq; fold lpp.
  set (m := ((length lines + lpp - 1) / lpp)%nat) in *.
  split; [| split].
  - apply Forall_forall; intros b Hb.
    apply in_map_iff in Hb as [j [<- Hj]].
    apply in_seq in Hj.
    rewrite length_list_slice.
    assert ((m - 1) * lpp < length lines)%nat as Hm by (apply Hlast; lia).
    assert (j * lpp < length lines)%nat by nia.
    lia.
  - destruct m as [| m'] eqn:Em; [constructor |].
    rewrite seq_S, map_app; simpl map.
    rewrite removelast_last.
    apply Forall_forall; intros b Hb.
    apply in_map_iff in Hb as [j [<- Hj]].
    apply in_seq in Hj.
    rewrite length_list_slice.
    assert ((S m' - 1) * lpp < length lines)%nat as Hm by (apply Hlast; lia).
    assert (S j * lpp <= length lines)%nat by nia.
    lia.
  - rewrite length_map, length_seq; reflexivity.
Qed.

(** Six processors give four workers; ten lines are then cut into five
    batches of two, not into batches of three, and the batches outnumber
    the workers. *)
Lemma batches_exceed_workers :
  MAX_PARALLEL_PROCESSING (Some 6) = 4
  /\ ceil_div 10 4 = 3
  /\ map (@length string) (split_batches (MAX_PARALLEL_PROCESSING (Some 6)) ten_lines)
     = [2; 2; 2; 2; 2]%nat
  /\ ~ (Z.of_nat (length (split_batches (MAX_PARALLEL_PROCESSING (Some 6)) ten_lines))
        <= MAX_PARALLEL_PROCESSING (Some 6)).
Proof.
  repeat split; try (vm_compute; reflexivity).
  vm_compute; intros H; apply H; reflexivity.
Qed.

(** ** The pool *)

Lemma map_nth_seq {A : Type} (l : list A) (d : A) :
  map (fun j => nth j l d) (seq 0 (length l)) = l.
Proof.
  induction l as [| x l IH]; [reflexivity |].
  simpl length; rewrite <- cons_seq, <- seq_shift, map_cons, map_map.
  simpl; f_equal; exact IH.
Qed.

(** A future that is done stays done, and a future in the completion
    order gets done: its cell holds the outcome of its batch. *)
Lemma run_pool_cell (batches : list (list string)) (completion : list nat)
    (cells : futures_t) (j : nat) :
  (j < length batches)%nat ->
  cells j = Some (process_lines_batch (nth j batches [])) \/ In j completion ->
  fold_left (complete batches) completion cells j
  = Some (process_lines_batch (nth j batches [])).
Proof.
  intros Hj; revert cells.
  induction completion as [| i rest IH]; intros cells H; simpl.
  - destruct H as [H | []]; exact H.
  - apply IH.
    unfold complete.
    destruct (nth_error batches i) as [batch |] eqn:Hi.
    + destruct (Nat.eqb_spec j i) as [-> | Hne].
      * left; rewrite (nth_error_nth _ _ _ Hi); reflexivity.
      * destruct H as [H | [H | H]]; [left; exact H | congruence | right; exact H].
    + apply nth_error_None in Hi.
      destruct H as [H | [H | H]]; [left; exact H | lia | right; exact H].
Qed.

Lemma all_done_some (batches : list (list string)) :
  all_done (map (fun b => Some (process_lines_batch b)) batches)
  = Some (map process_lines_batch batches).
Proof.
  induction batches as [| b bs IH]; [reflexivity |].
  simpl; rewrite IH; reflexivity.
Qed.

(** Whatever the order in which the futures finish, once all have
    finished the outcomes read in submission order are those of the
    batches in submission order. *)
Lemma all_done_in_order (batches : list (list string)) (completion : list nat) :
  all_finish completion batches ->
  all_done (map (run_pool batches completion) (seq 0 (length batches)))
  = Some (map process_lines_batch batches).
Proof.
  intros Hall.
  rewrite (map_ext_in _ (fun j => Some (process_lines_batch (nth j batches [])))).
  - rewrite <- (map_map (fun j => nth j batches [])
                        (fun b => Some (process_lines_batch b))).
    rewrite map_nth_seq.
    apply all_done_some.
  - intros j Hj; apply in_seq in Hj.
    apply run_pool_cell; [lia | right; apply Hall; lia].
Qed.

(** ** Rows of a batch and of the whole input *)

Lemma process_lines_loop_rows (lines : list string) (temp : list dict) :
  process_lines_loop lines temp
  = (rows <- map_outcome row_of_line lines ;; Ok (temp ++ rows)%list).
Proof.
  revert temp; induction lines as [| line rest IH]; intros temp; simpl.
  - rewrite app_nil_r; reflexivity.
  - destruct (row_of_line line) as [row | msg | e]; simpl; try reflexivity.
    rewrite IH.
    destruct (map_outcome row_of_line rest) as [rows | msg | e]; simpl;
      try reflexivity.
    rewrite <- app_assoc; reflexivity.
Qed.

(** A batch yields the frame of the rows of its lines, in order, or the
    failure of its first line that does not decode. *)
Lemma process_lines_batch_rows (lines : list string) :
  process_lines_batch lines
  = (rows <- map_outcome row_of_line lines ;; pl_DataFrame rows).
Proof.
  unfold process_lines_batch; rewrite process_lines_loop_rows.
  destruct (map_outcome row_of_line lines); reflexivity.
Qed.

Section MapOutcome.
Context {A B : Type} (f : A -> outcome B).

Lemma map_outcome_app (xs ys : list A) :
  map_outcome f (xs ++ ys)
  = (us <- map_outcome f xs ;; vs <- map_outcome f ys ;; Ok (us ++ vs)%list).
Proof.
  induction xs as [| x xs IH]; simpl.
  - rewrite bind_ret_r; reflexivity.
  - destruct (f x) as [y | msg | e]; simpl; try reflexivity.
    rewrite IH.
    destruct (map_outcome f xs) as [us | msg | e]; simpl; try reflexivity.
    destruct (map_outcome f ys) as [vs | msg | e]; reflexivity.
Qed.

Lemma map_outcome_raise (xs : list A) (e : exn) :
  map_outcome f xs = Raise e -> exists x, In x xs /\ f x = Raise e.
Proof.
  induction xs as [| x xs IH]; simpl; [discriminate |].
  destruct (f x) as [y | msg | e'] eqn:Hx; simpl.
  - destruct (map_outcome f xs) as [ys | msg | e']; simpl; try discriminate.
    intros H; inversion H; subst.
    destruct (IH eq_refl) as [x' [Hin Hx']].
    exists x'; split; [right; exact Hin | exact Hx'].
  - discriminate.
  - intros H; inversion H; subst; exists x; split; [left; reflexivity | exact Hx].
Qed.

Lemma map_outcome_all_ok (xs : list A) :
  Forall (fun x => is_ok (f x) = true) xs -> exists ys, map_outcome f xs = Ok ys.
Proof.
  induction 1 as [| x xs Hx _ [ys IH]]; simpl.
  - exists []; reflexivity.
  - destruct (f x) as [y | |]; try discriminate.
    rewrite IH; simpl; eexists; reflexivity.
Qed.

Lemma map_outcome_ok_all (xs : list A) (ys : list B) :
  map_outcome f xs = Ok ys -> Forall2 (fun x y => f x = Ok y) xs ys.
Proof.
  revert ys; induction xs as [| x xs IH]; simpl; intros ys H.
  - inversion H; constructor.
  - apply bind_ok_inv in H as [y [Hy H]].
    apply bind_ok_inv in H as [ys' [Hys H]].
    inversion H; subst; constructor; [exact Hy | apply IH; exact Hys].
Qed.

Lemma map_outcome_ok_in (xs : list A) (ys : list B) (x : A) :
  map_outcome f xs = Ok ys -> In x xs -> exists y, f x = Ok y.
Proof.
  revert ys; induction xs as [| x0 xs IH]; simpl; intros ys H Hin; [contradiction |].
  apply bind_ok_inv in H as [y [Hy H]].
  apply bind_ok_inv in H as [ys' [Hys _]].
  destruct Hin as [-> | Hin]; [exists y; exact Hy | apply (IH _ Hys Hin)].
Qed.

(** The outcome on a list whose first failure is an error is that
    error. *)
Lemma map_outcome_first_error (before after : list A) (bad : A) (msg : string) :
  Forall (fun x => is_ok (f x) = true) before ->
  f bad = Err msg ->
  map_outcome f (before ++ bad :: after) = Err msg.
Proof.
  intros Hb Hbad.
  rewrite map_outcome_app.
  destruct (map_outcome_all_ok before Hb) as [us ->].
  simpl; rewrite Hbad; reflexivity.
Qed.

Lemma map_outcome_some_fails (xs : list A) :
  Exists (fun x => is_ok (f x) = false) xs -> is_ok (map_outcome f xs) = false.
Proof.
  induction 1 as [x xs Hx | x xs _ IH]; simpl.
  - destruct (f x); [discriminate | reflexivity | reflexivity].
  - destruct (f x); simpl; try reflexivity.
    destruct (map_outcome f xs); [discriminate | reflexivity | reflexivity].
Qed.

(** Mapping batch by batch and joining the results is mapping over the
    joined batches, failures included. *)
Lemma map_outcome_concat (batches : list (list A)) :
  (parts <- map_outcome (map_outcome f) batches ;; Ok (concat parts))
  = map_outcome f (concat batches).
Proof.
  induction batches as [| b bs IH]; simpl; [reflexivity |].
  rewrite map_outcome_app, <- IH.
  destruct (map_outcome f b) as [us | msg | e]; simpl; try reflexivity.
  destruct (map_outcome (map_outcome f) bs) as [parts | msg | e]; reflexivity.
Qed.
End MapOutcome.

Lemma up_all_map (batches : list (list string)) :
  up_all (map process_lines_batch batches)
  = map_outcome process_lines_batch batches.
Proof.
  induction batches as [| b bs IH]; simpl; [reflexivity |].
  rewrite IH; reflexivity.
Qed.

(** The frames of the batches hold the rows of the batches. *)
Lemma batch_frames_rows (batches : list (list string)) (dfs : list DataFrame) :
  map_outcome process_lines_batch batches = Ok dfs ->
  map_outcome (map_outcome row_of_line) batches = Ok (map data dfs).
Proof.
  revert dfs; induction batches as [| b bs IH]; intros dfs H; simpl in *.
  - inversion H; reflexivity.
  - apply bind_ok_inv in H as [df [Hdf H]].
    apply bind_ok_inv in H as [rest [Hrest H]].
    inversion H; subst dfs; clear H.
    rewrite process_lines_batch_rows in Hdf.
    apply bind_ok_inv in Hdf as [rows [Hrows Hdf]].
    unfold pl_DataFrame in Hdf.
    destruct (infer_schema rows) as [sch |]; [| discriminate].
    inversion Hdf; subst df; clear Hdf.
    rewrite Hrows, (IH _ Hrest); reflexivity.
Qed.

Lemma pl_concat_data (dfs : list DataFrame) (df : DataFrame) :
  pl_concat dfs = Ok df -> data df = concat (map data dfs).
Proof.
  unfold pl_concat.
  destruct dfs as [| d rest]; [discriminate |].
  destruct (same_schemas (d :: rest)); [| discriminate].
  intros H; inversion H; reflexivity.
Qed.

Lemma future_results_ok (done : list (outcome DataFrame)) :
  Forall (fun r => forall e, r <> Raise e) done -> future_results done = Ok done.
Proof.
  induction 1 as [| r rest Hr _ IH]; simpl; [reflexivity |].
  rewrite IH.
  destruct r as [df | msg | e]; [reflexivity | reflexivity |].
  exfalso; apply (Hr e); reflexivity.
Qed.

Lemma future_results_inv (done results : list (outcome DataFrame)) :
  future_results done = Ok results -> results = done.
Proof.
  revert results; induction done as [| r rest IH]; simpl; intros results H.
  - inversion H; reflexivity.
  - destruct r as [df | msg | e]; try discriminate;
      apply bind_ok_inv in H as [rs [Hrs H]];
      inversion H; subst; rewrite (IH _ Hrs); reflexivity.
Qed.

(** ** The pipeline *)

Section PipelineProperties.
Variable cast_row : dict -> outcome dict.

(** Once every future has finished, the run is the two passes over the
    outcomes of the batches, the concatenation and the cast. *)
Lemma pipeline_run (cpu_count : option Z) (completion : list nat)
    (lines : list string) :
  all_finish completion (split_batches (MAX_PARALLEL_PROCESSING cpu_count) lines) ->
  parallel_process_lines cast_row cpu_count completion lines
  = Some (results <- future_results
                       (map process_lines_batch
                            (split_batches (MAX_PARALLEL_PROCESSING cpu_count) lines)) ;;
          dfs <- up_all results ;;
          df <- pl_concat dfs ;;
          cast cast_row df).
Proof.
  intros Hall.
  unfold parallel_process_lines.
  rewrite (all_done_in_order _ _ Hall).
  f_equal.
  destruct (future_results _) as [results | |]; simpl; try reflexivity.
  destruct (up_all results) as [dfs | |]; simpl; try reflexivity.
  destruct (pl_concat dfs) as [df | |]; simpl; try reflexivity.
  apply bind_ret_r.
Qed.

(** A table comes only from lines that all decode: it is the cast of
    their rows in input order. *)
Lemma pipeline_table_inv (cpu_count : option Z) (completion : list nat)
    (lines : list string) (table : list dict) :
  all_finish completion (split_batches (MAX_PARALLEL_PROCESSING cpu_count) lines) ->
  parallel_process_lines cast_row cpu_count completion lines = Some (Ok table) ->
  exists rows,
    map_outcome row_of_line lines = Ok rows /\ map_outcome cast_row rows = Ok table.
Proof.
  intros Hall H.
  rewrite (pipeline_run _ _ _ Hall) in H.
  injection H as H'.
  apply bind_ok_inv in H' as [results [Hres H']].
  apply future_results_inv in Hres; subst results.
  apply bind_ok_inv in H' as [dfs [Hdfs H']].
  apply bind_ok_inv in H' as [df [Hdf Hcast]].
  exists (data df); split; [| exact Hcast].
  rewrite up_all_map in Hdfs.
  apply batch_frames_rows in Hdfs.
  rewrite <- (split_batches_concat (MAX_PARALLEL_PROCESSING cpu_count) lines) at 1.
  rewrite <- map_outcome_concat, Hdfs; simpl.
  rewrite (pl_concat_data _ _ Hdf); reflexivity.
Qed.
End PipelineProperties.

Lemma bindings_error (line : string) (entries : list ((nat * nat) * string))
    (msg : string) :
  bindings line entries = Err msg ->
  exists start end_ field,
    In ((start, end_), field) entries
    /\ process_field field (field_text line start end_) [] = Err msg.
Proof.
  induction entries as [| [[s e] f] rest IH]; simpl; [discriminate |].
  destruct (process_field f (field_text line s e) []) as [d0 | msg' | x] eqn:Hf;
    simpl; try discriminate.
  - destruct (bindings line rest) as [bs | msg' | x]; simpl; try discriminate.
    intros H; inversion H; subst.
    destruct (IH eq_refl) as [s' [e' [f' [Hin Hf']]]].
    exists s', e', f'; split; [right; exact Hin | exact Hf'].
  - intros H; inversion H; subst.
    exists s, e, f; split; [left; reflexivity | exact Hf].
Qed.

(** The error of a line is the error of one of its fields, unchanged. *)
Lemma row_error_is_field_error (line msg : string) :
  row_of_line line = Err msg ->
  exists start end_ field,
    In ((start, end_), field) mapping
    /\ process_field field (field_text line start end_) [] = Err msg.
Proof.
  unfold row_of_line, process_line; rewrite process_fields_bindings.
  intros H.
  destruct (bindings line mapping) as [bs | msg' | x] eqn:Hb; cbn [bind] in H;
    try discriminate.
  inversion H; subst.
  apply bindings_error; exact Hb.
Qed.

(** * Further properties of the code *)

(** ** src/utils.py *)

Lemma maybe_del_keys (d : dict) (k : string) :
  NoDup (map fst d) ->
  NoDup (map fst (maybe_del d k)) /\ ~ In k (map fst (maybe_del d k)).
Proof.
  induction d as [| [k0 v0] d IH]; simpl; intros Hnd.
  - split; [constructor | intros []].
  - inversion Hnd as [| ? ? Hk0 Hnd']; subst.
    destruct (String.eqb_spec k0 k) as [-> | Hne]; simpl.
    + split; assumption.
    + destruct (IH Hnd') as [IH1 IH2].
      split.
      * constructor; [| exact IH1].
        intros Hin; apply Hk0.
        clear - Hin; induction d as [| [k1 v1] d IHd]; simpl in *; [exact Hin |].
        destruct (k1 =? k)%string; simpl in *; [right; exact Hin |].
        destruct Hin as [H | H]; [left; exact H | right; apply IHd; exact H].
      * intros [H | H]; [congruence | apply IH2; exact H].
Qed.

Lemma get_absent (d : dict) (k : string) : ~ In k (map fst d) -> get d k = PNone.
Proof.
  unfold get; induction d as [| [k0 v0] d IH]; simpl; intros H; [reflexivity |].
  destruct (String.eqb_spec k k0) as [-> | _]; [exfalso; apply H; left; reflexivity |].
  apply IH; intros Hin; apply H; right; exact Hin.
Qed.

Lemma get_maybe_del_other (d : dict) (k k' : string) :
  k' <> k -> get (maybe_del d k) k' = get d k'.
Proof.
  intros Hne; unfold get; induction d as [| [k0 v0] d IH]; simpl; [reflexivity |].
  destruct (String.eqb_spec k0 k) as [-> | Hk0]; simpl.
  - destruct (String.eqb_spec k' k); [congruence | reflexivity].
  - rewrite IH; reflexivity.
Qed.

(** [maybe_del] removes the key and nothing else: on a dict (keys all
    different) the key is gone afterwards and reads as [None], every
    other key reads as before, and a dict without the key is returned
    unchanged, with no error. *)
Theorem maybe_del_removes_only_key (d : dict) (k : string) :
  NoDup (map fst d) ->
  get (maybe_del d k) k = PNone
  /\ ~ In k (map fst (maybe_del d k))
  /\ NoDup (map fst (maybe_del d k))
  /\ (forall k', k' <> k -> get (maybe_del d k) k' = get d k')
  /\ (~ In k (map fst d) -> maybe_del d k = d).
Proof.
  intros Hnd.
  destruct (maybe_del_keys d k Hnd) as [H1 H2].
  split; [apply get_absent; exact H2 |].
  split; [exact H2 |].
  split; [exact H1 |].
  split; [intros k' Hne; apply get_maybe_del_other; exact Hne |].
  clear; induction d as [| [k0 v0] d IH]; simpl; intros H; [reflexivity |].
  destruct (String.eqb_spec k0 k) as [-> | _]; [exfalso; apply H; left; reflexivity |].
  f_equal; apply IH; intros Hin; apply H; right; exact Hin.
Qed.

Lemma maybe_del_removes_only_key_witness :
  get (maybe_del [("sex", PStr "F"); ("detail_age", PInt 5)] "detail_age") "detail_age"
  = PNone
  /\ get (maybe_del [("sex", PStr "F"); ("detail_age", PInt 5)] "detail_age") "sex"
     = PStr "F".
Proof.
  destruct (maybe_del_removes_only_key
              [("sex", PStr "F"); ("detail_age", PInt 5)] "detail_age"
              ltac:(apply nodupb_sound; reflexivity))
    as [Hgone [_ [_ [Hother _]]]].
  split; [exact Hgone |].
  rewrite (Hother "sex" ltac:(discriminate)); reflexivity.
Defined.

(** The two range lookups agree: [range_keyed_dict_has_key] is true
    exactly when some range of the dict contains [v]; [get_in_range]
    then returns the value of the first such range, and [None] when there
    is none. *)
Theorem range_lookups_agree (d : RangeKeyedDict) (v : Z) :
  (range_keyed_dict_has_key d v = true
   <-> exists start end_ value, In ((start, end_), value) d /\ start <= v <= end_)
  /\ (range_keyed_dict_has_key d v = false -> get_in_range d v = PNone)
  /\ (range_keyed_dict_has_key d v = true ->
      exists before start end_ value after,
        d = (before ++ ((start, end_), value) :: after)%list
        /\ start <= v <= end_
        /\ Forall (fun e => ~ (fst (fst e) <= v <= snd (fst e))) before
        /\ get_in_range d v = value).
Proof.
  split.
  { unfold range_keyed_dict_has_key; rewrite existsb_exists; split.
    - intros [[[s e] x] [Hin Hr]].
      apply andb_true_iff in Hr as [H1 H2]; apply Z.leb_le in H1, H2.
      exists s, e, x; split; [exact Hin | lia].
    - intros [s [e [x [Hin Hr]]]].
      exists ((s, e), x); split; [exact Hin |].
      apply andb_true_iff; split; apply Z.leb_le; lia. }
  unfold range_keyed_dict_has_key.
  induction d as [| [[s e] x] d [IH1 IH2]]; simpl.
  - split; [reflexivity | discriminate].
  - destruct ((s <=? v) && (v <=? e)) eqn:Hin; simpl.
    + split; [discriminate |].
      intros _; exists [], s, e, x, d.
      apply andb_true_iff in Hin as [H1 H2].
      apply Z.leb_le in H1, H2.
      split; [reflexivity |].
      split; [split; assumption |].
      split; [constructor | reflexivity].
    + split; [exact IH1 |].
      intros H; destruct (IH2 H) as [b [s' [e' [x' [a [Hd [Hr [Hb Hg]]]]]]]].
      exists (((s, e), x) :: b), s', e', x', a.
      split; [rewrite Hd; reflexivity |].
      split; [exact Hr |].
      split; [| exact Hg].
      constructor; [| exact Hb].
      simpl; intros [H1 H2].
      apply andb_false_iff in Hin as [Hin | Hin]; apply Z.leb_gt in Hin; lia.
Qed.

Lemma range_lookups_agree_witness :
  range_keyed_dict_has_key hispanic_origin_mapping 996 = true
  /\ get_in_range hispanic_origin_mapping 300 = PNone
  /\ get_in_range hispanic_origin_mapping 225 = PStr "CENTRAL_AMERICAN".
Proof.
  destruct (range_lookups_agree hispanic_origin_mapping 996) as [[_ Hhas] _].
  destruct (range_lookups_agree hispanic_origin_mapping 300) as [_ [Hnone _]].
  destruct (range_lookups_agree hispanic_origin_mapping 225) as [_ [_ Hsome]].
  split.
  { apply Hhas; exists 996, 999, PNone; split; [| lia].
    unfold hispanic_origin_mapping; simpl; tauto. }
  split; [apply Hnone; reflexivity |].
  destruct (Hsome eq_refl) as [b [s [e [x [a [_ [_ [_ Hg]]]]]]]].
  reflexivity.
Defined.

(** ** The age recodes *)

Ltac zcase :=
  match goal with
  | |- context [(?a <=? ?b)] => destruct (Z.leb_spec a b)
  | |- context [(?a =? ?b)] => destruct (Z.eqb_spec a b)
  | H : context [(?a <=? ?b)] |- _ => destruct (Z.leb_spec a b)
  | H : context [(?a =? ?b)] |- _ => destruct (Z.eqb_spec a b)
  end;
  try (exfalso; lia);
  cbn [andb orb bind] in *.

Ltac units :=
  cbv [YEARS_AS_MS MONTHS_AS_MS DAYS_AS_MS HOURS_AS_MS MINUTES_AS_MS] in *.

Ltac open_decoder Hne Hv :=
  let E := fresh "E" in
  pose proof (proj2 (String.eqb_neq _ _) Hne) as E;
  autounfold with decoders; rewrite E, Hv; cbn [bind].

(** [process_age_recode_52] on a text that parses as [v]: the codes 1..51 give
    a range with [0 <= lower <= upper <= 999] years, the code 52 gives
    [None], every other integer is an error; no exception is raised. *)
Theorem age_recode_52_domain (value : string) (v : Z) :
  value <> "" ->
  try_parse_int value = Ok v ->
  match process_age_recode_52 value with
  | Ok (k, PTuple lo hi) =>
      k = "age_recode_52" /\ 1 <= v <= 51 /\ 0 <= lo <= hi /\ hi <= 999 * YEARS_AS_MS
  | Ok (k, x) => k = "age_recode_52" /\ x = PNone /\ v = 52
  | Err msg =>
      (v < 1 \/ 52 < v) /\ msg = "Invalid value for age_recode_52: " ++ str_of_int v
  | Raise _ => False
  end.
Proof.
  intros Hne Hv; open_decoder Hne Hv.
  repeat zcase; units; repeat split; try reflexivity; lia.
Qed.

Lemma age_recode_52_domain_witness :
  exists lo hi,
    process_age_recode_52 "07" = Ok ("age_recode_52", PTuple lo hi) /\ 0 <= lo <= hi.
Proof.
  pose proof (age_recode_52_domain "07" 7 ltac:(discriminate) eq_refl) as H.
  destruct (process_age_recode_52 "07") as [[k [| | | | lo hi | |]] | |];
    try (exfalso; lia); try contradiction;
    try (destruct H as [_ [H _]]; discriminate).
  destruct H as [-> [_ [Hb _]]].
  exists lo, hi; split; [reflexivity | exact Hb].
Defined.

(** [process_age_recode_27] on a text that parses as [v]: the codes 1..26 give
    a range with [0 <= lower <= upper <= 999] years, the code 27 gives
    [None], every other integer is an error; no exception is raised. *)
Theorem age_recode_27_domain (value : string) (v : Z) :
  value <> "" ->
  try_parse_int value = Ok v ->
  match process_age_recode_27 value with
  | Ok (k, PTuple lo hi) =>
      k = "age_recode_27" /\ 1 <= v <= 26 /\ 0 <= lo <= hi /\ hi <= 999 * YEARS_AS_MS
  | Ok (k, x) => k = "age_recode_27" /\ x = PNone /\ v = 27
  | Err msg =>
      (v < 1 \/ 27 < v) /\ msg = "Invalid value for age_recode_27: " ++ str_of_int v
  | Raise _ => False
  end.
Proof.
  intros Hne Hv; open_decoder Hne Hv.
  repeat zcase; units; repeat split; try reflexivity; lia.
Qed.

Lemma age_recode_27_domain_witness :
  exists lo hi,
    process_age_recode_27 "07" = Ok ("age_recode_27", PTuple lo hi) /\ 0 <= lo <= hi.
Proof.
  pose proof (age_recode_27_domain "07" 7 ltac:(discriminate) eq_refl) as H.
  destruct (process_age_recode_27 "07") as [[k [| | | | lo hi | |]] | |];
    try (exfalso; lia); try contradiction;
    try (destruct H as [_ [H _]]; discriminate).
  destruct H as [-> [_ [Hb _]]].
  exists lo, hi; split; [reflexivity | exact Hb].
Defined.

(** [process_age_recode_12] on a text that parses as [v]: the codes 1..11 give
    a range with [0 <= lower <= upper <= 999] years, the code 12 gives
    [None], every other integer is an error; no exception is raised. *)
Theorem age_recode_12_domain (value : string) (v : Z) :
  value <> "" ->
  try_parse_int value = Ok v ->
  match process_age_recode_12 value with
  | Ok (k, PTuple lo hi) =>
      k = "age_recode_12" /\ 1 <= v <= 11 /\ 0 <= lo <= hi /\ hi <= 999 * YEARS_AS_MS
  | Ok (k, x) => k = "age_recode_12" /\ x = PNone /\ v = 12
  | Err msg =>
      (v < 1 \/ 12 < v) /\ msg = "Invalid value for age_recode_12: " ++ str_of_int v
  | Raise _ => False
  end.
Proof.
  intros Hne Hv; open_decoder Hne Hv.
  repeat zcase; units; repeat split; try reflexivity; lia.
Qed.

Lemma age_recode_12_domain_witness :
  exists lo hi,
    process_age_recode_12 "07" = Ok ("age_recode_12", PTuple lo hi) /\ 0 <= lo <= hi.
Proof.
  pose proof (age_recode_12_domain "07" 7 ltac:(discriminate) eq_refl) as H.
  destruct (process_age_recode_12 "07") as [[k [| | | | lo hi | |]] | |];
    try (exfalso; lia); try contradiction;
    try (destruct H as [_ [H _]]; discriminate).
  destruct H as [-> [_ [Hb _]]].
  exists lo, hi; split; [reflexivity | exact Hb].
Defined.

(** [process_infant_age_recode_22] on a text that parses as [v]: the
    codes 1..22 give a range with [0 <= lower <= upper <= 11] months,
    every other integer is an error (there is no code for an age not
    stated); no exception is raised. *)
Theorem infant_age_recode_22_domain (value : string) (v : Z) :
  value <> "" ->
  try_parse_int value = Ok v ->
  match process_infant_age_recode_22 value with
  | Ok (k, PTuple lo hi) =>
      k = "infant_age_recode_22" /\ 1 <= v <= 22
      /\ 0 <= lo <= hi /\ hi <= 11 * MONTHS_AS_MS
  | Ok _ => False
  | Err msg =>
      (v < 1 \/ 22 < v)
      /\ msg = "Invalid value for infant_age_recode_22: " ++ str_of_int v
  | Raise _ => False
  end.
Proof.
  intros Hne Hv; open_decoder Hne Hv.
  repeat zcase; units; repeat split; try reflexivity; lia.
Qed.

Lemma infant_age_recode_22_domain_witness :
  exists lo hi,
    process_infant_age_recode_22 "07" = Ok ("infant_age_recode_22", PTuple lo hi)
    /\ 0 <= lo <= hi.
Proof.
  pose proof (infant_age_recode_22_domain "07" 7 ltac:(discriminate) eq_refl) as H.
  destruct (process_infant_age_recode_22 "07") as [[k [| | | | lo hi | |]] | |];
    try (exfalso; lia); try contradiction.
  destruct H as [-> [_ [Hb _]]].
  exists lo, hi; split; [reflexivity | exact Hb].
Defined.

Lemma ok_tuple_inj (k k' : string) (a b c d : Z) :
  @Ok (string * pyval) (k, PTuple a b) = Ok (k', PTuple c d) -> a = c /\ b = d.
Proof. intros H; inversion H; split; reflexivity. Qed.

Ltac ordered_bands :=
  intros value value' v w k k' lo hi lo' hi' Hv Hw;
  autounfold with decoders;
  destruct (String.eqb_spec value "") as [-> | _];
  [intros Hdec; discriminate Hdec |];
  destruct (String.eqb_spec value' "") as [-> | _];
  [intros _ Hdec'; discriminate Hdec' |];
  rewrite Hv, Hw; cbn [bind];
  repeat zcase; units;
  intros Hdec Hdec' Hlt;
  first [ discriminate Hdec
        | discriminate Hdec'
        | apply ok_tuple_inj in Hdec as [? ?];
          apply ok_tuple_inj in Hdec' as [? ?]; subst; lia ].

(** The bands of each recode are in the order of the codes and do not
    overlap: when two codes [v < w] both give a range, the upper bound
    for [v] is at most the lower bound for [w]. *)
Theorem age_bands_ordered :
  Forall
    (fun dec : string -> outcome (string * pyval) =>
       forall value value' v w k k' lo hi lo' hi',
         try_parse_int value = Ok v ->
         try_parse_int value' = Ok w ->
         dec value = Ok (k, PTuple lo hi) ->
         dec value' = Ok (k', PTuple lo' hi') ->
         v < w ->
         hi <= lo')
    [process_age_recode_52; process_age_recode_27; process_age_recode_12;
     process_infant_age_recode_22].
Proof.
  repeat (apply Forall_cons; [ordered_bands |]).
  apply Forall_nil.
Qed.

Lemma age_bands_ordered_witness : 3 * DAYS_AS_MS <= 20 * YEARS_AS_MS.
Proof.
  pose proof (Forall_inv age_bands_ordered) as H.
  apply (H "05" "30" 5 30 "age_recode_52" "age_recode_52"
           (3 * DAYS_AS_MS) (3 * DAYS_AS_MS) (20 * YEARS_AS_MS) (24 * YEARS_AS_MS));
    reflexivity.
Defined.

(** The 52-way recode and the infant recode share the codes 1..22.  On
    the codes 2..8 and 10..22 the two decoders give the same range; on
    code 1 the 52-way recode ends at one hour and the infant recode at
    59 minutes, and on code 9 the 52-way recode gives the seventh day
    alone where the infant recode gives days 7 to 13. *)
Theorem infant_codes_in_both_recodes (value : string) (v : Z) :
  value <> "" ->
  try_parse_int value = Ok v ->
  1 <= v <= 22 ->
  exists lo hi hi',
    process_age_recode_52 value = Ok ("age_recode_52", PTuple lo hi)
    /\ process_infant_age_recode_22 value = Ok ("infant_age_recode_22", PTuple lo hi')
    /\ (v <> 1 -> v <> 9 -> hi = hi')
    /\ (v = 1 -> hi = HOURS_AS_MS /\ hi' = 59 * MINUTES_AS_MS)
    /\ (v = 9 -> hi = 7 * DAYS_AS_MS /\ hi' = 13 * DAYS_AS_MS).
Proof.
  intros Hne Hv Hr; open_decoder Hne Hv.
  repeat zcase;
    (eexists; eexists; eexists;
     split; [reflexivity |]; split; [f_equal; f_equal; f_equal; units; lia |];
     units; repeat split; intros; lia).
Qed.

Lemma infant_codes_in_both_recodes_witness :
  process_age_recode_52 "09" = Ok ("age_recode_52", PTuple (7 * DAYS_AS_MS) (7 * DAYS_AS_MS))
  /\ process_infant_age_recode_22 "09"
     = Ok ("infant_age_recode_22", PTuple (7 * DAYS_AS_MS) (13 * DAYS_AS_MS)).
Proof.
  destruct (infant_codes_in_both_recodes "09" 9 ltac:(discriminate) eq_refl ltac:(lia))
    as [lo [hi [hi' [H52 [H22 _]]]]].
  split; reflexivity.
Defined.

(** ** Hispanic origin *)

(** [process_hispanic_origin] on a text that parses as [v]: the codes
    100..299 all have a label, the codes 996..999 give [None], and every
    other integer (below 100, 300..995, above 999) is an error. *)
Theorem hispanic_origin_domain (value : string) (v : Z) :
  value <> "" ->
  try_parse_int value = Ok v ->
  match process_hispanic_origin value with
  | Ok (k, PStr label) => k = "hispanic_origin" /\ 100 <= v <= 299 /\ label <> ""
  | Ok (k, x) => k = "hispanic_origin" /\ x = PNone /\ 996 <= v <= 999
  | Err msg =>
      (v < 100 \/ 299 < v < 996 \/ 999 < v)
      /\ msg = "Invalid value for hispanic_origin: " ++ str_of_int v
  | Raise _ => False
  end.
Proof.
  intros Hne Hv; open_decoder Hne Hv.
  unfold hispanic_origin_mapping, range_keyed_dict_has_key; cbn [get_in_range existsb].
  repeat zcase; cbn [truthy negb String.eqb Ascii.eqb Bool.eqb];
    repeat split; try reflexivity; try discriminate; lia.
Qed.

Lemma hispanic_origin_domain_witness :
  process_hispanic_origin "300" = Err "Invalid value for hispanic_origin: 300".
Proof.
  pose proof (hispanic_origin_domain "300" 300 ltac:(discriminate) eq_refl) as H.
  destruct (process_hispanic_origin "300") as [[k [| | | label | | |]] | msg |];
    try (exfalso; lia); try contradiction;
    try (destruct H as [_ [H _]]; discriminate).
  destruct H as [_ ->]; reflexivity.
Defined.

(** ** Entity-axis condition *)

(** A one-character text parses exactly when the character is a digit. *)
Lemma single_char_parse (c : ascii) :
  match digit_of c with
  | Some d => try_parse_int (String c "") = Ok d /\ 0 <= d <= 9
  | None =>
      try_parse_int (String c "")
      = Err ("Could not parse '" ++ String c "" ++ "' as an integer.")
  end.
Proof.
  destruct c as [[] [] [] [] [] [] [] []];
    vm_compute; first [reflexivity | split; [reflexivity | split; discriminate]].
Qed.

Lemma substring_all (s : string) : substring 0 (String.length s) s = s.
Proof. induction s as [| c s IH]; simpl; [reflexivity | rewrite IH; reflexivity]. Qed.

Lemma entity_condition_cases (n : Z) (value : string) :
  match process_entity_axis_condition n value with
  | Ok (k, PCond part line condition) =>
      k = "entity_axis_condition_" ++ str_of_int n
      /\ 0 <= line <= 9
      /\ exists c1 c2 p,
           value = String c1 (String c2 condition)
           /\ digit_of c1 = Some p
           /\ digit_of c2 = Some line
           /\ part = (if p <=? 5 then "PART_I" else "PART_II")
  | Ok (k, x) =>
      k = "entity_axis_condition_" ++ str_of_int n /\ x = PNone /\ value = ""
  | Err msg =>
      exists c,
        (String.get 0 value = Some c \/ String.get 1 value = Some c)
        /\ digit_of c = None
        /\ msg = "Could not parse '" ++ String c "" ++ "' as an integer."
  | Raise e =>
      e = IndexError /\ exists c p, value = String c "" /\ digit_of c = Some p
  end.
Proof.
  unfold process_entity_axis_condition.
  destruct value as [| c1 rest]; [repeat split; reflexivity |].
  cbn [String.eqb char_at String.get bind].
  pose proof (single_char_parse c1) as H1.
  destruct (digit_of c1) as [p |] eqn:Hp.
  - destruct H1 as [-> _]; cbn [bind].
    destruct rest as [| c2 condition]; cbn [char_at String.get bind].
    + split; [reflexivity | exists c1, p; split; [reflexivity | exact Hp]].
    + pose proof (single_char_parse c2) as H2.
      destruct (digit_of c2) as [line |] eqn:Hl.
      * destruct H2 as [-> Hrange]; cbn [bind].
        unfold slice_from; cbn [String.length Nat.sub substring].
        rewrite Nat.sub_0_r, substring_all.
        split; [reflexivity |].
        split; [exact Hrange |].
        exists c1, c2, p; repeat split; assumption.
      * rewrite H2; cbn [bind].
        exists c2; repeat split; [right; reflexivity | exact Hl].
  - rewrite H1; cbn [bind].
    exists c1; repeat split; [left; reflexivity | exact Hp].
Qed.

(** [process_entity_axis_condition] on any text.  A blank text gives
    [None].  Otherwise the first two characters must be digits: the
    first gives the part ([PART_I] up to 5, [PART_II] above), the second
    the line, and the rest of the text is the condition, unchecked.  A
    first or second character that is not a digit is an error naming
    that character; a text of one digit raises [IndexError]. *)
Theorem entity_condition_shape (n : Z) (value : string) :
  match process_entity_axis_condition n value with
  | Ok (k, PCond part line condition) =>
      k = "entity_axis_condition_" ++ str_of_int n
      /\ 0 <= line <= 9
      /\ exists c1 c2 p,
           value = String c1 (String c2 condition)
           /\ digit_of c1 = Some p
           /\ digit_of c2 = Some line
           /\ part = (if p <=? 5 then "PART_I" else "PART_II")
  | Ok (k, x) =>
      k = "entity_axis_condition_" ++ str_of_int n /\ x = PNone /\ value = ""
  | Err msg =>
      exists c,
        (String.get 0 value = Some c \/ String.get 1 value = Some c)
        /\ digit_of c = None
        /\ msg = "Could not parse '" ++ String c "" ++ "' as an integer."
  | Raise e =>
      e = IndexError /\ exists c p, value = String c "" /\ digit_of c = Some p
  end.
Proof. exact (entity_condition_cases n value). Qed.

(** ** The record layout *)

Lemma substring_split (i m m' : nat) (s : string) :
  substring i m s ++ substring (i + m) m' s = substring i (m + m') s.
Proof.
  revert i m; induction s as [| c s IH]; intros i m.
  - rewrite !substring_nil; reflexivity.
  - destruct i as [| i].
    + destruct m as [| m]; [reflexivity |].
      simpl; f_equal.
      apply (IH 0%nat m).
    + simpl; apply IH.
Qed.

Lemma string_concat_cons (x : string) (xs : list string) :
  String.concat "" (x :: xs) = x ++ String.concat "" xs.
Proof.
  destruct xs; simpl; [| reflexivity].
  induction x; simpl; [reflexivity | f_equal; assumption].
Qed.

Lemma raw_fields_concat (line : string) (from : nat)
    (entries : list ((nat * nat) * string)) :
  contiguous from entries = true ->
  (from <= layout_end from entries)%nat
  /\ String.concat "" (raw_fields line entries)
     = slice from (layout_end from entries) line.
Proof.
  revert from; induction entries as [| [[s e] f] rest IH]; intros from H.
  - split; [simpl; lia |].
    unfold slice; simpl; rewrite Nat.sub_diag, substring_zero; reflexivity.
  - simpl in H.
    apply andb_true_iff in H as [H Hrest].
    apply andb_true_iff in H as [Hs He].
    apply Nat.eqb_eq in Hs; apply Nat.leb_le in He; subst s.
    destruct (IH e Hrest) as [Hle IHc].
    cbn [layout_end].
    split; [lia |].
    change (raw_fields line (((from + 1)%nat, e, f) :: rest))
      with (slice (from + 1 - 1) e line :: raw_fields line rest).
    rewrite string_concat_cons, IHc.
    unfold slice.
    replace (from + 1 - 1)%nat with from by lia.
    replace (layout_end e rest - from)%nat
      with ((e - from) + (layout_end e rest - e))%nat by lia.
    rewrite <- substring_split.
    f_equal; f_equal; lia.
Qed.

(** The byte ranges of the layout cut a record into consecutive pieces:
    put back together in layout order, the bytes read for the fields are
    the first 817 bytes of the line, each byte read once. *)
Theorem layout_covers_record (line : string) :
  String.concat "" (raw_fields line mapping) = slice_to 817 line.
Proof.
  destruct (raw_fields_concat line 0 mapping ltac:(vm_compute; reflexivity))
    as [_ ->].
  reflexivity.
Qed.

(** ** What [process_line] reads *)

Lemma undecoded_field_stores_nothing (field value : string) :
  undecoded field = true -> process_field field value [] = Ok [].
Proof.
  unfold undecoded; intros H.
  apply orb_true_iff in H as [H | H]; apply String.eqb_eq in H; subst field;
    reflexivity.
Qed.

Lemma bindings_same_texts (line line' : string)
    (entries : list ((nat * nat) * string)) :
  Forall (fun e => undecoded (snd e) = false ->
                   field_text line (fst (fst e)) (snd (fst e))
                   = field_text line' (fst (fst e)) (snd (fst e))) entries ->
  bindings line entries = bindings line' entries.
Proof.
  induction 1 as [| [[s e] f] rest Hx _ IH]; [reflexivity |].
  cbn [bindings]; cbn [fst snd] in Hx.
  rewrite IH.
  destruct (undecoded f) eqn:Hf.
  - rewrite !(undecoded_field_stores_nothing f _ Hf); reflexivity.
  - rewrite (Hx eq_refl); reflexivity.
Qed.

(** [process_line] reads nothing but the trimmed bytes of the fields it
    decodes: two lines that agree on them give the same outcome, whatever
    their reserved positions and their data year (bytes 102-105, which
    have a name in the layout but no decoder) hold. *)
Theorem undecoded_bytes_are_ignored (line line' : string) :
  Forall (fun e => undecoded (snd e) = false ->
                   field_text line (fst (fst e)) (snd (fst e))
                   = field_text line' (fst (fst e)) (snd (fst e))) mapping ->
  process_line line = process_line line'.
Proof.
  intros H; unfold process_line.
  rewrite !process_fields_bindings, (bindings_same_texts line line' mapping H).
  reflexivity.
Qed.

Lemma undecoded_bytes_are_ignored_witness :
  process_line line_data_year = process_line "".
Proof.
  apply undecoded_bytes_are_ignored.
  apply Forall_forall; intros e He Hdec.
  assert (forallb (fun e => undecoded (snd e)
                            || (field_text line_data_year (fst (fst e)) (snd (fst e))
                                =? field_text "" (fst (fst e)) (snd (fst e)))%string)
                  mapping = true) as Hall by (vm_compute; reflexivity).
  rewrite forallb_forall in Hall; specialize (Hall e He).
  rewrite Hdec in Hall; apply String.eqb_eq in Hall; exact Hall.
Defined.

(** ** The keys of a decoded line *)

Lemma store_keys (d : dict) (k : string) (v : pyval) :
  map fst (store d (k, v))
  = if existsb (String.eqb k) (map fst d) then map fst d else (map fst d ++ [k])%list.
Proof.
  unfold store; simpl.
  induction d as [| [k0 v0] d IH]; simpl; [reflexivity |].
  destruct (k =? k0)%string; simpl; [reflexivity |].
  rewrite IH.
  destruct (existsb (String.eqb k) (map fst d)); reflexivity.
Qed.

Lemma fold_store_keys (bs : list (string * pyval)) (d : dict) :
  NoDup (map fst d ++ map fst bs) ->
  map fst (fold_left store bs d) = (map fst d ++ map fst bs)%list.
Proof.
  revert d; induction bs as [| [k v] bs IH]; intros d Hnd; simpl.
  - rewrite app_nil_r; reflexivity.
  - simpl in Hnd.
    assert (existsb (String.eqb k) (map fst d) = false) as Hnew.
    { apply not_true_iff_false; intros Hex.
      apply existsb_exists in Hex as [k' [Hin Heq]].
      apply String.eqb_eq in Heq; subst k'.
      apply NoDup_remove_2 in Hnd; apply Hnd.
      apply in_or_app; left; exact Hin. }
    rewrite IH.
    + rewrite store_keys, Hnew, <- app_assoc; reflexivity.
    + rewrite store_keys, Hnew, <- app_assoc; exact Hnd.
Qed.

Lemma decoded_keys_fixed_helper (line : string) (d : dict) :
  process_line line = Ok d -> map fst d = map fst blank_dict.
Proof.
  unfold process_line; rewrite process_fields_bindings.
  intros H; apply bind_ok_inv in H as [bs [Hbs H]].
  inversion H; subst d; clear H.
  pose proof (bindings_keys _ _ _ Hbs) as Hkeys.
  rewrite fold_store_keys; simpl.
  - rewrite Hkeys; vm_compute; reflexivity.
  - rewrite Hkeys; exact layout_keys_nodup.
Qed.

(** Every line that decodes gives a dict with the same 76 keys, all
    different, in layout order: the keys of the empty line's dict.  The
    text of a field changes the value, never the key. *)
Theorem decoded_keys_are_fixed (line : string) (d : dict) :
  process_line line = Ok d ->
  map fst d = map fst blank_dict
  /\ NoDup (map fst d)
  /\ length d = 76%nat.
Proof.
  unfold process_line; rewrite process_fields_bindings.
  intros H; apply bind_ok_inv in H as [bs [Hbs H]].
  inversion H; subst d; clear H.
  pose proof (bindings_keys _ _ _ Hbs) as Hkeys.
  assert (map fst (fold_left store bs []) = layout_keys mapping) as E.
  { rewrite fold_store_keys; simpl; [exact Hkeys |].
    rewrite Hkeys; exact layout_keys_nodup. }
  split; [rewrite E; vm_compute; reflexivity |].
  split; [rewrite E; exact layout_keys_nodup |].
  rewrite <- (length_map fst), E; vm_compute; reflexivity.
Qed.

Lemma decoded_keys_are_fixed_witness :
  exists d, process_line line_slot_3 = Ok d /\ map fst d = map fst blank_dict.
Proof.
  destruct (process_line line_slot_3) as [d | msg | e] eqn:Hd;
    [| vm_compute in Hd; discriminate | vm_compute in Hd; discriminate].
  exists d; split; [reflexivity |].
  apply (decoded_keys_are_fixed line_slot_3 d Hd).
Defined.

(** ** The columns of a row *)

Lemma maybe_del_key_del (d : dict) (k : string) :
  map fst (maybe_del d k) = key_del (map fst d) k.
Proof.
  induction d as [| [k0 v0] d IH]; simpl; [reflexivity |].
  destruct (k0 =? k)%string; simpl; [reflexivity | rewrite IH; reflexivity].
Qed.

Lemma fold_maybe_del_keys (ks : list string) (d : dict) :
  map fst (fold_left maybe_del ks d) = fold_left key_del ks (map fst d).
Proof.
  revert d; induction ks as [| k ks IH]; intros d; simpl; [reflexivity |].
  rewrite IH, maybe_del_key_del; reflexivity.
Qed.

Lemma fold_store_key_add (bs : list (string * pyval)) (d : dict) :
  map fst (fold_left store bs d) = fold_left key_add (map fst bs) (map fst d).
Proof.
  revert d; induction bs as [| [k v] bs IH]; intros d; simpl; [reflexivity |].
  rewrite IH, store_keys; reflexivity.
Qed.

Lemma drop_loop_keys (ks : list string) (d : dict) :
  map fst
    (fold_left
       (fun d k =>
          if startswith "entity_axis_condition_" k
             || startswith "record_axis_condition_" k
          then maybe_del d k else d)
       ks d)
  = fold_left
      (fun keys k =>
         if startswith "entity_axis_condition_" k
            || startswith "record_axis_condition_" k
         then key_del keys k else keys)
      ks (map fst d).
Proof.
  revert d; induction ks as [| k ks IH]; intros d; [reflexivity |].
  cbn [fold_left].
  rewrite IH.
  destruct (startswith "entity_axis_condition_" k
            || startswith "record_axis_condition_" k);
    [rewrite maybe_del_key_del |]; reflexivity.
Qed.

Lemma assemble_row_keys (d : dict) :
  map fst (assemble_row d) = row_keys (map fst d).
Proof.
  unfold assemble_row, row_keys, drop_slots.
  destruct (age_bounds (final_age d)) as [lower upper].
  rewrite fold_store_key_add, fold_maybe_del_keys, drop_loop_keys.
  reflexivity.
Qed.

Lemma incl_check (l l' : list string) :
  forallb (fun x => existsb (String.eqb x) l') l = true -> incl l l'.
Proof.
  intros H x Hx.
  rewrite forallb_forall in H; specialize (H x Hx).
  apply existsb_exists in H as [y [Hy Heq]].
  apply String.eqb_eq in Heq; subst; exact Hy.
Qed.

(** Every row has the same 31 columns, those of the empty line's row,
    and they are the columns that [dataset_schema] declares, each once:
    the decoded fields that are kept, then the two age bounds and the
    two condition lists. *)
Theorem row_columns_are_the_schema (line : string) (row : dict) :
  row_of_line line = Ok row ->
  map fst row = map fst blank_row
  /\ NoDup (map fst row)
  /\ Permutation (map fst row) (map fst dataset_schema).
Proof.
  intros Hrow; unfold row_of_line in Hrow.
  apply bind_ok_inv in Hrow as [d [Hd Hrow]].
  inversion Hrow; subst row; clear Hrow.
  pose proof (decoded_keys_fixed_helper line d Hd) as Hkeys.
  assert (map fst (assemble_row d) = map fst blank_row) as E.
  { unfold blank_row; rewrite !assemble_row_keys, Hkeys; reflexivity. }
  rewrite E.
  assert (NoDup (map fst blank_row)) as Hnd
    by (apply nodupb_sound; vm_compute; reflexivity).
  split; [reflexivity |].
  split; [exact Hnd |].
  apply NoDup_Permutation_bis; [exact Hnd | vm_compute; lia |].
  apply incl_check; vm_compute; reflexivity.
Qed.

Lemma row_columns_are_the_schema_witness :
  exists row,
    row_of_line line_slot_3 = Ok row
    /\ Permutation (map fst row) (map fst dataset_schema).
Proof.
  destruct (row_of_line line_slot_3) as [row | msg | e] eqn:Hrow;
    [| vm_compute in Hrow; discriminate | vm_compute in Hrow; discriminate].
  exists row; split; [reflexivity |].
  apply (row_columns_are_the_schema line_slot_3 row Hrow).
Defined.

Lemma get_fold_maybe_del_other (ks : list string) (d : dict) (k : string) :
  ~ In k ks -> get (fold_left maybe_del ks d) k = get d k.
Proof.
  revert d; induction ks as [| k0 ks IH]; intros d Hk; simpl; [reflexivity |].
  rewrite IH by (intros H; apply Hk; right; exact H).
  apply get_maybe_del_other.
  intros ->; apply Hk; left; reflexivity.
Qed.

Lemma get_drop_loop_other (ks : list string) (d : dict) (k : string) :
  startswith "entity_axis_condition_" k = false ->
  startswith "record_axis_condition_" k = false ->
  get (fold_left
         (fun d k' =>
            if startswith "entity_axis_condition_" k'
               || startswith "record_axis_condition_" k'
            then maybe_del d k' else d)
         ks d) k
  = get d k.
Proof.
  intros He Hr; revert d; induction ks as [| k0 ks IH]; intros d; [reflexivity |].
  cbn [fold_left]; rewrite IH.
  destruct (startswith "entity_axis_condition_" k0
            || startswith "record_axis_condition_" k0) eqn:Hk0; [| reflexivity].
  apply get_maybe_del_other.
  intros ->; rewrite He, Hr in Hk0; discriminate.
Qed.

Lemma assemble_row_get_kept (d : dict) (k : string) :
  startswith "entity_axis_condition_" k = false ->
  startswith "record_axis_condition_" k = false ->
  ~ In k removed_fields ->
  ~ In k ["age_lower_bound"; "age_upper_bound";
          "entity_axis_conditions"; "record_axis_conditions"] ->
  get (assemble_row d) k = get d k.
Proof.
  intros He Hr Hrm Hnew.
  unfold assemble_row, drop_slots.
  destruct (age_bounds (final_age d)) as [lower upper].
  cbn [fold_left]; rewrite !get_store.
  repeat match goal with
         | |- context [(k =? ?s)%string] =>
             destruct (String.eqb_spec k s) as [-> | _];
             [exfalso; apply Hnew; simpl; tauto |]
         end.
  change (get (fold_left maybe_del removed_fields
                 (fold_left
                    (fun d k' =>
                       if startswith "entity_axis_condition_" k'
                          || startswith "record_axis_condition_" k'
                       then maybe_del d k' else d)
                    (map fst d) d)) k = get d k).
  rewrite get_fold_maybe_del_other by exact Hrm.
  apply get_drop_loop_other; assumption.
Qed.

(** The assembly changes no value it keeps: a key that is not a slot,
    not one of the ten removed fields and not one of the four new
    columns reads in the row as it read in the decoded dict. *)
Theorem assembled_row_keeps_values (d : dict) (k : string) :
  startswith "entity_axis_condition_" k = false ->
  startswith "record_axis_condition_" k = false ->
  ~ In k removed_fields ->
  ~ In k ["age_lower_bound"; "age_upper_bound";
          "entity_axis_conditions"; "record_axis_conditions"] ->
  get (assemble_row d) k = get d k.
Proof. exact (assemble_row_get_kept d k). Qed.

Lemma assembled_row_keeps_values_witness :
  get (assemble_row [("sex", PStr "F"); ("detail_age", PInt 5)]) "sex" = PStr "F".
Proof.
  rewrite (assembled_row_keeps_values [("sex", PStr "F"); ("detail_age", PInt 5)] "sex");
    [reflexivity | reflexivity | reflexivity | |].
  - unfold removed_fields; simpl; intuition discriminate.
  - simpl; intuition discriminate.
Defined.

(** ** Record-axis conditions *)

Lemma record_slot_in_mapping (i : nat) :
  (1 <= i <= 20)%nat ->
  In (((339 + 5 * i)%nat, (343 + 5 * i)%nat), record_slot_name i) mapping.
Proof.
  intros Hi.
  apply mem_entry_sound.
  destruct i as [| i]; [lia |].
  enumerate i 20 by (vm_compute; reflexivity).
  lia.
Qed.

Lemma process_field_record_slot (i : nat) (value : string) :
  (1 <= i <= 20)%nat ->
  process_field (record_slot_name i) value []
  = (kv <- process_record_axis_condition (Z.of_nat i) value ;; Ok (store [] kv)).
Proof.
  intros Hi.
  destruct i as [| i]; [lia |].
  enumerate i 20 by (run_chain; reflexivity).
  lia.
Qed.

(** When a line decodes, the dict holds under the name of record-axis
    slot [i] the text of the slot, or [None] when the slot is blank. *)
Lemma record_slot_value (line : string) (d : dict) (i : nat) :
  process_line line = Ok d ->
  (1 <= i <= 20)%nat ->
  get d (record_slot_name i)
  = if (record_slot_text line i =? "")%string then PNone
    else PStr (record_slot_text line i).
Proof.
  intros Hd Hi.
  destruct (process_line_get line d _ _ _ Hd (record_slot_in_mapping i Hi))
    as [d0 [Hd0 Hget]].
  rewrite process_field_record_slot in Hd0 by exact Hi.
  fold (record_slot_text line i) in Hd0.
  unfold process_record_axis_condition in Hd0.
  destruct (record_slot_text line i =? "")%string;
    cbn [bind] in Hd0; inversion Hd0; subst d0;
    apply Hget; left; reflexivity.
Qed.

Lemma filter_truthy_texts (texts : list string) :
  filter truthy
    (map (fun s => if (s =? "")%string then PNone else PStr s) texts)
  = map PStr (filter (fun s => negb (s =? "")%string) texts).
Proof.
  induction texts as [| s texts IH]; simpl; [reflexivity |].
  destruct (s =? "")%string eqn:Hs; simpl; [exact IH |].
  rewrite Hs; simpl; rewrite IH; reflexivity.
Qed.

(** The [record_axis_conditions] of a row are the texts of the
    record-axis slots that are not blank, in slot order, with no
    placeholder for a blank slot: at most twenty strings, none empty. *)
Theorem record_axis_conditions_are_the_slots (line : string) (row : dict) :
  row_of_line line = Ok row ->
  get row "record_axis_conditions"
  = PList (map PStr
             (filter (fun s => negb (s =? "")%string)
                     (map (record_slot_text line) (seq 1 20)))).
Proof.
  intros Hrow; unfold row_of_line in Hrow.
  apply bind_ok_inv in Hrow as [d [Hd Hrow]].
  inversion Hrow; subst row; clear Hrow.
  destruct (assemble_row_get d) as [_ [_ [_ ->]]].
  f_equal.
  rewrite <- filter_truthy_texts, map_map.
  unfold collect_conditions, slots; rewrite map_map.
  f_equal.
  apply map_ext_in; intros i Hi; apply in_seq in Hi.
  apply (record_slot_value line d i Hd); lia.
Qed.

Lemma record_axis_conditions_are_the_slots_witness :
  exists row,
    row_of_line line_two_conditions = Ok row
    /\ get row "record_axis_conditions" = PList [PStr "I251"; PStr "E119"].
Proof.
  destruct (row_of_line line_two_conditions) as [row | msg | e] eqn:Hrow;
    [| vm_compute in Hrow; discriminate | vm_compute in Hrow; discriminate].
  exists row; split; [reflexivity |].
  rewrite (record_axis_conditions_are_the_slots line_two_conditions row Hrow).
  vm_compute; reflexivity.
Defined.

(** ** More on the pipeline *)

Lemma split_batches_length (W : Z) (lines : list string) :
  length (split_batches W lines)
  = ((length lines + lines_per_process W lines - 1) / lines_per_process W lines)%nat.
Proof.
  rewrite split_batches_eq, length_map, length_seq; reflexivity.
Qed.

(** An input with no line: no batch is made, and [pl.concat] is called
    on an empty list, so the run raises [ValueError] instead of
    returning an empty table, whatever the worker count. *)
Theorem empty_input_raises (cast_row : dict -> outcome dict)
    (cpu_count : option Z) (completion : list nat) :
  split_batches (MAX_PARALLEL_PROCESSING cpu_count) [] = []
  /\ parallel_process_lines cast_row cpu_count completion [] = Some (Raise ValueError).
Proof.
  assert (split_batches (MAX_PARALLEL_PROCESSING cpu_count) [] = []) as E.
  { apply length_zero_iff_nil.
    rewrite split_batches_length.
    pose proof (lines_per_process_pos (MAX_PARALLEL_PROCESSING cpu_count) []) as Hpos.
    apply Nat.div_small; simpl length; lia. }
  split; [exact E |].
  unfold parallel_process_lines; rewrite E; reflexivity.
Qed.

Lemma max_parallel_processing_pos (cpu_count : option Z) :
  1 <= MAX_PARALLEL_PROCESSING cpu_count.
Proof. unfold MAX_PARALLEL_PROCESSING; lia. Qed.

(** The number of batches against the worker count [W] and the number
    of lines [N]: with at most [W] lines every line is a batch of its
    own; with more there are at least [W] batches and fewer than [2 W],
    and exactly [W] when [W] divides [N]. *)
Theorem batch_count_bounds (cpu_count : option Z) (lines : list string) :
  let W := MAX_PARALLEL_PROCESSING cpu_count in
  let N := Z.of_nat (length lines) in
  let n := Z.of_nat (length (split_batches W lines)) in
  (N <= W -> n = N)
  /\ (W <= N -> W <= n <= 2 * W - 1)
  /\ (0 < N -> N mod W = 0 -> n = W).
Proof.
  intros W N n.
  pose proof (max_parallel_processing_pos cpu_count) as HW; fold W in HW.
  pose proof (lines_per_process_pos W lines) as Hpos.
  pose proof (range_turns (length lines) _ Hpos) as [Hreach Hlast].
  assert (Z.of_nat (lines_per_process W lines) = Z.max 1 (N / W)) as Hlpp
    by (unfold lines_per_process, N; lia).
  unfold n; rewrite split_batches_length.
  set (m := ((length lines + lines_per_process W lines - 1)
             / lines_per_process W lines)%nat) in *.
  set (lpp := lines_per_process W lines) in *.
  pose proof (Z.div_mod N W ltac:(lia)) as Hdiv.
  pose proof (Z.mod_pos_bound N W ltac:(lia)) as Hmod.
  assert (0 <= N / W) as Hq by (apply Z.div_pos; unfold N; lia).
  assert (N <= Z.of_nat m * Z.of_nat lpp) as Hreach' by (unfold N; nia).
  assert (0 < Z.of_nat m -> (Z.of_nat m - 1) * Z.of_nat lpp < N) as Hlast'.
  { intros Hm; assert (0 < m)%nat as Hm' by lia.
    specialize (Hlast Hm'); unfold N; nia. }
  split; [| split].
  - intros Hle.
    assert (N / W = 0 \/ N = W) as [Hz | Hz].
    { destruct (Z.eq_dec N W) as [-> | Hne]; [right; reflexivity | left].
      apply Z.div_small; unfold N in *; lia. }
    + assert (Z.of_nat lpp = 1) as H1 by lia.
      rewrite H1 in *.
      destruct (Z.eq_dec (Z.of_nat m) 0) as [H0 | H0]; [lia |].
      specialize (Hlast' ltac:(lia)); lia.
    + assert (N / W = 1) as Hone by (rewrite Hz; apply Z.div_same; lia).
      assert (Z.of_nat lpp = 1) as H1 by lia.
      rewrite H1 in *.
      destruct (Z.eq_dec (Z.of_nat m) 0) as [H0 | H0]; [lia |].
      specialize (Hlast' ltac:(lia)); lia.
  - intros Hge.
    assert (1 <= N / W) as Hq1.
    { apply Z.div_le_lower_bound; lia. }
    assert (Z.of_nat lpp = N / W) as H1 by lia.
    rewrite H1 in *.
    assert (0 < Z.of_nat m) as Hm by nia.
    specialize (Hlast' Hm).
    split; nia.
  - intros HN Hm0.
    rewrite Hm0 in Hdiv.
    assert (1 <= N / W) as Hq1 by nia.
    assert (Z.of_nat lpp = N / W) as H1 by lia.
    rewrite H1 in *.
    assert (0 < Z.of_nat m) as Hm by nia.
    specialize (Hlast' Hm).
    nia.
Qed.

Lemma batch_count_bounds_witness :
  4 <= Z.of_nat (length (split_batches (MAX_PARALLEL_PROCESSING (Some 6)) ten_lines))
  <= 2 * 4 - 1.
Proof.
  destruct (batch_count_bounds (Some 6) ten_lines) as [_ [Hmore _]].
  apply Hmore; vm_compute; discriminate.
Defined.

Lemma future_results_first_raise (done : list (outcome DataFrame)) (i : nat) (e : exn) :
  nth_error done i = Some (Raise e) ->
  (forall j e', (j < i)%nat -> nth_error done j <> Some (Raise e')) ->
  future_results done = Raise e.
Proof.
  revert i; induction done as [| r rest IH]; intros i Hi Hbefore.
  - destruct i; discriminate.
  - destruct i as [| i]; simpl in Hi.
    + inversion Hi; reflexivity.
    + assert (future_results rest = Raise e) as Hrest.
      { apply (IH i Hi).
        intros j e' Hj; apply (Hbefore (S j) e'); lia. }
      simpl; rewrite Hrest.
      destruct r as [df | msg | e']; [reflexivity | reflexivity |].
      exfalso; apply (Hbefore 0%nat e'); [lia | reflexivity].
Qed.

(** The outcomes of the batches are read in two passes, exceptions
    first: when some batch raises an exception the run raises the
    exception of the first such batch, even if an earlier batch ended
    with an error. *)
Theorem exception_outranks_error (cast_row : dict -> outcome dict)
    (cpu_count : option Z) (completion : list nat) (lines : list string)
    (i : nat) (e : exn) :
  let outcomes :=
    map process_lines_batch
        (split_batches (MAX_PARALLEL_PROCESSING cpu_count) lines) in
  all_finish completion (split_batches (MAX_PARALLEL_PROCESSING cpu_count) lines) ->
  nth_error outcomes i = Some (Raise e) ->
  (forall j e', (j < i)%nat -> nth_error outcomes j <> Some (Raise e')) ->
  parallel_process_lines cast_row cpu_count completion lines = Some (Raise e).
Proof.
  intros outcomes Hall Hi Hbefore.
  rewrite (pipeline_run cast_row _ _ _ Hall).
  fold outcomes.
  rewrite (future_results_first_raise outcomes i e Hi Hbefore).
  reflexivity.
Qed.

Lemma exception_outranks_error_witness :
  process_lines_batch [line_bad_month] = Err "Could not parse 'x' as an integer."
  /\ parallel_process_lines cast_nothing (Some 6) [0; 1]%nat
       [line_bad_month; line_selector_3]
     = Some (Raise KeyError).
Proof.
  split; [vm_compute; reflexivity |].
  apply (exception_outranks_error cast_nothing (Some 6) [0; 1]%nat
           [line_bad_month; line_selector_3] 1 KeyError).
  - intros i Hi; vm_compute in Hi.
    destruct i as [| [| i]]; simpl; auto.
    exfalso; apply Nat.leb_le in Hi; discriminate.
  - vm_compute; reflexivity.
  - intros j e' Hj.
    assert (j = 0)%nat as -> by lia.
    vm_compute; discriminate.
Defined.

(** ** The size of a parsed integer *)

Lemma digit_of_range (c : ascii) (d : Z) : digit_of c = Some d -> 0 <= d <= 9.
Proof.
  unfold digit_of.
  destruct ((48 <=? nat_of_ascii c) && (nat_of_ascii c <=? 57))%nat eqn:H;
    [| discriminate].
  apply andb_true_iff in H as [H1 H2].
  apply Nat.leb_le in H1, H2.
  intros E; inversion E; lia.
Qed.

Lemma pow10_succ (n : nat) : 10 ^ Z.of_nat (S n) = 10 * 10 ^ Z.of_nat n.
Proof. rewrite Nat2Z.inj_succ, Z.pow_succ_r by lia; reflexivity. Qed.

Lemma pow10_pos (n : nat) : 0 < 10 ^ Z.of_nat n.
Proof. apply Z.pow_pos_nonneg; lia. Qed.

Lemma digits_tail_bound (n : nat) :
  forall (s : string) (acc v : Z),
    (String.length s <= n)%nat ->
    0 <= acc ->
    digits_tail acc s = Some v ->
    acc <= v < (acc + 1) * 10 ^ Z.of_nat (String.length s).
Proof.
  induction n as [| n IH]; intros s acc v Hlen Hacc H.
  - destruct s; [| simpl in Hlen; lia].
    simpl in H |- *; inversion H; lia.
  - destruct s as [| c s']; [simpl in H |- *; inversion H; lia |].
    simpl in Hlen.
    cbn [digits_tail] in H.
    pose proof (pow10_pos (String.length s')) as Hp.
    destruct (digit_of c) as [d |] eqn:Hd.
    + apply digit_of_range in Hd.
      apply IH in H; [| lia | lia].
      cbn [String.length]; rewrite pow10_succ; nia.
    + destruct (Ascii.eqb c "_"); [| discriminate].
      destruct s' as [| c2 s'']; [discriminate |].
      destruct (digit_of c2) as [d |] eqn:Hd2; [| discriminate].
      apply digit_of_range in Hd2.
      simpl in Hlen.
      apply IH in H; [| lia | lia].
      pose proof (pow10_pos (String.length s'')) as Hp'.
      cbn [String.length]; rewrite !pow10_succ; nia.
Qed.

Lemma digits_bound (s : string) (v : Z) :
  digits s = Some v -> 0 <= v < 10 ^ Z.of_nat (String.length s).
Proof.
  destruct s as [| c s']; [discriminate |].
  unfold digits.
  destruct (digit_of c) as [d |] eqn:Hd; [| discriminate].
  apply digit_of_range in Hd.
  intros H.
  apply (digits_tail_bound (String.length s')) in H; [| lia | lia].
  pose proof (pow10_pos (String.length s')) as Hp.
  cbn [String.length]; rewrite pow10_succ; nia.
Qed.

Lemma length_lstrip (space : ascii -> bool) (s : string) :
  (String.length (lstrip space s) <= String.length s)%nat.
Proof.
  induction s as [| c s IH]; simpl; [lia |].
  destruct (space c); simpl; lia.
Qed.

Lemma length_rstrip (space : ascii -> bool) (s : string) :
  (String.length (rstrip space s) <= String.length s)%nat.
Proof.
  induction s as [| c s IH]; simpl; [lia |].
  destruct (rstrip space s); [destruct (space c) |]; simpl in *; lia.
Qed.

Lemma pow10_le (m n : nat) : (m <= n)%nat -> 10 ^ Z.of_nat m <= 10 ^ Z.of_nat n.
Proof. intros H; apply Z.pow_le_mono_r; lia. Qed.

Lemma try_parse_int_cases (s : string) :
  match try_parse_int s with
  | Ok v => - 10 ^ Z.of_nat (String.length s) < v < 10 ^ Z.of_nat (String.length s)
  | Err msg => msg = "Could not parse '" ++ s ++ "' as an integer."
  | Raise _ => False
  end.
Proof.
  unfold try_parse_int, int_of_str.
  pose proof (length_rstrip is_int_space (lstrip is_int_space s)) as H1.
  pose proof (length_lstrip is_int_space s) as H2.
  destruct (rstrip is_int_space (lstrip is_int_space s)) as [| c body] eqn:E.
  - reflexivity.
  - simpl in H1.
    assert (String.length body < String.length s)%nat as Hb by lia.
    pose proof (pow10_le _ _ (Nat.lt_le_incl _ _ Hb)) as Hpow.
    assert (forall v, digits body = Some v ->
                      0 <= v < 10 ^ Z.of_nat (String.length s)) as Hbody.
    { intros v Hv; apply digits_bound in Hv; lia. }
    assert (forall v, digits (String c body) = Some v ->
                      0 <= v < 10 ^ Z.of_nat (String.length s)) as Hall.
    { intros v Hv; apply digits_bound in Hv.
      pose proof (pow10_le (String.length (String c body)) (String.length s)
                    ltac:(simpl; lia)); lia. }
    destruct c as [[] [] [] [] [] [] [] []];
      (match goal with
       | |- context [digits ?x] => destruct (digits x) as [v |]
       end; simpl;
       [ first [ pose proof (Hall v eq_refl) | pose proof (Hbody v eq_refl) ]; lia
       | reflexivity ]).
Qed.

(** [try_parse_int] never raises, and the integer it parses from a text
    of [n] characters is between [-10^n] and [10^n], both excluded:
    signs, underscores and surrounding whitespace only use up
    characters. *)
Theorem parsed_integer_bound (s : string) :
  match try_parse_int s with
  | Ok v => - 10 ^ Z.of_nat (String.length s) < v < 10 ^ Z.of_nat (String.length s)
  | Err msg => msg = "Could not parse '" ++ s ++ "' as an integer."
  | Raise _ => False
  end.
Proof. exact (try_parse_int_cases s). Qed.

(** ** Values and column types *)

Lemma dict_get_fits {K : Type} (keq : K -> K -> bool) (mapping : list (K * pyval))
    (k : K) :
  labels_only mapping = true ->
  fits (Enum (labels mapping)) (dict_get keq mapping k) = true.
Proof.
  unfold labels, labels_only.
  induction mapping as [| [k0 v0] rest IH]; intros H; [reflexivity |].
  cbn [forallb] in H; apply andb_true_iff in H as [Hv Hrest].
  cbn [dict_get flat_map snd] in *.
  destruct (keq k k0).
  - destruct v0 as [| | | s | | |]; try discriminate; [reflexivity |].
    cbn [fits app existsb]; rewrite String.eqb_refl; reflexivity.
  - specialize (IH Hrest).
    destruct (dict_get keq rest k) as [| | | s | | |]; try discriminate;
      [reflexivity |].
    cbn [fits] in IH |- *.
    rewrite existsb_app, IH; apply orb_true_r.
Qed.

Lemma get_in_range_fits (mapping : RangeKeyedDict) (v : Z) :
  labels_only mapping = true ->
  fits (Enum (labels mapping)) (get_in_range mapping v) = true.
Proof.
  unfold labels, labels_only.
  induction mapping as [| [[s e] v0] rest IH]; intros H; [reflexivity |].
  cbn [forallb] in H; apply andb_true_iff in H as [Hv Hrest].
  cbn [get_in_range flat_map snd] in *.
  destruct ((s <=? v) && (v <=? e)).
  - destruct v0 as [| | | l | | |]; try discriminate; [reflexivity |].
    cbn [fits app existsb]; rewrite String.eqb_refl; reflexivity.
  - specialize (IH Hrest).
    destruct (get_in_range rest v) as [| | | l | | |]; try discriminate;
      [reflexivity |].
    cbn [fits] in IH |- *.
    rewrite existsb_app, IH; apply orb_true_r.
Qed.

Lemma int8_fits (lo hi z : Z) :
  -128 <= lo -> hi <= 127 -> (lo <=? z) && (z <=? hi) = true ->
  fits Int8 (PInt z) = true.
Proof.
  intros Hlo Hhi H.
  apply andb_true_iff in H as [H1 H2]; apply Z.leb_le in H1, H2.
  cbn [fits]; apply andb_true_intro; split; apply Z.leb_le; lia.
Qed.

Ltac decoder_fits :=
  let value := fresh "value" in
  let k := fresh "k" in
  let x := fresh "x" in
  intros value k x;
  autounfold with decoders; unfold bind, iget, sget;
  crunch_eqn;
  (let A := fresh "A" in
   intros A; inversion A; subst;
   first [ reflexivity
         | apply dict_get_fits; reflexivity
         | apply get_in_range_fits; reflexivity
         | eapply int8_fits; [| | eassumption]; lia
         | cbv [injury_at_work_mapping autopsy_mapping dict_get]; crunch_eqn;
           reflexivity ]).

Lemma kept_decoders_fit :
  Forall
    (fun dt : (string -> outcome (string * pyval)) * dtype =>
       forall value k x, fst dt value = Ok (k, x) -> fits (snd dt) x = true)
    kept_decoders.
Proof.
  unfold kept_decoders.
  repeat (apply Forall_cons; [cbn [fst snd]; decoder_fits |]).
  apply Forall_nil.
Qed.

(** What each decoder of a kept column returns fits the type that
    [dataset_schema] declares for the column: a label of the column's
    Enum, a boolean, an integer of eight bits, a string, or [None]. *)
Theorem decoders_fit_their_columns
    (dec : string -> outcome (string * pyval)) (ty : dtype)
    (value k : string) (x : pyval) :
  In (dec, ty) kept_decoders ->
  dec value = Ok (k, x) ->
  fits ty x = true.
Proof.
  intros Hin.
  exact (proj1 (Forall_forall _ _) kept_decoders_fit (dec, ty) Hin value k x).
Qed.

Lemma decoders_fit_their_columns_witness :
  fits month_of_death (PInt 7) = true.
Proof.
  apply (decoders_fit_their_columns process_month_of_death month_of_death
           "07" "month_of_death" (PInt 7));
    [do 3 right; left; reflexivity | reflexivity].
Defined.


Lemma length_substring (i m : nat) (s : string) :
  (String.length (substring i m s) <= m)%nat.
Proof.
  revert i m; induction s as [| c s IH]; intros i m.
  - rewrite substring_nil; simpl; lia.
  - destruct i as [| i]; [| simpl; apply IH].
    destruct m as [| m]; simpl; [lia |].
    specialize (IH 0%nat m); lia.
Qed.

Lemma length_field_text (line : string) (start end_ : nat) :
  (String.length (field_text line start end_) <= end_ - (start - 1))%nat.
Proof.
  unfold field_text, strip, slice.
  pose proof (length_rstrip is_space
                (lstrip is_space (substring (start - 1) (end_ - (start - 1)) line))).
  pose proof (length_lstrip is_space
                (substring (start - 1) (end_ - (start - 1)) line)).
  pose proof (length_substring (start - 1) (end_ - (start - 1)) line).
  lia.
Qed.

Lemma duration_fits (z : Z) :
  - (999 * YEARS_AS_MS) <= z <= 999 * YEARS_AS_MS -> fits Duration (PInt z) = true.
Proof.
  intros H; cbn [fits].
  apply andb_true_intro; split; apply Z.leb_le; units; lia.
Qed.

Lemma ok_snd_inj (k k' : string) (a b : pyval) :
  @Ok (string * pyval) (k, a) = Ok (k', b) -> a = b.
Proof. intros H; inversion H; reflexivity. Qed.

Ltac recode_shape :=
  intros value k x;
  autounfold with decoders;
  destruct (String.eqb_spec value "") as [-> | _];
  [intros Hdec; apply ok_snd_inj in Hdec; left; symmetry; exact Hdec |];
  destruct (try_parse_int value) as [v | msg | e];
  cbn [bind]; [| intros Hdec; discriminate Hdec | intros Hdec; discriminate Hdec];
  repeat zcase; units;
  intros Hdec;
  first [ discriminate Hdec
        | apply ok_snd_inj in Hdec; subst x;
          first [ left; reflexivity
                | right; eexists; eexists; split; [reflexivity | lia] ] ].

Lemma age_recode_52_value (value k : string) (x : pyval) :
  process_age_recode_52 value = Ok (k, x) -> recode_value x.
Proof. revert value k x; unfold recode_value; recode_shape. Qed.

Lemma age_recode_27_value (value k : string) (x : pyval) :
  process_age_recode_27 value = Ok (k, x) -> recode_value x.
Proof. revert value k x; unfold recode_value; recode_shape. Qed.

Lemma age_recode_12_value (value k : string) (x : pyval) :
  process_age_recode_12 value = Ok (k, x) -> recode_value x.
Proof. revert value k x; unfold recode_value; recode_shape. Qed.

Lemma infant_age_recode_22_value (value k : string) (x : pyval) :
  process_infant_age_recode_22 value = Ok (k, x) -> recode_value x.
Proof. revert value k x; unfold recode_value; recode_shape. Qed.

Lemma detail_age_value (value k : string) (x : pyval) :
  process_detail_age value = Ok (k, x) ->
  (String.length value <= 4)%nat ->
  x = PNone
  \/ exists z, x = PInt z /\ - (999 * YEARS_AS_MS) <= z <= 999 * YEARS_AS_MS.
Proof.
  unfold process_detail_age.
  destruct (String.eqb_spec value "") as [-> | _];
    [intros Hdec _; apply ok_snd_inj in Hdec; left; symmetry; exact Hdec |].
  destruct (try_parse_int (slice_to 1 value)) as [based_on | |];
    cbn [bind]; [| discriminate | discriminate].
  pose proof (try_parse_int_cases (slice_from 1 value)) as Hcount.
  destruct (try_parse_int (slice_from 1 value)) as [count | |];
    cbn [bind]; [| discriminate | discriminate].
  intros Hdec Hlen.
  assert (-1000 < count < 1000) as Hc.
  { pose proof (length_substring 1 (String.length value - 1) value) as Hl.
    fold (slice_from 1 value) in Hl.
    pose proof (pow10_le (String.length (slice_from 1 value)) 3 ltac:(lia)) as Hp.
    change (10 ^ Z.of_nat 3) with 1000 in Hp.
    lia. }
  revert Hdec; repeat zcase; units; cbn [dict_item];
    repeat zcase; cbn [bind]; intros Hdec;
    first [ discriminate Hdec
          | apply ok_snd_inj in Hdec; subst x;
            first [ left; reflexivity
                  | right; eexists; split; [reflexivity | lia] ] ].
Qed.

Lemma age_bounds_fit (a i r52 r27 r12 : pyval) :
  (a = PNone
   \/ exists z, a = PInt z /\ - (999 * YEARS_AS_MS) <= z <= 999 * YEARS_AS_MS) ->
  recode_value i -> recode_value r52 -> recode_value r27 -> recode_value r12 ->
  let bounds := age_bounds (py_or (py_or (py_or (py_or (py_or a i) r52) r27) r12) PNone) in
  fits Duration (fst bounds) = true /\ fits Duration (snd bounds) = true.
Proof.
  unfold recode_value.
  intros [-> | [z [-> Hz]]]
         [-> | [l1 [h1 [-> H1]]]] [-> | [l2 [h2 [-> H2]]]]
         [-> | [l3 [h3 [-> H3]]]] [-> | [l4 [h4 [-> H4]]]];
    cbv zeta; unfold py_or;
    try (destruct (z =? 0) eqn:Hz0);
    repeat (progress (cbn [truthy negb age_bounds fst snd]; rewrite ?Hz0));
    (split; first [reflexivity | apply duration_fits; lia]).
Qed.

Lemma in_kept_decoders (dt : (string -> outcome (string * pyval)) * dtype)
    (value k : string) (x : pyval) :
  In dt kept_decoders -> fst dt value = Ok (k, x) -> fits (snd dt) x = true.
Proof.
  intros Hin; revert value k x.
  apply (proj1 (Forall_forall _ _) kept_decoders_fit dt Hin).
Qed.

Ltac kept_column line Hd entry dec ty :=
  right; cbn [fst snd];
  rewrite assemble_row_get_kept;
  [ | reflexivity | reflexivity
    | unfold removed_fields; simpl; intuition discriminate
    | simpl; intuition discriminate ];
  match goal with
  | |- fits _ (get ?d ?col) = true =>
      let Hdec := fresh "Hcol" in
      assert (dec (field_text line (fst (fst entry)) (snd (fst entry)))
              = Ok (col, get d col)) as Hdec
        by (cbn [fst snd]; field_value Hd entry);
      apply (in_kept_decoders (dec, ty) _ _ _
               ltac:(unfold kept_decoders;
                     repeat (first [left; reflexivity | right]))
               Hdec)
  end.

Lemma dict_get_label {K : Type} (keq : K -> K -> bool) (mapping : list (K * pyval))
    (k : K) :
  labels_only mapping = true ->
  dict_get keq mapping k = PNone \/ exists s, dict_get keq mapping k = PStr s.
Proof.
  unfold labels_only.
  induction mapping as [| [k0 v0] rest IH]; intros H; [left; reflexivity |].
  cbn [forallb] in H; apply andb_true_iff in H as [Hv Hrest].
  cbn [dict_get snd] in *.
  destruct (keq k k0); [| exact (IH Hrest)].
  destruct v0 as [| | | s | | |]; try discriminate;
    [left; reflexivity | right; exists s; reflexivity].
Qed.

(** What [process_race_recode_40] returns is [None] or a list of
    strings. *)
Lemma race_recode_40_value (value k : string) (x : pyval) :
  process_race_recode_40 value = Ok (k, x) -> str_list x.
Proof.
  unfold process_race_recode_40, str_list.
  destruct (value =? "")%string;
    [intros H; apply ok_snd_inj in H; left; symmetry; exact H |].
  destruct (try_parse_int value) as [v | |]; cbn [bind]; try discriminate.
  destruct (dict_get_label Z.eqb race_recode_40_mapping v eq_refl) as [E | [s E]];
    unfold iget; rewrite E; cbn [truthy]; [discriminate |].
  destruct (negb (s =? "")%string); [| discriminate].
  destruct (v <=? 14); intros H; apply ok_snd_inj in H; subst x; right.
  - exists [s]; reflexivity.
  - eexists; reflexivity.
Qed.

Lemma collected_slots_fit (name : string) (d : dict) (ty : dtype) (l : list nat) :
  (forall j, In j l ->
             truthy (get d (name ++ str_of_int (Z.of_nat j))) = true ->
             fits ty (get d (name ++ str_of_int (Z.of_nat j))) = true) ->
  forallb (fits ty)
    (filter truthy
       (map (fun i => get d (name ++ str_of_int i)) (map Z.of_nat l))) = true.
Proof.
  induction l as [| j l IH]; intros Hall; [reflexivity |].
  cbn [map filter].
  destruct (truthy (get d (name ++ str_of_int (Z.of_nat j)))) eqn:Ht.
  - cbn [forallb]. rewrite (Hall j (or_introl eq_refl) Ht).
    apply IH. intros k Hk. apply Hall. right; exact Hk.
  - apply IH. intros k Hk. apply Hall. right; exact Hk.
Qed.

Lemma entity_conditions_fit (line : string) (d : dict) :
  process_line line = Ok d ->
  fits entity_axis_conditions
       (PList (collect_conditions "entity_axis_condition_" d)) = true.
Proof.
  intros Hd.
  cbn [fits entity_axis_conditions].
  unfold collect_conditions, slots.
  apply (collected_slots_fit _ d entity_axis_condition). intros j Hin Htruthy.
  apply in_seq in Hin.
  destruct (entity_slot_value line d j Hd ltac:(lia)) as [k [x [Hdec Hget]]].
  unfold entity_slot_name in Hget. rewrite Hget in Htruthy |- *.
  pose proof (entity_condition_cases (Z.of_nat j) (entity_slot_text line j)) as Hc.
  rewrite Hdec in Hc.
  destruct x as [| | | | | part l c |]; try discriminate;
    try (destruct Hc as [_ [Hc _]]; discriminate).
  destruct Hc as [_ [Hl _]].
  cbn [fits entity_axis_condition].
  apply andb_true_intro; split; [| reflexivity].
  apply andb_true_intro; split; [reflexivity |].
  apply andb_true_intro; split; apply Z.leb_le; lia.
Qed.

Lemma record_conditions_fit (line : string) (d : dict) :
  process_line line = Ok d ->
  fits record_axis_conditions
       (PList (collect_conditions "record_axis_condition_" d)) = true.
Proof.
  intros Hd.
  cbn [fits record_axis_conditions].
  unfold collect_conditions, slots.
  apply (collected_slots_fit _ d Categorical). intros j Hin Htruthy.
  apply in_seq in Hin.
  pose proof (record_slot_value line d j Hd ltac:(lia)) as E.
  unfold record_slot_name in E. rewrite E in Htruthy |- *.
  destruct (record_slot_text line j =? "")%string;
    [discriminate | reflexivity].
Qed.

(** The values of a row, column by column: each fits the type of its
    column, and the race recode 40 is [None] or a list of strings. *)
Lemma row_values_fit (line : string) (row : dict) :
  row_of_line line = Ok row ->
  Forall
    (fun ct => (fst ct = "race_recode_40" /\ str_list (get row (fst ct)))
               \/ fits (snd ct) (get row (fst ct)) = true)
    dataset_schema.
Proof.
  intros Hrow.
  pose proof (resolved_age line row Hrow)
    as [a [i [r52 [r27 [r12 [Ha [Hi [H52 [H27 [H12 Hb]]]]]]]]]].
  pose proof (age_bounds_fit a i r52 r27 r12
                (detail_age_value _ _ _ Ha (length_field_text line 70 73))
                (infant_age_recode_22_value _ _ _ Hi)
                (age_recode_52_value _ _ _ H52)
                (age_recode_27_value _ _ _ H27)
                (age_recode_12_value _ _ _ H12)) as Hage.
  cbv zeta in Hage; rewrite <- Hb in Hage; cbn [fst snd] in Hage.
  destruct Hage as [Hlower Hupper].
  clear a i r52 r27 r12 Ha Hi H52 H27 H12 Hb.
  unfold row_of_line in Hrow.
  apply bind_ok_inv in Hrow as [d [Hd Hrow]].
  inversion Hrow; subst row; clear Hrow.
  unfold dataset_schema.
  apply Forall_cons;
    [kept_column line Hd ((19, 19)%nat, "record_type")
       process_record_type record_type |].
  apply Forall_cons;
    [kept_column line Hd ((20, 20)%nat, "resident_status")
       process_resident_status resident_status |].
  apply Forall_cons;
    [kept_column line Hd ((63, 63)%nat, "education")
       process_education education |].
  apply Forall_cons;
    [kept_column line Hd ((65, 66)%nat, "month_of_death")
       process_month_of_death month_of_death |].
  apply Forall_cons;
    [kept_column line Hd ((69, 69)%nat, "sex") process_sex sex |].
  apply Forall_cons; [right; exact Hlower |].
  apply Forall_cons; [right; exact Hupper |].
  apply Forall_cons;
    [kept_column line Hd ((83, 83)%nat, "place_of_death_and_decedents_status")
       process_place_of_death place_of_death |].
  apply Forall_cons;
    [kept_column line Hd ((84, 84)%nat, "marital_status")
       process_marital_status marital_status |].
  apply Forall_cons;
    [kept_column line Hd ((85, 85)%nat, "day_of_week_of_death")
       process_day_of_week_of_death day_of_week_of_death |].
  apply Forall_cons;
    [kept_column line Hd ((106, 106)%nat, "injury_at_work")
       process_injury_at_work injury_at_work |].
  apply Forall_cons;
    [kept_column line Hd ((107, 107)%nat, "manner_of_death")
       process_manner_of_death manner_of_death |].
  apply Forall_cons;
    [kept_column line Hd ((108, 108)%nat, "method_of_disposition")
       process_method_of_disposition method_of_disposition |].
  apply Forall_cons;
    [kept_column line Hd ((109, 109)%nat, "autopsy") process_autopsy autopsy |].
  apply Forall_cons;
    [kept_column line Hd ((144, 144)%nat, "activity_code")
       process_activity_code activity_code |].
  apply Forall_cons;
    [kept_column line Hd ((145, 145)%nat, "place_of_injury")
       process_place_of_injury place_of_injury |].
  apply Forall_cons;
    [kept_column line Hd ((146, 149)%nat, "icd_code") process_icd_code icd_code |].
  apply Forall_cons;
    [kept_column line Hd ((150, 152)%nat, "cause_recode_358")
       process_cause_recode_358 cause_recode_358 |].
  apply Forall_cons;
    [kept_column line Hd ((154, 156)%nat, "cause_recode_113")
       process_cause_recode_113 cause_recode_113 |].
  apply Forall_cons;
    [kept_column line Hd ((157, 159)%nat, "infant_cause_recode_130")
       process_infant_cause_recode_130 infant_cause_recode_130 |].
  apply Forall_cons;
    [kept_column line Hd ((160, 161)%nat, "cause_recode_39")
       process_cause_recode_39 cause_recode_39 |].
  apply Forall_cons.
  { right; cbn [fst snd].
    destruct (assemble_row_get d) as [_ [_ [-> _]]].
    apply (entity_conditions_fit line d Hd). }
  apply Forall_cons.
  { right; cbn [fst snd].
    destruct (assemble_row_get d) as [_ [_ [_ ->]]].
    apply (record_conditions_fit line d Hd). }
  apply Forall_cons;
    [kept_column line Hd ((450, 450)%nat, "race_recode_6")
       process_race_recode_6 race_recode_6 |].
  apply Forall_cons;
    [kept_column line Hd ((484, 486)%nat, "hispanic_origin")
       process_hispanic_origin hispanic_origin |].
  apply Forall_cons;
    [kept_column line Hd ((487, 488)%nat, "hispanic_origin_race_recode")
       process_hispanic_origin_race_recode hispanic_origin_race_recode |].
  apply Forall_cons.
  { left; split; [reflexivity |]; cbn [fst snd].
    rewrite assemble_row_get_kept;
      [ | reflexivity | reflexivity
        | unfold removed_fields; simpl; intuition discriminate
        | simpl; intuition discriminate ].
    assert (process_race_recode_40 (field_text line 489 490)
            = Ok ("race_recode_40", get d "race_recode_40")) as Hrace
      by (field_value Hd ((489, 490)%nat, "race_recode_40")).
    exact (race_recode_40_value _ _ _ Hrace). }
  apply Forall_cons;
    [kept_column line Hd
       ((806, 809)%nat, "decedents_usual_occindu_occupation_4_digit_code")
       process_decedent_occupation_code decedent_occupation_code |].
  apply Forall_cons;
    [kept_column line Hd
       ((810, 811)%nat, "decedents_usual_occindu_occupation_recode")
       process_decedent_occupation_recode decedent_occupation_recode |].
  apply Forall_cons;
    [kept_column line Hd
       ((812, 815)%nat, "decedents_usual_occindu_industry_4_digit_code")
       process_decedent_industry_code decedent_industry_code |].
  apply Forall_cons;
    [kept_column line Hd
       ((816, 817)%nat, "decedents_usual_occindu_industry_recode")
       process_decedent_industry_recode decedent_industry_recode |].
  apply Forall_nil.
Qed.

(** Every value of a row fits the type that [dataset_schema] declares
    for its column, the race recode 40 apart: each label is a category
    of its column's Enum, [month_of_death], [cause_recode_39] and the
    certificate line fit eight bits, the age bounds fit 64 bits, the
    flags are booleans and the lists hold conditions and strings. *)
Theorem rows_fit_the_schema (line : string) (row : dict) :
  row_of_line line = Ok row ->
  Forall
    (fun ct => fst ct = "race_recode_40" \/ fits (snd ct) (get row (fst ct)) = true)
    dataset_schema.
Proof.
  intros Hrow.
  apply (Forall_impl _ (P := fun ct =>
           (fst ct = "race_recode_40" /\ str_list (get row (fst ct)))
           \/ fits (snd ct) (get row (fst ct)) = true)).
  - intros ct [[Hname _] | Hfits]; [left; exact Hname | right; exact Hfits].
  - exact (row_values_fit line row Hrow).
Qed.

Lemma rows_fit_the_schema_witness :
  exists row,
    row_of_line line_two_conditions = Ok row
    /\ Forall
         (fun ct =>
            fst ct = "race_recode_40" \/ fits (snd ct) (get row (fst ct)) = true)
         dataset_schema.
Proof.
  eexists; split; [vm_compute; reflexivity |].
  apply (rows_fit_the_schema line_two_conditions); vm_compute; reflexivity.
Defined.

(** ** Exceptions *)

Lemma bindings_raise (line : string) (entries : list ((nat * nat) * string))
    (x : exn) :
  bindings line entries = Raise x ->
  exists start end_ field,
    In ((start, end_), field) entries
    /\ process_field field (field_text line start end_) [] = Raise x.
Proof.
  induction entries as [| [[s e] f] rest IH]; simpl; [discriminate |].
  destruct (process_field f (field_text line s e) []) as [d0 | msg' | x'] eqn:Hf;
    simpl; try discriminate.
  - destruct (bindings line rest) as [bs | msg' | x']; simpl; try discriminate.
    intros H; inversion H; subst.
    destruct (IH eq_refl) as [s' [e' [f' [Hin Hf']]]].
    exists s', e', f'; split; [right; exact Hin | exact Hf'].
  - intros H; inversion H; subst.
    exists s, e, f; split; [left; reflexivity | exact Hf].
Qed.

Lemma race_recode_40_never_raises (value : string) (x : exn) :
  process_race_recode_40 value <> Raise x.
Proof.
  unfold process_race_recode_40, try_parse_int.
  destruct (value =? "")%string; [discriminate |].
  destruct (int_of_str value) as [v |]; cbn [bind]; [| discriminate].
  destruct (dict_get_label Z.eqb race_recode_40_mapping v eq_refl) as [E | [s E]];
    unfold iget; rewrite E; cbn [truthy]; [discriminate |].
  destruct (negb (s =? "")%string); [| discriminate].
  destruct (v <=? 14); discriminate.
Qed.

Ltac never_raises :=
  let H := fresh "H" in
  first
    [ match goal with
      | |- context [process_race_recode_40 ?value] =>
          destruct (process_race_recode_40 value) eqn:H; cbn [bind];
          [discriminate | discriminate |];
          exfalso; exact (race_recode_40_never_raises _ _ H)
      end
    | intros H; exfalso; revert H;
      autounfold with decoders; unfold bind, try_parse_int;
      crunch_eqn; discriminate ].

Lemma process_field_raise (field value : string) (d : dict) (x : exn) :
  process_field field value d = Raise x ->
  (field = "detail_age" /\ process_detail_age value = Raise x)
  \/ startswith "entity_axis_condition_" field = true
  \/ startswith "record_axis_condition_" field = true.
Proof.
  unfold process_field.
  repeat match goal with
         | |- (if ?c then _ else _) = _ -> _ =>
             let E := fresh "E" in
             destruct c eqn:E; cbv iota; [| clear E];
             [solve
                [ never_raises
                | intros H; left; split; [apply String.eqb_eq; exact E |];
                  destruct (process_detail_age value); cbn [bind] in H;
                  [discriminate H | discriminate H | congruence]
                | intros _; right; left; reflexivity
                | intros _; right; right; reflexivity ] |]
         end.
  discriminate.
Qed.

Lemma layout_slots (s e : nat) (f : string) :
  In ((s, e), f) mapping ->
  (f = "detail_age" -> s = 70%nat /\ e = 73%nat)
  /\ (startswith "entity_axis_condition_" f = true ->
      exists i, (1 <= i <= 20)%nat
                /\ s = (158 + 7 * i)%nat /\ e = (164 + 7 * i)%nat
                /\ f = entity_slot_name i)
  /\ (startswith "record_axis_condition_" f = true ->
      exists i, (1 <= i <= 20)%nat /\ f = record_slot_name i).
Proof.
  intros Hin.
  assert (Hall :
    forallb
      (fun entry : (nat * nat) * string =>
         let '((s, e), f) := entry in
         (if (f =? "detail_age")%string
          then (s =? 70)%nat && (e =? 73)%nat else true)
         && (if startswith "entity_axis_condition_" f
             then existsb
                    (fun i => (s =? 158 + 7 * i)%nat && (e =? 164 + 7 * i)%nat
                              && (f =? entity_slot_name i)%string)
                    (seq 1 20)
             else true)
         && (if startswith "record_axis_condition_" f
             then existsb (fun i => (f =? record_slot_name i)%string) (seq 1 20)
             else true))
      mapping = true) by (vm_compute; reflexivity).
  pose proof (proj1 (forallb_forall _ _) Hall _ Hin) as Hf.
  clear Hall Hin. cbv beta iota in Hf.
  apply andb_true_iff in Hf as [Hf Hrec].
  apply andb_true_iff in Hf as [Hage Hent].
  split; [| split].
  - intros ->. cbn [String.eqb Ascii.eqb Bool.eqb] in Hage.
    apply andb_true_iff in Hage as [Hs He].
    apply Nat.eqb_eq in Hs, He. split; assumption.
  - intros Hp. rewrite Hp in Hent.
    apply existsb_exists in Hent as [i [Hi Hent]].
    apply in_seq in Hi.
    apply andb_true_iff in Hent as [Hent Hname].
    apply andb_true_iff in Hent as [Hs He].
    apply Nat.eqb_eq in Hs, He. apply String.eqb_eq in Hname.
    exists i. repeat split; try assumption; lia.
  - intros Hp. rewrite Hp in Hrec.
    apply existsb_exists in Hrec as [i [Hi Hname]].
    apply in_seq in Hi. apply String.eqb_eq in Hname.
    exists i. split; [lia | assumption].
Qed.

Lemma detail_age_raise (value : string) (x : exn) :
  process_detail_age value = Raise x ->
  x = KeyError /\ try_parse_int (slice_to 1 value) = Ok 3.
Proof.
  unfold process_detail_age.
  destruct (value =? "")%string; [discriminate |].
  pose proof (try_parse_int_cases (slice_to 1 value)) as Hb.
  destruct (try_parse_int (slice_to 1 value)) as [b | |]; cbn [bind];
    [| discriminate | contradiction].
  pose proof (try_parse_int_cases (slice_from 1 value)) as Hc.
  destruct (try_parse_int (slice_from 1 value)) as [c | |]; cbn [bind];
    [| discriminate | contradiction].
  clear Hb Hc.
  destruct ((1 <=? b) && (b <=? 6)) eqn:Hr; [| discriminate].
  apply andb_true_iff in Hr as [H1 H6].
  apply Z.leb_le in H1, H6.
  cbn [dict_item].
  repeat match goal with
         | |- context [if ?b =? ?k then _ else _] =>
             destruct (Z.eqb_spec b k); cbn [bind]; [discriminate |]
         end.
  intros H; inversion H; subst.
  split; [reflexivity | f_equal; lia].
Qed.

Lemma record_condition_never_raises (n : Z) (value : string) (x : exn) :
  process_record_axis_condition n value <> Raise x.
Proof.
  unfold process_record_axis_condition.
  destruct (value =? "")%string; discriminate.
Qed.

(** An exception escapes the decoding of a line from two places only:
    [KeyError] from the detail age, when its unit selector reads 3, and
    [IndexError] from an entity-axis slot whose text is a single digit.
    No other field of the layout raises, whatever its bytes. *)
Theorem only_two_fields_raise (line : string) (x : exn) :
  row_of_line line = Raise x ->
  (x = KeyError
   /\ try_parse_int (slice_to 1 (field_text line 70 73)) = Ok 3)
  \/ (x = IndexError
      /\ exists i c p,
           (1 <= i <= 20)%nat
           /\ entity_slot_text line i = String c ""
           /\ digit_of c = Some p).
Proof.
  unfold row_of_line, process_line; rewrite process_fields_bindings.
  intros H.
  destruct (bindings line mapping) as [bs | msg | x'] eqn:Hb; cbn [bind] in H;
    try discriminate.
  assert (x' = x) by congruence; subst x'; clear H.
  apply bindings_raise in Hb as [s [e [f [Hin Hf]]]].
  destruct (layout_slots s e f Hin) as [Hage [Hent Hrec]].
  destruct (process_field_raise _ _ _ _ Hf) as [[Hname Hdec] | [Hp | Hp]].
  - destruct (Hage Hname) as [-> ->].
    left; exact (detail_age_raise _ _ Hdec).
  - destruct (Hent Hp) as [i [Hi [-> [-> ->]]]].
    rewrite (process_field_entity_slot i _ Hi) in Hf.
    fold (entity_slot_text line i) in Hf.
    pose proof (entity_condition_cases (Z.of_nat i) (entity_slot_text line i)) as Hc.
    destruct (process_entity_axis_condition (Z.of_nat i) (entity_slot_text line i))
      as [kv | msg | x']; cbn [bind] in Hf; try discriminate.
    assert (x' = x) by congruence; subst x'.
    destruct Hc as [-> [c [p [Hv Hd]]]].
    right; split; [reflexivity |].
    exists i, c, p; repeat split; try assumption; lia.
  - destruct (Hrec Hp) as [i [Hi ->]].
    rewrite (process_field_record_slot i _ Hi) in Hf.
    destruct (process_record_axis_condition (Z.of_nat i) (field_text line s e))
      as [kv | msg | x'] eqn:Hr; cbn [bind] in Hf; try discriminate.
    exfalso; exact (record_condition_never_raises _ _ _ Hr).
Qed.

Lemma only_two_fields_raise_witness :
  (KeyError = KeyError
   /\ try_parse_int (slice_to 1 (field_text line_selector_3 70 73)) = Ok 3)
  \/ (KeyError = IndexError
      /\ exists i c p,
           (1 <= i <= 20)%nat
           /\ entity_slot_text line_selector_3 i = String c ""
           /\ digit_of c = Some p).
Proof.
  apply (only_two_fields_raise line_selector_3 KeyError).
  vm_compute; reflexivity.
Defined.

(** The list [process_race_recode_40] returns for a code of the table
    fits the column's Enum, the first fifteen labels of the table, for
    the direct codes and for the composites 15, 16, 19 and 25 only: the
    other composites hold [ASIAN] or [NHOPI], which the Enum has not. *)
Theorem race_recode_40_outside_its_enum (value : string) (v : Z) :
  value <> "" ->
  try_parse_int value = Ok v ->
  1 <= v <= 40 ->
  exists x,
    process_race_recode_40 value = Ok ("race_recode_40", x)
    /\ (fits race_recode_40 x = true <-> v <= 16 \/ v = 19 \/ v = 25).
Proof.
  intros Hne Hv Hr.
  apply String.eqb_neq in Hne.
  unfold process_race_recode_40.
  rewrite Hne, Hv; simpl bind.
  destruct (in_interval 1 40 v Hr) as [k [Hk ->]].
  change (Z.to_nat (40 - 1)) with 39%nat in Hk.
  enumerate k 40 by
    (eexists; split; [reflexivity |];
     split; intros Hf;
     [first [lia | vm_compute in Hf; discriminate Hf]
     | first [vm_compute; reflexivity | exfalso; lia]]).
  exfalso; lia.
Qed.

Lemma race_recode_40_outside_its_enum_witness :
  exists x,
    process_race_recode_40 "22" = Ok ("race_recode_40", x)
    /\ (fits race_recode_40 x = true <-> 22 <= 16 \/ 22 = 19 \/ 22 = 25).
Proof.
  apply (race_recode_40_outside_its_enum "22" 22);
    [discriminate | reflexivity | lia].
Defined.

(** * The run: frames, row order and failures *)

(** ** Inferred types *)

Lemma inferred_eqb_eq : forall a b : inferred, inferred_eqb a b = true -> a = b.
Proof.
  fix IH 1.
  intros [| | | | a' | fa] [| | | | b' | fb]; simpl;
    try discriminate; try reflexivity.
  - intros H; f_equal; apply IH; exact H.
  - intros H; f_equal.
    revert fb H.
    induction fa as [| [n t] ra IHf]; intros [| [m u] rb] H;
      try discriminate; [reflexivity |].
    apply andb_true_iff in H as [H Hrest].
    apply andb_true_iff in H as [Hn Ht].
    apply String.eqb_eq in Hn; subst m.
    rewrite (IH t u Ht), (IHf rb Hrest); reflexivity.
Qed.

Lemma inferred_eqb_refl : forall a : inferred, inferred_eqb a a = true.
Proof.
  fix IH 1.
  intros [| | | | a' | fa]; simpl; try reflexivity.
  - apply IH.
  - induction fa as [| [n t] ra IHf]; [reflexivity |].
    rewrite String.eqb_refl, IH, IHf; reflexivity.
Qed.

Lemma sub_refl (t : inferred) : sub t t = true.
Proof.
  induction t as [| | | | t IH | fields]; simpl; try reflexivity;
    [exact IH | apply (inferred_eqb_refl (IStruct fields))].
Qed.

(** Two types below [t] have a common type, which is below [t]. *)
Lemma supertype_sub : forall a b t : inferred,
  sub a t = true -> sub b t = true ->
  exists c, supertype a b = Some c /\ sub c t = true.
Proof.
  induction a as [| | | | a IH | fa]; intros b t Ha Hb.
  - exists b; split; [reflexivity | exact Hb].
  - destruct b; try (exists IBoolean; split; [reflexivity | exact Ha]);
      destruct t; simpl in Ha, Hb; discriminate.
  - destruct b; try (exists IInt64; split; [reflexivity | exact Ha]);
      destruct t; simpl in Ha, Hb; discriminate.
  - destruct b; try (exists IString; split; [reflexivity | exact Ha]);
      destruct t; simpl in Ha, Hb; discriminate.
  - destruct t as [| | | | t | ft]; simpl in Ha; try discriminate.
    destruct b as [| | | | b | fb]; simpl in Hb; try discriminate.
    + exists (IList a); split; [reflexivity | exact Ha].
    + destruct (IH b t Ha Hb) as [c [Hc Hsub]].
      exists (IList c); split; [simpl; rewrite Hc; reflexivity | exact Hsub].
  - assert (t = IStruct fa) as -> by (symmetry; apply inferred_eqb_eq; exact Ha).
    destruct b as [| | | | b | fb]; try (simpl in Hb; discriminate).
    + exists (IStruct fa); split; [reflexivity | exact Ha].
    + assert (IStruct fb = IStruct fa) as E by (apply inferred_eqb_eq; exact Hb).
      inversion E; subst fb.
      exists (IStruct fa); split; [| exact Ha].
      change (supertype (IStruct fa) (IStruct fa))
        with (if inferred_eqb (IStruct fa) (IStruct fa)
              then Some (IStruct fa) else None).
      rewrite inferred_eqb_refl; reflexivity.
Qed.

(** Joining values that conform to [t], from a type below [t], gives a
    type below [t]. *)
Lemma join_conforming {A : Type} (f : A -> pyval) (t : inferred) (xs : list A) :
  Forall (fun x => conforms t (f x) = true) xs ->
  forall a, sub a t = true ->
  exists u,
    fold_left (fun acc x => join acc (dtype_of (f x))) xs (Some a) = Some u
    /\ sub u t = true.
Proof.
  induction 1 as [| x xs Hx _ IH]; intros a Ha; simpl.
  - exists a; split; [reflexivity | exact Ha].
  - unfold conforms in Hx.
    destruct (dtype_of (f x)) as [b |]; [| discriminate].
    destruct (supertype_sub a b t Ha Hx) as [c [Hc Hsub]].
    cbn [join]; rewrite Hc.
    apply IH; exact Hsub.
Qed.

Lemma list_conforms (t : inferred) (l : list pyval) :
  Forall (fun x => conforms t x = true) l ->
  conforms (IList t) (PList l) = true.
Proof.
  intros Hl.
  destruct (join_conforming (fun x => x) t l Hl INull eq_refl) as [u [Hu Hsub]].
  unfold conforms; cbn [dtype_of].
  rewrite Hu; exact Hsub.
Qed.

(** ** The values of a column *)

Lemma scalar_conforms (ty : dtype) (v : pyval) :
  match ty with ListOf _ | Struct _ => False | _ => True end ->
  fits ty v = true -> conforms (expected ty) v = true.
Proof.
  destruct ty; try contradiction; intros _;
    destruct v; cbn [fits]; try discriminate; reflexivity.
Qed.

Lemma condition_conforms (v : pyval) :
  fits entity_axis_condition v = true ->
  conforms (expected entity_axis_condition) v = true.
Proof.
  destruct v; cbn [fits entity_axis_condition]; try discriminate;
    reflexivity.
Qed.

Lemma list_of_conforms (inner : dtype) (v : pyval) :
  (forall x, fits inner x = true -> conforms (expected inner) x = true) ->
  fits (ListOf inner) v = true ->
  conforms (expected (ListOf inner)) v = true.
Proof.
  intros Hinner.
  destruct v; cbn [fits]; try discriminate; [reflexivity |].
  intros Hl; cbn [expected].
  apply list_conforms.
  apply Forall_forall; intros x Hx.
  apply Hinner.
  rewrite forallb_forall in Hl; apply Hl; exact Hx.
Qed.

Lemma str_list_conforms (x : pyval) :
  str_list x -> conforms (IList IString) x = true.
Proof.
  intros [-> | [parts ->]]; [reflexivity |].
  apply list_conforms.
  apply Forall_forall; intros x Hx.
  apply in_map_iff in Hx as [s [<- _]]; reflexivity.
Qed.

(** A value that fits the type of its column has the type polars
    expects there, some parts [Null]. *)
Lemma schema_types_conform :
  Forall (fun ct => forall v, fits (snd ct) v = true ->
                              conforms (expected (snd ct)) v = true)
         dataset_schema.
Proof.
  unfold dataset_schema.
  repeat (apply Forall_cons;
          [ cbn [snd]; intros v;
            first [ refine (scalar_conforms _ v _); exact I
                  | apply list_of_conforms; intros x;
                    first [ refine (scalar_conforms _ x _); exact I
                          | exact (condition_conforms x) ] ] |]).
  apply Forall_nil.
Qed.

(** Every value of a row has the type of its column. *)
Lemma row_conforms (line : string) (row : dict) :
  row_of_line line = Ok row ->
  Forall (fun ct => conforms (expected (snd ct)) (get row (fst ct)) = true)
         dataset_schema.
Proof.
  intros Hrow.
  pose proof (row_values_fit line row Hrow) as Hfit.
  pose proof schema_types_conform as Hty.
  rewrite Forall_forall in Hfit, Hty |- *.
  intros ct Hct.
  destruct (Hfit ct Hct) as [[Hname Hstr] | Hf]; [| exact (Hty ct Hct _ Hf)].
  assert (snd ct = race_recode_40) as ->.
  { destruct ct as [c ty]; cbn [fst snd] in *; subst c.
    unfold dataset_schema in Hct; simpl in Hct.
    repeat (destruct Hct as [Hct | Hct];
            [inversion Hct; try reflexivity |]).
    contradiction. }
  exact (str_list_conforms _ Hstr).
Qed.

(** ** The frame of decoded rows *)

Lemma add_keys_in (ks cols : list string) (c : string) :
  In c (fold_left
          (fun cols k => if existsb (String.eqb k) cols then cols else (cols ++ [k])%list)
          ks cols) ->
  In c cols \/ In c ks.
Proof.
  revert cols; induction ks as [| k ks IH]; intros cols H; simpl in H.
  - left; exact H.
  - destruct (IH _ H) as [Hc | Hc]; [| right; right; exact Hc].
    destruct (existsb (String.eqb k) cols); [left; exact Hc |].
    apply in_app_or in Hc as [Hc | [<- | []]];
      [left; exact Hc | right; left; reflexivity].
Qed.

(** A column of a frame is a key of one of its rows. *)
Lemma columns_in (rows : list dict) (c : string) :
  In c (columns rows) -> exists row, In row rows /\ In c (map fst row).
Proof.
  unfold columns.
  assert (forall cols,
            In c (fold_left
                    (fun cols row =>
                       fold_left
                         (fun cols k =>
                            if existsb (String.eqb k) cols then cols
                            else (cols ++ [k])%list)
                         (map fst row) cols)
                    rows cols) ->
            In c cols \/ exists row, In row rows /\ In c (map fst row)) as H.
  { induction rows as [| r rows IH]; intros cols H; simpl in H.
    - left; exact H.
    - destruct (IH _ H) as [Hc | [row [Hrow Hc]]].
      + destruct (add_keys_in _ _ _ Hc) as [Hc' | Hc'];
          [left; exact Hc' | right; exists r; split; [left; reflexivity | exact Hc']].
      + right; exists row; split; [right; exact Hrow | exact Hc]. }
  intros Hc; destruct (H [] Hc) as [[] | Hrow]; exact Hrow.
Qed.

Lemma row_keys_in_schema (line : string) (row : dict) :
  row_of_line line = Ok row -> incl (map fst row) (map fst dataset_schema).
Proof.
  intros Hrow; unfold row_of_line in Hrow.
  apply bind_ok_inv in Hrow as [d [Hd Hrow]].
  inversion Hrow; subst row; clear Hrow.
  pose proof (decoded_keys_fixed_helper line d Hd) as Hkeys.
  assert (map fst (assemble_row d) = map fst blank_row) as ->.
  { unfold blank_row; rewrite !assemble_row_keys, Hkeys; reflexivity. }
  apply incl_check; vm_compute; reflexivity.
Qed.

Lemma column_dtypes_some (rows : list dict) (cols : list string) :
  Forall (fun c => exists u, column_dtype rows c = Some u) cols ->
  exists s, column_dtypes rows cols = Some s.
Proof.
  induction 1 as [| c cols [u Hu] _ [s IH]]; simpl.
  - exists []; reflexivity.
  - rewrite Hu, IH; eexists; reflexivity.
Qed.

(** [pl.DataFrame] accepts the rows of lines that decode: every column
    has a type, since the values of a column are [None] or of the one
    type of the column. *)
Lemma decoded_rows_frame (lines : list string) (rows : list dict) :
  map_outcome row_of_line lines = Ok rows ->
  exists s, pl_DataFrame rows = Ok {| schema := s; data := rows |}.
Proof.
  intros Hrows.
  apply map_outcome_ok_all in Hrows.
  assert (forall row, In row rows -> exists line, row_of_line line = Ok row) as Hdec.
  { clear -Hrows; induction Hrows as [| l r ls rs Hr _ IH]; intros row Hin;
      [destruct Hin | destruct Hin as [<- | Hin]].
    - exists l; exact Hr.
    - exact (IH row Hin). }
  clear Hrows.
  assert (exists s, infer_schema rows = Some s) as [s Hs].
  { unfold infer_schema.
    apply column_dtypes_some.
    apply Forall_forall; intros c Hc.
    destruct (columns_in rows c Hc) as [row [Hrow Hkey]].
    destruct (Hdec row Hrow) as [line Hline].
    apply (row_keys_in_schema line row Hline) in Hkey.
    apply in_map_iff in Hkey as [[c' ty] [Hc' Hct]]; cbn [fst] in Hc'; subst c'.
    destruct (join_conforming (fun r => get r c) (expected ty) rows) with (a := INull)
      as [u [Hu _]].
    - apply Forall_forall; intros r Hr.
      destruct (Hdec r Hr) as [l Hl].
      pose proof (row_conforms l r Hl) as Hconf.
      rewrite Forall_forall in Hconf.
      exact (Hconf (c, ty) Hct).
    - reflexivity.
    - exists u; exact Hu. }
  exists s; unfold pl_DataFrame; rewrite Hs; reflexivity.
Qed.

(** A batch raises only when one of its lines does. *)
Lemma batch_raise (batch : list string) (e : exn) :
  process_lines_batch batch = Raise e ->
  exists line, In line batch /\ row_of_line line = Raise e.
Proof.
  rewrite process_lines_batch_rows.
  destruct (map_outcome row_of_line batch) as [rows | msg | x] eqn:Hrows;
    cbn [bind]; try discriminate.
  - destruct (decoded_rows_frame _ _ Hrows) as [s ->]; discriminate.
  - intros H; inversion H; subst x.
    apply map_outcome_raise; exact Hrows.
Qed.

(** The frames of the batches against the rows of the batches: each
    batch that decodes gives the frame of its rows, and a failure is the
    failure of a line. *)
Lemma batch_frames_outcome (batches : list (list string)) :
  match map_outcome (map_outcome row_of_line) batches with
  | Ok parts =>
      exists dfs,
        map_outcome process_lines_batch batches = Ok dfs /\ map data dfs = parts
  | Err msg => map_outcome process_lines_batch batches = Err msg
  | Raise e => map_outcome process_lines_batch batches = Raise e
  end.
Proof.
  induction batches as [| b bs IH]; simpl.
  - exists []; split; reflexivity.
  - rewrite process_lines_batch_rows.
    destruct (map_outcome row_of_line b) as [rows | msg | e] eqn:Hrows;
      cbn [bind]; try reflexivity.
    destruct (decoded_rows_frame _ _ Hrows) as [s ->]; cbn [bind].
    destruct (map_outcome (map_outcome row_of_line) bs) as [parts | msg | e];
      cbn [bind].
    + destruct IH as [dfs [-> Hdata]]; cbn [bind].
      eexists; split; [reflexivity |].
      cbn [map data]; rewrite Hdata; reflexivity.
    + rewrite IH; reflexivity.
    + rewrite IH; reflexivity.
Qed.

(** ** The run *)

Section RunProperties.
Variable cast_row : dict -> outcome dict.

(** When every line decodes, every batch gives its frame, the frames
    hold the rows of the lines in input order, and the run returns the
    cast of these rows when the frames have the same schema and raises
    [SchemaError] when they have not. *)
Lemma pipeline_rows (cpu_count : option Z) (completion : list nat)
    (lines : list string) (rows : list dict) :
  all_finish completion (split_batches (MAX_PARALLEL_PROCESSING cpu_count) lines) ->
  lines <> [] ->
  map_outcome row_of_line lines = Ok rows ->
  exists dfs,
    map_outcome process_lines_batch
      (split_batches (MAX_PARALLEL_PROCESSING cpu_count) lines) = Ok dfs
    /\ concat (map data dfs) = rows
    /\ parallel_process_lines cast_row cpu_count completion lines
       = Some (if same_schemas dfs then map_outcome cast_row rows
               else Raise SchemaError).
Proof.
  intros Hall Hne Hrows.
  rewrite (pipeline_run _ _ _ _ Hall).
  set (batches := split_batches (MAX_PARALLEL_PROCESSING cpu_count) lines) in *.
  pose proof (map_outcome_concat row_of_line batches) as Hcat.
  unfold batches in Hcat at 2; rewrite split_batches_concat, Hrows in Hcat.
  apply bind_ok_inv in Hcat as [parts [Hparts Hcat]].
  inversion Hcat; subst rows; clear Hcat.
  pose proof (batch_frames_outcome batches) as Hframes.
  rewrite Hparts in Hframes.
  destruct Hframes as [dfs [Hdfs Hdata]].
  exists dfs; split; [exact Hdfs |].
  split; [rewrite Hdata; reflexivity |].
  rewrite future_results_ok.
  - cbn [bind]; rewrite up_all_map, Hdfs; cbn [bind].
    destruct dfs as [| df dfs].
    + exfalso; apply Hne, (split_batches_nil (MAX_PARALLEL_PROCESSING cpu_count)).
      fold batches.
      apply map_outcome_ok_all in Hdfs; inversion Hdfs; reflexivity.
    + unfold pl_concat.
      destruct (same_schemas (df :: dfs)); cbn [bind]; [| reflexivity].
      unfold cast; cbn [data]; rewrite Hdata; reflexivity.
  - apply Forall_forall; intros r Hr e ->.
    apply in_map_iff in Hr as [b [Hb Hin]].
    apply batch_raise in Hb as [line [Hline Hraise]].
    assert (In line (concat batches)) as Hmem
      by (apply in_concat; exists b; split; assumption).
    unfold batches in Hmem; rewrite split_batches_concat in Hmem.
    destruct (map_outcome_ok_in _ _ _ line Hrows Hmem) as [row Hrow].
    congruence.
Qed.
End RunProperties.

(** ** The error of a field *)

Lemma err_inj {A : Type} (a b : string) : @Err A a = Err b -> a = b.
Proof. intros H; inversion H; reflexivity. Qed.

Lemma parse_error_text (text msg : string) :
  try_parse_int text = Err msg ->
  msg = "Could not parse '" ++ text ++ "' as an integer.".
Proof.
  intros H; pose proof (try_parse_int_cases text) as Hc.
  rewrite H in Hc; exact Hc.
Qed.

Ltac parse_error_leaf :=
  match goal with
  | Hp : try_parse_int ?text = Err ?m |- field_error _ _ ?m =>
      left; exists text; split; [exact (parse_error_text _ _ Hp) |];
      first [ left; reflexivity
            | right; left; split; [reflexivity |];
              first [left; reflexivity | right; reflexivity]
            | right; right; split; [assumption |];
              eexists; split; [reflexivity |];
              first [left; eassumption | right; eassumption] ]
  end.

Ltac invalid_value_leaf :=
  match goal with
  | |- field_error ?field ?value (_ ++ ?shown) =>
      right;
      first [ exists field, shown; split; [reflexivity |]
            | match eval vm_compute in (field_keys field) with
              | [?key] => exists key, shown; split; [reflexivity |]
              end ];
      split;
      [ first [left; reflexivity | right; vm_compute; reflexivity]
      | first [ left; reflexivity
              | right; eexists; split; [eassumption | reflexivity] ] ]
  end.

Ltac error_leaf :=
  let H := fresh "H" in
  intros H;
  first [ discriminate H
        | apply err_inj in H; subst;
          first [parse_error_leaf | invalid_value_leaf] ].

Lemma process_field_error (field value msg : string) (d : dict) :
  process_field field value d = Err msg -> field_error field value msg.
Proof.
  unfold process_field.
  repeat match goal with
         | |- (if ?c then _ else _) = _ -> _ =>
             let E := fresh "E" in
             destruct c eqn:E; cbv iota; [| clear E];
             [solve
                [ discriminate
                | try (apply String.eqb_eq in E; subst field);
                  autounfold with decoders; unfold bind, char_at, py_int; cbn [dict_item];
                  crunch_eqn; error_leaf ] |]
         end.
  discriminate.
Qed.

(** ** Row order *)

(** C3.  Once every batch has finished, in whatever order and for every
    worker count, hence for every way the lines are cut into batches: a
    table, when one is returned, has one row per input line, in input
    order, each the cast of the row of its line.  When every line
    decodes, each batch gives a frame, the frames hold the rows of the
    lines in input order, and the run returns the cast of these rows if
    the frames of the batches have the same schema; if they have not,
    [pl.concat] refuses them and the run raises [SchemaError]. *)
Theorem row_order_preserved (cast_row : dict -> outcome dict)
    (cpu_count : option Z) (completion : list nat) (lines : list string) :
  all_finish completion (split_batches (MAX_PARALLEL_PROCESSING cpu_count) lines) ->
  (forall table,
     parallel_process_lines cast_row cpu_count completion lines = Some (Ok table) ->
     exists rows,
       Forall2 (fun line row => row_of_line line = Ok row) lines rows
       /\ Forall2 (fun row out => cast_row row = Ok out) rows table)
  /\ (forall rows,
        lines <> [] ->
        map_outcome row_of_line lines = Ok rows ->
        exists dfs,
          map_outcome process_lines_batch
            (split_batches (MAX_PARALLEL_PROCESSING cpu_count) lines) = Ok dfs
          /\ concat (map data dfs) = rows
          /\ parallel_process_lines cast_row cpu_count completion lines
             = Some (if same_schemas dfs then map_outcome cast_row rows
                     else Raise SchemaError)).
Proof.
  intros Hall; split.
  - intros table Htable.
    destruct (pipeline_table_inv cast_row _ _ _ _ Hall Htable) as [rows [Hrows Hcast]].
    exists rows; split; apply map_outcome_ok_all; assumption.
  - intros rows Hne Hrows; apply pipeline_rows; assumption.
Qed.

Lemma three_batches_finish (lines : list string) :
  length lines = 3%nat ->
  all_finish [2; 0; 1]%nat (split_batches (MAX_PARALLEL_PROCESSING (Some 6)) lines).
Proof.
  destruct lines as [| a [| b [| c [| d rest]]]]; try discriminate.
  intros _ i Hi; vm_compute in Hi.
  destruct i as [| [| [| i]]]; simpl; auto.
  exfalso; apply Nat.leb_le in Hi; discriminate.
Qed.

Lemma row_order_preserved_witness :
  exists rows,
    Forall2 (fun line row => row_of_line line = Ok row) three_months rows
    /\ Forall2 (fun row out => cast_nothing row = Ok out) rows three_month_rows.
Proof.
  destruct (row_order_preserved cast_nothing (Some 6) [2; 0; 1]%nat three_months
              (three_batches_finish three_months eq_refl)) as [Htable _].
  apply Htable.
  vm_compute; reflexivity.
Defined.

(** Three lines that decode, one to a batch: the first row has a
    condition, the third an age, so the three frames infer different
    schemas and the run raises [SchemaError]; in one batch the same lines
    give their table. *)
Lemma frames_of_batches_differ :
  parallel_process_lines cast_nothing (Some 6) [2; 0; 1]%nat three_lines
  = Some (Raise SchemaError)
  /\ parallel_process_lines cast_nothing (Some 3) [0]%nat three_lines
     = Some (Ok three_rows).
Proof. split; vm_compute; reflexivity. Qed.

(** ** The first failure *)

(** C4 (as the code has it).  Once every batch has finished, in
    whatever order and for every worker count: when some line does not
    decode the run returns no table; when the first line that does not
    decode fails with an error and no later line raises an exception,
    the run returns that error, which is the error of one of the line's
    fields, unchanged.  The error of a rejected value names the field;
    the error of an integer that does not parse quotes the text and
    names no field. *)
Theorem fail_fast (cast_row : dict -> outcome dict)
    (cpu_count : option Z) (completion : list nat) (lines : list string) :
  all_finish completion (split_batches (MAX_PARALLEL_PROCESSING cpu_count) lines) ->
  (Exists (fun line => is_ok (row_of_line line) = false) lines ->
   exists r,
     parallel_process_lines cast_row cpu_count completion lines = Some r
     /\ is_ok r = false)
  /\ (forall before bad after msg,
        lines = (before ++ bad :: after)%list ->
        Forall (fun line => is_ok (row_of_line line) = true) before ->
        row_of_line bad = Err msg ->
        Forall (fun line => forall e, row_of_line line <> Raise e) after ->
        parallel_process_lines cast_row cpu_count completion lines = Some (Err msg)
        /\ exists start end_ field,
             In ((start, end_), field) mapping
             /\ process_field field (field_text bad start end_) [] = Err msg
             /\ field_error field (field_text bad start end_) msg).
Proof.
  intros Hall; split.
  - intros Hbad.
    destruct (parallel_process_lines cast_row cpu_count completion lines)
      as [r |] eqn:Hrun.
    + exists r; split; [reflexivity |].
      destruct r as [table | msg | e]; try reflexivity.
      destruct (pipeline_table_inv cast_row _ _ _ _ Hall Hrun) as [rows [Hrows _]].
      apply (map_outcome_some_fails row_of_line) in Hbad.
      rewrite Hrows in Hbad; discriminate.
    + rewrite (pipeline_run cast_row _ _ _ Hall) in Hrun; discriminate.
  - intros before bad after msg Hlines Hbefore Hbad Hafter.
    split.
    2: { destruct (row_error_is_field_error _ _ Hbad) as [s [e [f [Hin Hf]]]].
         exists s, e, f; split; [exact Hin |].
         split; [exact Hf | exact (process_field_error _ _ _ _ Hf)]. }
    rewrite (pipeline_run cast_row _ _ _ Hall).
    set (batches := split_batches (MAX_PARALLEL_PROCESSING cpu_count) lines) in *.
    pose proof (map_outcome_concat row_of_line batches) as Hcat.
    unfold batches in Hcat at 2; rewrite split_batches_concat in Hcat.
    rewrite Hlines, (map_outcome_first_error row_of_line _ _ _ _ Hbefore Hbad) in Hcat.
    pose proof (batch_frames_outcome batches) as Hframes.
    rewrite future_results_ok.
    + cbn [bind]; rewrite up_all_map.
      destruct (map_outcome (map_outcome row_of_line) batches) as [parts | msg' | x];
        cbn [bind] in Hcat; try discriminate.
      rewrite Hframes; inversion Hcat; reflexivity.
    + apply Forall_forall; intros r Hr x ->.
      apply in_map_iff in Hr as [b [Hb Hin]].
      apply batch_raise in Hb as [line [Hline Hx]].
      assert (In line lines) as Hmem.
      { rewrite <- (split_batches_concat (MAX_PARALLEL_PROCESSING cpu_count) lines).
        apply in_concat; exists b; split; assumption. }
      rewrite Hlines in Hmem.
      apply in_app_or in Hmem as [Hmem | [<- | Hmem]].
      * rewrite Forall_forall in Hbefore; specialize (Hbefore _ Hmem).
        rewrite Hx in Hbefore; discriminate.
      * congruence.
      * rewrite Forall_forall in Hafter; apply (Hafter _ Hmem x Hx).
Qed.

Lemma fail_fast_witness :
  parallel_process_lines cast_nothing (Some 6) [2; 1; 0]%nat [""; line_bad_month; ""]
  = Some (Err "Could not parse 'x' as an integer.").
Proof.
  assert (all_finish [2; 1; 0]%nat
            (split_batches (MAX_PARALLEL_PROCESSING (Some 6)) [""; line_bad_month; ""]))
    as Hall.
  { intros i Hi; vm_compute in Hi.
    destruct i as [| [| [| i]]]; simpl; auto.
    exfalso; apply Nat.leb_le in Hi; discriminate. }
  destruct (fail_fast cast_nothing (Some 6) [2; 1; 0]%nat [""; line_bad_month; ""] Hall)
    as [_ Hfirst].
  apply (Hfirst [""] line_bad_month [""] "Could not parse 'x' as an integer." eq_refl).
  - constructor; [vm_compute; reflexivity | constructor].
  - vm_compute; reflexivity.
  - constructor; [| constructor].
    intros e He; vm_compute in He; discriminate.
Defined.

(** A month of death that is not a number and an education that is not
    a number end the run with the same error, which names neither field:
    the error of an integer that does not parse carries the text only. *)
Lemma parse_error_names_no_field :
  parallel_process_lines cast_nothing (Some 6) [0]%nat [line_bad_month]
  = Some (Err "Could not parse 'x' as an integer.")
  /\ parallel_process_lines cast_nothing (Some 6) [0]%nat [line_bad_education]
     = Some (Err "Could not parse 'x' as an integer.")
  /\ field_text line_bad_month 65 66 = "x"
  /\ field_text line_bad_month 63 63 = ""
  /\ field_text line_bad_education 63 63 = "x"
  /\ field_text line_bad_education 65 66 = ""
  /\ index 0 "month_of_death" "Could not parse 'x' as an integer." = None.
Proof. repeat split; vm_compute; reflexivity. Qed.
